(** * Health-expenditure dashboard (app2.py): data model, operations and
      their verified properties.

    The dashboard reads a workbook, keeps the sheet [YoY_Health_Expenditure]
    as a wide table, melts it into a long table and renders a table view and
    one of three charts.  The development follows the script:

    - [Binary64]: the floating-point numbers of Python, NumPy and pandas;
    - [Pandas]: the table values and the pandas operations the script calls
      (values are immutable here: every pandas call used by the script
      returns a new frame);
    - [App]: the script's functions, written in a small state-and-exception
      monad over a store of DataFrame objects and the list of Streamlit
      elements emitted so far;
    - the theorems, grouped by function.

    Numbers.  A float is a binary64 number, held by its exact value, a
    rational: [Float q]; the literal [9.7] is the binary64 number nearest
    97/10 ([fl 97]).  Arithmetic is IEEE 754: the exact result rounded to
    the nearest binary64 number, ties to even, or an infinity beyond the
    range.  The two zeros are not told apart.  Labels and text are
    [string]s of 8-bit characters, on which the regular-expression class
    [\d] is exactly ['0'..'9']. *)

From Stdlib Require Import Ascii String QArith Qabs Qround Qpower Qreduction Lqa Lia.
From Stdlib Require Import Permutation Sorted.
From stdpp Require Import gmap strings list.

Local Open Scope string_scope.
Local Open Scope list_scope.

(** ** Python exceptions and results *)

Inductive exn : Type :=
| KeyError      (* a column label that the frame does not have *)
| ValueError    (* NaN converted to int, melt's value_name clash, text where a
                   renderer needs a number, a heatmap of no cells *)
| TypeError     (* arithmetic on text, [len(None)] *)
| OverflowError (* an infinity converted to int *)
| Dangling.     (* a reference that was never allocated; unreachable from Python *)

Inductive result (A : Type) : Type :=
| Ok (a : A)
| Raise (e : exn).
Arguments Ok {A} a.
Arguments Raise {A} e.

Definition rbind {A B} (r : result A) (f : A -> result B) : result B :=
  match r with
  | Ok a => f a
  | Raise e => Raise e
  end.

Fixpoint rmapM {A B} (f : A -> result B) (l : list A) : result (list B) :=
  match l with
  | [] => Ok []
  | x :: l' =>
      rbind (f x) (fun y => rbind (rmapM f l') (fun ys => Ok (y :: ys)))
  end.

(** ** Text helpers *)

Module Text.

(** Python's [sub in s] on strings. *)
Fixpoint contains (sub s : string) : bool :=
  String.prefix sub s ||
  match s with
  | EmptyString => false
  | String _ s' => contains sub s'
  end.

Definition is_digit (a : ascii) : bool :=
  (48 <=? nat_of_ascii a)%nat && (nat_of_ascii a <=? 57)%nat.

Definition digit_val (a : ascii) : Z := Z.of_nat (nat_of_ascii a) - 48.

Fixpoint all_digits (s : string) : bool :=
  match s with
  | EmptyString => true
  | String a s' => is_digit a && all_digits s'
  end.

(** [re.search(r'(\d{4})', s)]: the leftmost position at which four
    digits follow one another; the group is those four characters. *)
Fixpoint re_search_d4 (s : string) : option string :=
  match s with
  | String a (String b (String c (String d _)) as rest) =>
      if is_digit a && is_digit b && is_digit c && is_digit d
      then Some (String a (String b (String c (String d EmptyString))))
      else re_search_d4 rest
  | _ => None
  end.

(** [int(s)] on a string of decimal digits. *)
Fixpoint int_digits (acc : Z) (s : string) : Z :=
  match s with
  | EmptyString => acc
  | String a s' => int_digits (10 * acc + digit_val a) s'
  end.

Definition int_of_string (s : string) : option Z :=
  match s with
  | EmptyString => None
  | _ => if all_digits s then Some (int_digits 0 s) else None
  end.

(** The year the script reads off a column label (lines 52-53). *)
Definition year_of_label (s : string) : option Z :=
  match re_search_d4 s with
  | Some m => int_of_string m
  | None => None
  end.

(** The maximal runs of digits of a string, left to right; [acc] is the
    run being read. *)
Fixpoint digit_runs_from (acc : string) (s : string) : list string :=
  match s with
  | EmptyString =>
      match acc with EmptyString => [] | _ => [acc] end
  | String a s' =>
      if is_digit a then digit_runs_from (acc +:+ String a EmptyString) s'
      else match acc with
           | EmptyString => digit_runs_from EmptyString s'
           | _ => acc :: digit_runs_from EmptyString s'
           end
  end.

Definition digit_runs (s : string) : list string :=
  digit_runs_from EmptyString s.

Definition first4 (s : string) : string := String.substring 0 4 s.

(** The specification's wording: "the first run of exactly four digits",
    coerced to an integer. *)
Definition spec_first_run_of_exactly_four (s : string) : option Z :=
  match List.find (fun r => (String.length r =? 4)%nat) (digit_runs s) with
  | Some r => int_of_string r
  | None => None
  end.

End Text.

(** ** Binary64 numbers *)

Module Binary64.

(** A binary64 number by its exact value, an infinity, or a NaN. *)
Inductive float : Type :=
| Finite (q : Q)
| Infinite (negative : bool)
| NotANumber.

Definition pow2 (e : Z) : Q := (2 ^ e)%Q.

(** The exponent of a positive rational [n/d]: the [e] with
    [2^e <= n/d < 2^(e+1)]. *)
Definition ilog2 (n d : positive) : Z :=
  let k := (Z.log2 (Z.pos n) - Z.log2 (Z.pos d))%Z in
  if Qle_bool (pow2 k) (Z.pos n # d) then k else (k - 1)%Z.

(** The nearest integer, the even one of two at the same distance. *)
Definition nearest_even (q : Q) : Z :=
  let f := Qfloor q in
  match (q - inject_Z f ?= 1 # 2)%Q with
  | Lt => f
  | Gt => (f + 1)%Z
  | Eq => if Z.even f then f else (f + 1)%Z
  end.

(** Rounding of [n/d] with the given sign: 53 significant bits, exponents
    from -1022 (below it the spacing stays [2^-1074]) to 1023. *)
Definition round_abs (negative : bool) (n d : positive) : float :=
  let e := Z.max (ilog2 n d) (-1022) in
  let ulp := pow2 (e - 52) in
  let y := (inject_Z (nearest_even ((Z.pos n # d) / ulp)) * ulp)%Q in
  if Qle_bool (pow2 1024) y then Infinite negative
  else Finite (Qred (if negative then - y else y)).

(** Round to nearest, ties to even. *)
Definition round (q : Q) : float :=
  match Qnum q with
  | Z0 => Finite 0
  | Zpos n => round_abs false n (Qden q)
  | Zneg n => round_abs true n (Qden q)
  end.

(** [float(z)] *)
Definition of_Z (z : Z) : float := round (inject_Z z).

(** [x + y] *)
Definition add (x y : float) : float :=
  match x, y with
  | Finite a, Finite b => round (a + b)
  | Finite _, Infinite s | Infinite s, Finite _ => Infinite s
  | Infinite s, Infinite t => if Bool.eqb s t then Infinite s else NotANumber
  | _, _ => NotANumber
  end.

(** [x * y] *)
Definition mul (x y : float) : float :=
  match x, y with
  | Finite a, Finite b => round (a * b)
  | Finite a, Infinite s | Infinite s, Finite a =>
      match Qnum a with
      | Z0 => NotANumber
      | Zpos _ => Infinite s
      | Zneg _ => Infinite (negb s)
      end
  | Infinite s, Infinite t => Infinite (xorb s t)
  | _, _ => NotANumber
  end.

(** [x / n] for a count [n] of cells: a positive integer, far below
    [2^53], so that the float holding it is exact. *)
Definition div_count (x : float) (n : positive) : float :=
  match x with
  | Finite a => round (a / inject_Z (Z.pos n))
  | _ => x
  end.

(** A sum as it is carried out: which additions, in which order. *)
Inductive plan : Type :=
| Term (x : float)
| Plus (a b : plan).

Fixpoint eval (p : plan) : float :=
  match p with
  | Term x => x
  | Plus a b => add (eval a) (eval b)
  end.

Fixpoint operands (p : plan) : list float :=
  match p with
  | Term x => [x]
  | Plus a b => operands a ++ operands b
  end.

End Binary64.

(** ** Tables *)

Module Pandas.
Import Binary64.

(** A cell: text, an integer, a float (a binary64 number by its value, or
    an infinity) or the missing value. *)
Inductive cell : Type :=
| Str (s : string)
| Int (z : Z)
| Float (q : Q)
| Inf (negative : bool)
| NaN.

Abbreviation Series := (list cell).

(** A DataFrame: the row labels and the columns in order, each with its
    label (text, as a sheet's heading row or the sample's keys give it).
    In pandas every column has one cell per row label ([wf]). *)
Record DataFrame : Type := mkDataFrame {
  index : list cell;
  columns : list (string * Series)
}.

Definition len (df : DataFrame) : nat := length (index df).
Definition labels (df : DataFrame) : list string := map fst (columns df).

Definition wf (df : DataFrame) : Prop :=
  Forall (fun c => length (snd c) = len df) (columns df).

Definition RangeIndex (n : nat) : list cell :=
  map (fun i => Int (Z.of_nat i)) (seq 0 n).

(** [pd.DataFrame({...})] from columns of [n] cells. *)
Definition from_dict (n : nat) (cols : list (string * Series)) : DataFrame :=
  mkDataFrame (RangeIndex n) cols.

Fixpoint lookup_col (name : string) (cols : list (string * Series))
  : option Series :=
  match cols with
  | [] => None
  | (l, c) :: rest => if String.eqb l name then Some c else lookup_col name rest
  end.

(** [df[name]] *)
Definition getitem (df : DataFrame) (name : string) : result Series :=
  match lookup_col name (columns df) with
  | Some c => Ok c
  | None => Raise KeyError
  end.

(** [df[[n1, n2, ...]]] *)
Definition select (df : DataFrame) (names : list string) : result DataFrame :=
  rbind (rmapM (fun n => rbind (getitem df n) (fun c => Ok (n, c))) names)
        (fun cols => Ok (mkDataFrame (index df) cols)).

Fixpoint set_col (name : string) (v : Series) (cols : list (string * Series))
  : list (string * Series) :=
  match cols with
  | [] => [(name, v)]
  | (l, c) :: rest =>
      if String.eqb l name then (l, v) :: rest else (l, c) :: set_col name v rest
  end.

(** [df[name] = v]: replaces the column in place, or appends it. *)
Definition setitem (df : DataFrame) (name : string) (v : Series) : DataFrame :=
  mkDataFrame (index df) (set_col name v (columns df)).

(** [[col for col in df.columns if 'YoY' in col]] *)
Definition yoy_cols (df : DataFrame) : list string :=
  List.filter (Text.contains "YoY") (labels df).

(** *** Rows *)

Definition hd_cell (c : Series) : cell := List.hd NaN c.

(** The first [n] rows of a block of columns. *)
Fixpoint rows_of (n : nat) (cols : list Series) : list (list cell) :=
  match n with
  | O => []
  | S k => map hd_cell cols :: rows_of k (map (@List.tl cell) cols)
  end.

Definition rows (df : DataFrame) : list (list cell) :=
  rows_of (len df) (map snd (columns df)).

(** *** Boolean indexing *)

Definition cell_eqb (a b : cell) : bool :=
  match a, b with
  | Str s, Str t => String.eqb s t
  | Int x, Int y => Z.eqb x y
  | Float x, Float y => Qeq_bool x y
  | Int x, Float y => Qeq_bool (inject_Z x) y
  | Float x, Int y => Qeq_bool x (inject_Z y)
  | Inf s, Inf t => Bool.eqb s t
  | NaN, NaN => true
  | _, _ => false
  end.

(** [s.isin(values)] *)
Definition isin (s : Series) (values : list cell) : list bool :=
  map (fun c => existsb (cell_eqb c) values) s.

Fixpoint mask_filter {A} (mask : list bool) (l : list A) : list A :=
  match mask, l with
  | b :: mask', x :: l' =>
      if b then x :: mask_filter mask' l' else mask_filter mask' l'
  | _, _ => []
  end.

(** [df[mask]] *)
Definition getitem_mask (df : DataFrame) (mask : list bool) : DataFrame :=
  mkDataFrame (mask_filter mask (index df))
              (map (fun c => (fst c, mask_filter mask (snd c))) (columns df)).

(** *** melt *)

Definition tile {A} (l : list A) (k : nat) : list A :=
  List.concat (repeat l k).

Definition is_id (id_vars : list string) (l : string) : bool :=
  existsb (String.eqb l) id_vars.

(** [pd.melt(frame, id_vars=..., var_name=..., value_name=...)] with the
    default [value_vars] (every other column) and a fresh [RangeIndex].
    [value_name] must not be a label of the frame (pandas 2; earlier
    releases only warn), and every id column must exist. *)
Definition melt (frame : DataFrame) (id_vars : list string)
           (var_name value_name : string) : result DataFrame :=
  if existsb (String.eqb value_name) (labels frame) then Raise ValueError
  else
    rbind (rmapM (fun n => rbind (getitem frame n) (fun c => Ok (n, c))) id_vars)
      (fun ids =>
         let value_cols :=
           List.filter (fun c => negb (is_id id_vars (fst c))) (columns frame) in
         let num_rows := len frame in
         let num_cols_adjusted := length value_cols in
         let mdata_ids :=
           map (fun c => (fst c, tile (snd c) num_cols_adjusted)) ids in
         let mdata_var :=
           flat_map (fun c => repeat (Str (fst c)) num_rows) value_cols in
         let mdata_value := List.concat (map snd value_cols) in
         Ok (from_dict (num_rows * num_cols_adjusted)
               (mdata_ids ++ [(var_name, mdata_var); (value_name, mdata_value)]))).

(** *** Year parsing *)

(** [s.str.extract(r'(\d{4})')], cell by cell: no match (or no text)
    gives NaN. *)
Definition str_extract_d4 (s : Series) : Series :=
  map (fun c => match c with
                | Str t => match Text.re_search_d4 t with
                           | Some m => Str m
                           | None => NaN
                           end
                | _ => NaN
                end) s.

(** [.astype(int)], cell by cell: NaN and the infinities cannot be
    converted. *)
Definition astype_int_cell (c : cell) : result cell :=
  match c with
  | Str t => match Text.int_of_string t with
             | Some z => Ok (Int z)
             | None => Raise ValueError
             end
  | Int z => Ok (Int z)
  | Float q => Ok (Int (Z.quot (Qnum q) (Z.pos (Qden q))))
  | Inf _ => Raise OverflowError
  | NaN => Raise ValueError
  end.

Definition astype_int (s : Series) : result Series := rmapM astype_int_cell s.

(** *** Row means *)

Definition is_str (c : cell) : bool :=
  match c with Str _ => true | _ => false end.

Definition is_nan (c : cell) : bool :=
  match c with NaN => true | _ => false end.

Definition has_text (df : DataFrame) : bool :=
  existsb (fun c => existsb is_str (snd c)) (columns df).

Definition has_nan (df : DataFrame) : bool :=
  existsb (fun c => existsb is_nan (snd c)) (columns df).

(** A cell as a float64 operand: an integer is converted to the nearest
    binary64 number; a float is one already, and rounding leaves a binary64
    number as it is. *)
Definition to_float (c : cell) : float :=
  match c with
  | Int z => of_Z z
  | Float q => round q
  | Inf s => Infinite s
  | _ => NotANumber
  end.

Definition of_float (x : float) : cell :=
  match x with
  | Finite q => Float q
  | Infinite s => Inf s
  | NotANumber => NaN
  end.

Definition zero : plan := Term (Finite 0).

(** One operand after the other, onto [acc]. *)
Definition chain (acc : plan) (xs : list float) : plan :=
  fold_left (fun a x => Plus a (Term x)) xs acc.

(** NumPy's sum of a run of operands that lie one after the other in
    memory ([pairwise_sum]): below eight operands, one after the other onto
    zero; up to 128, eight running sums that take the operands in turn,
    eight at a time, are added two by two, and the operands left over are
    added one after the other; above 128 the run is split near its middle,
    at a multiple of eight. *)
Fixpoint unrolled (r : list plan) (xs : list float) : list plan * list float :=
  match xs with
  | x0 :: x1 :: x2 :: x3 :: x4 :: x5 :: x6 :: x7 :: rest =>
      unrolled (zip_with Plus r (map Term [x0; x1; x2; x3; x4; x5; x6; x7])) rest
  | _ => (r, xs)
  end.

Definition tree8 (r : list plan) : plan :=
  match r with
  | [r0; r1; r2; r3; r4; r5; r6; r7] =>
      Plus (Plus (Plus r0 r1) (Plus r2 r3)) (Plus (Plus r4 r5) (Plus r6 r7))
  | _ => zero
  end.

Definition block_sum (xs : list float) : plan :=
  match xs with
  | x0 :: x1 :: x2 :: x3 :: x4 :: x5 :: x6 :: x7 :: rest =>
      let (r, tail) := unrolled (map Term [x0; x1; x2; x3; x4; x5; x6; x7]) rest in
      chain (tree8 r) tail
  | _ => chain zero xs
  end.

Fixpoint pairwise_sum (fuel : nat) (xs : list float) : plan :=
  match fuel with
  | S fuel' =>
      if (128 <? length xs)%nat
      then let n2 := (length xs / 2 - (length xs / 2) mod 8)%nat in
           Plus (pairwise_sum fuel' (take n2 xs)) (pairwise_sum fuel' (drop n2 xs))
      else block_sum xs
  | O => block_sum xs
  end.

(** [np.add.reduce] along one row, started from zero.  A row that lies in
    memory as one run is summed by [pairwise_sum]; otherwise NumPy adds
    column after column to all the rows at once, which for each row is one
    operand after the other. *)
Definition add_reduce (contiguous : bool) (xs : list float) : plan :=
  if contiguous then Plus zero (pairwise_sum (length xs) xs) else chain zero xs.

(** The mean of one row ([nanmean], [skipna=True]): text cannot be
    averaged; a missing cell counts as zero in the sum and is left out of
    the count; the sum is divided by the count; a row with no number gives
    NaN. *)
Definition mean_cells (contiguous : bool) (cs : list cell) : result cell :=
  if existsb is_str cs then Raise TypeError
  else
    let values := map (fun c => if is_nan c then Finite 0 else to_float c) cs in
    let the_sum := eval (add_reduce contiguous values) in
    match length (List.filter (fun c => negb (is_nan c)) cs) with
    | O => Ok NaN
    | S k => Ok (of_float (div_count the_sum (Pos.of_succ_nat k)))
    end.

(** [df.mean(axis=1)].  pandas hands NumPy the block of the frame with the
    columns as the slow axis, so a row is one run in memory only when it is
    the only row; when a cell is missing pandas first copies the block,
    zeros in place of the missing cells, and in the copy every row is one
    run. *)
Definition mean_axis1 (df : DataFrame) : result Series :=
  rmapM (mean_cells ((len df =? 1)%nat || has_nan df)) (rows df).

(** *** sort_values(by, ascending=False) *)

(** What a number is sorted by: its value. *)
Inductive key : Type :=
| NegInf
| Num (q : Q)
| PosInf.

Definition key_leb (a b : key) : bool :=
  match a, b with
  | NegInf, _ => true
  | _, PosInf => true
  | Num x, Num y => Qle_bool x y
  | _, _ => false
  end.

Definition sort_key (c : cell) : option key :=
  match c with
  | Int z => Some (Num (inject_Z z))
  | Float q => Some (Num q)
  | Inf true => Some NegInf
  | Inf false => Some PosInf
  | _ => None
  end.

(** Insertion of a position before the first one whose key is not
    greater: positions with equal keys keep their order (pandas leaves
    their order to the sorting algorithm). *)
Fixpoint insert_desc (x : nat * key) (l : list (nat * key)) : list (nat * key) :=
  match l with
  | [] => [x]
  | y :: l' =>
      if key_leb (snd y) (snd x) then x :: l else y :: insert_desc x l'
  end.

Definition sort_desc (l : list (nat * key)) : list (nat * key) :=
  fold_right insert_desc [] l.

Definition keyed (keys : Series) : list (nat * cell) :=
  combine (seq 0 (length keys)) keys.

(** [nargsort(keys, ascending=False, na_position='last')]: the positions
    of the numbers by decreasing key, then the positions of the NaNs. *)
Definition argsort_desc (keys : Series) : list nat :=
  map fst (sort_desc (omap (fun p => option_map (pair (fst p)) (sort_key (snd p)))
                           (keyed keys)))
  ++ map fst (List.filter (fun p => match sort_key (snd p) with
                                    | None => true
                                    | Some _ => false
                                    end) (keyed keys)).

(** [df.take(positions)] *)
Definition iloc_take (df : DataFrame) (positions : list nat) : DataFrame :=
  mkDataFrame (map (fun i => nth i (index df) NaN) positions)
              (map (fun c => (fst c, map (fun i => nth i (snd c) NaN) positions))
                   (columns df)).

(** The script sorts one column only, the freshly computed row means
    (numbers and NaN); a text key is rejected here. *)
Definition sort_values_desc (df : DataFrame) (by_ : string) : result DataFrame :=
  rbind (getitem df by_)
    (fun keys =>
       if existsb is_str keys then Raise TypeError
       else Ok (iloc_take df (argsort_desc keys))).

(** [df.set_index(name)] *)
Definition set_index (df : DataFrame) (name : string) : result DataFrame :=
  rbind (getitem df name)
    (fun c => Ok (mkDataFrame c
                    (List.filter (fun p => negb (String.eqb (fst p) name))
                                 (columns df)))).

End Pandas.

(** ** The script *)

Module App.
Import Binary64 Pandas.

Definition loc := nat.

(** The options of the chart selector. *)
Inductive viz_type : Type :=
| LineChart     (* "Line Chart - YoY Change" *)
| Heatmap       (* "Heatmap - YoY Change" *)
| BarChart.     (* "Bar Chart - Average YoY Change" *)

(** What the script puts on the page.  Charts and the table view carry
    the frame handed to the plotting library. *)
Inductive element : Type :=
| StTitle (text : string)
| StMarkdown (text : string)
| StSidebarTitle (text : string)
| StSidebarMarkdown (text : string)
| StSidebarWrite (text : string) (sheets : list string)
| StSidebarExpander (text : string)
| StInfo (text : string)
| StError (text : string)
| StWarning (text : string)
| StDataframe (table : DataFrame) (format_cols gradient_cols : list string)
| StLineChart (data : DataFrame)
| StHeatmap (data : DataFrame) (height : float)
| StBarChart (data : DataFrame).

(** The table view and the charts. *)
Definition is_render (e : element) : bool :=
  match e with
  | StDataframe _ _ _ | StLineChart _ | StHeatmap _ _ | StBarChart _ => true
  | _ => false
  end.

(** The charts. *)
Definition is_chart (e : element) : bool :=
  match e with
  | StLineChart _ | StHeatmap _ _ | StBarChart _ => true
  | _ => false
  end.

(** The objects alive and the page so far. *)
Record state : Type := mkState {
  heap : gmap loc DataFrame;
  page : list element
}.

Definition M (A : Type) : Type := state -> result A * state.

Definition ret {A} (a : A) : M A := fun s => (Ok a, s).

Definition bind {A B} (m : M A) (f : A -> M B) : M B :=
  fun s => match m s with
           | (Ok a, s') => f a s'
           | (Raise e, s') => (Raise e, s')
           end.

Definition raise {A} (e : exn) : M A := fun s => (Raise e, s).

Definition lift {A} (r : result A) : M A := fun s => (r, s).

Notation "x <- c ;; k" := (bind c (fun x => k))
  (at level 100, c at next level, right associativity).
Notation "c ;;; k" := (bind c (fun _ => k))
  (at level 100, right associativity).

(** A new object. *)
Definition new (df : DataFrame) : M loc :=
  fun s => let l := fresh (dom (heap s)) in
           (Ok l, mkState (<[l := df]> (heap s)) (page s)).

Definition deref (l : loc) : M DataFrame :=
  fun s => match heap s !! l with
           | Some df => (Ok df, s)
           | None => (Raise Dangling, s)
           end.

(** In-place update of an object. *)
Definition assign (l : loc) (df : DataFrame) : M unit :=
  fun s => (Ok tt, mkState (<[l := df]> (heap s)) (page s)).

Definition st (e : element) : M unit :=
  fun s => (Ok tt, mkState (heap s) (page s ++ [e])).

(** [df.copy()] *)
Definition copy (l : loc) : M loc := df <- deref l ;; new df.

(** A workbook as [pd.read_excel(file, sheet_name=None)] parses it: the
    sheets by name, in order. *)
Definition Workbook := list (string * DataFrame).

Fixpoint read_excel (wb : Workbook) : M (list (string * loc)) :=
  match wb with
  | [] => ret []
  | (name, df) :: rest =>
      l <- new df ;;
      ls <- read_excel rest ;;
      ret ((name, l) :: ls)
  end.

Fixpoint dict_get {A} (key : string) (d : list (string * A)) : option A :=
  match d with
  | [] => None
  | (k, v) :: rest => if String.eqb k key then Some v else dict_get key rest
  end.

Definition sheet_name : string := "YoY_Health_Expenditure".
Definition missing_sheet_message : string :=
  "The Excel file must contain a sheet named 'YoY_Health_Expenditure'".
Definition no_data_message : string :=
  "No data available for selected countries.".

(** [load_data] (lines 17-33); the memoising decorator replays the
    elements of a cached call, so it is not visible here. *)
Definition load_data (uploaded_file : option Workbook) : M (option loc) :=
  match uploaded_file with
  | None => ret None
  | Some wb =>
      excel_data <- read_excel wb ;;
      st (StSidebarWrite "Available sheets:" (map fst excel_data)) ;;;
      match dict_get sheet_name excel_data with
      | Some yoy_data => ret (Some yoy_data)
      | None => st (StError missing_sheet_message) ;;; ret None
      end
  end.

Definition id_vars : list string := ["Country Name"; "Country Code"].

(** [process_data] (lines 36-55) *)
Definition process_data (data : option loc) : M (option loc * option loc) :=
  match data with
  | None => ret (None, None)
  | Some d =>
      yoy_change <- copy d ;;
      frame <- deref yoy_change ;;
      melted <- lift (melt frame id_vars "Year" "YoY Change (%)") ;;
      yoy_long <- new melted ;;
      long <- deref yoy_long ;;
      year <- lift (getitem long "Year") ;;
      year' <- lift (astype_int (str_extract_d4 year)) ;;
      assign yoy_long (setitem long "Year" year') ;;;
      ret (Some yoy_change, Some yoy_long)
  end.

(** [plot_yoy_line_chart] (lines 105-131) *)
Definition plot_yoy_line_chart (data : loc) : M unit :=
  df <- deref data ;;
  if (len df =? 0)%nat then st (StWarning no_data_message)
  else st (StLineChart df).

(** [sns.heatmap(data, annot=True, fmt=".1f", center=0, ...)] takes the
    colour range from the cells and writes each cell as a number.  It
    raises ValueError when there is no cell to take the range from (no
    column, or no row) and when a cell holds text; nothing is drawn then. *)
Definition sns_heatmap (data : DataFrame) : result unit :=
  match columns data, index data with
  | [], _ | _, [] => Raise ValueError
  | _, _ => if has_text data then Raise ValueError else Ok tt
  end.

(** [plot_yoy_heatmap] (lines 133-162); the figure is [len * 0.8] high. *)
Definition plot_yoy_heatmap (data : loc) : M unit :=
  df <- deref data ;;
  if (len df =? 0)%nat then st (StWarning no_data_message)
  else
    indexed <- lift (set_index df "Country Name") ;;
    heatmap_data <- new indexed ;;
    h <- deref heatmap_data ;;
    selected <- lift (select h (yoy_cols h)) ;;
    heatmap_data <- new selected ;;
    h <- deref heatmap_data ;;
    lift (sns_heatmap h) ;;;
    st (StHeatmap h (mul (of_Z (Z.of_nat (len h))) (round (8 # 10)))).

Definition avg_label : string := "Average YoY Change (%)".

(** [plot_avg_bar_chart] (lines 164-198) *)
Definition plot_avg_bar_chart (data : loc) : M unit :=
  df <- deref data ;;
  if (len df =? 0)%nat then st (StWarning no_data_message)
  else
    avg_data <- copy data ;;
    a <- deref avg_data ;;
    sub <- lift (select a (yoy_cols a)) ;;
    means <- lift (mean_axis1 sub) ;;
    assign avg_data (setitem a avg_label means) ;;;
    a <- deref avg_data ;;
    two <- lift (select a ["Country Name"; avg_label]) ;;
    sorted <- lift (sort_values_desc two avg_label) ;;
    avg_data <- new sorted ;;
    a <- deref avg_data ;;
    st (StBarChart a).

(** Lines 89-94 of [display_results]: the country filter. *)
Definition filter_countries (yoy_change : loc) (yoy_long : option loc)
           (selected_countries : list cell) : M (loc * option loc) :=
  match selected_countries with
  | [] => ret (yoy_change, yoy_long)
  | _ =>
      w <- deref yoy_change ;;
      names <- lift (getitem w "Country Name") ;;
      filtered_data <- new (getitem_mask w (isin names selected_countries)) ;;
      match yoy_long with
      | None => raise TypeError
      | Some yl =>
          l <- deref yl ;;
          lnames <- lift (getitem l "Country Name") ;;
          filtered_long <- new (getitem_mask l (isin lnames selected_countries)) ;;
          ret (filtered_data, Some filtered_long)
      end
  end.

(** Rendering [df.style.format({col: "{:.1f}%"}).background_gradient(subset=cols)]:
    the cells of the named columns are written as numbers and coloured by
    value; a text cell among them raises ValueError. *)
Definition render_style (df : DataFrame) (format_cols gradient_cols : list string)
  : result unit :=
  rbind (select df (format_cols ++ gradient_cols))
    (fun sub => if has_text sub then Raise ValueError else Ok tt).

(** Lines 65-74 of [display_results]: the table view, with the columns
    given to [format] and to [background_gradient]. *)
Definition table_view (yoy_change : loc) : M unit :=
  w <- deref yoy_change ;;
  lift (render_style w (yoy_cols w) (yoy_cols w)) ;;;
  st (StDataframe w (yoy_cols w) (yoy_cols w)).

(** [display_results] (lines 58-102); the two widgets' values are
    arguments. *)
Definition display_results (yoy_change yoy_long : option loc)
           (viz : viz_type) (selected_countries : list cell) : M unit :=
  match yoy_change with
  | None => ret tt
  | Some yc =>
      st (StMarkdown "### Year-over-Year Increase in Domestic Government Health Expenditure (%)") ;;;
      table_view yc ;;;
      st (StMarkdown "### Visualizations") ;;;
      w <- deref yc ;;
      _ <- lift (getitem w "Country Name") ;;
      f <- filter_countries yc yoy_long selected_countries ;;
      match viz with
      | LineChart =>
          match snd f with
          | Some filtered_long => plot_yoy_line_chart filtered_long
          | None => raise TypeError
          end
      | Heatmap => plot_yoy_heatmap (fst f)
      | BarChart => plot_avg_bar_chart (fst f)
      end
  end.

(** A literal with one decimal, from its tenths: [fl 97] is [9.7]. *)
Definition fl (tenths : Z) : cell := of_float (round (tenths # 10)).
Arguments fl : simpl never.

(** The built-in sample (lines 217-230), values in tenths. *)
Definition sample_data : DataFrame :=
  from_dict 5
    [ ("Country Name", [Str "Indonesia"; Str "Philippines"; Str "Viet Nam";
                        Str "Myanmar"; Str "Cambodia"]);
      ("Country Code", [Str "IDN"; Str "PHL"; Str "VNM"; Str "MMR"; Str "KHM"]);
      ("2006 YoY (%)", map fl [97; -30; -19; 639; -120]%Z);
      ("2007 YoY (%)", map fl [137; -24; -20; -159; 263]%Z);
      ("2008 YoY (%)", map fl [-23; -38; 67; -193; -216]%Z);
      ("2009 YoY (%)", map fl [-3; 17; -38; 69; 34]%Z);
      ("2010 YoY (%)", map fl [-326; 41; 93; 136; 228]%Z);
      ("2011 YoY (%)", map fl [-9; -173; -23; 215; -136]%Z);
      ("2012 YoY (%)", map fl [121; -4; 83; 440; 136]%Z);
      ("2013 YoY (%)", map fl [81; -3; 124; 96; 31]%Z);
      ("2014 YoY (%)", map fl [176; 301; -109; 281; -74]%Z);
      ("2015 YoY (%)", map fl [182; 104; -4; -91; 173]%Z) ].

(** The script, top to bottom; the widgets' values are arguments. *)
Definition main (uploaded_file : option Workbook) (use_sample : bool)
           (viz : viz_type) (selected_countries : list cell) : M unit :=
  st (StTitle "Health Expenditure Year-over-Year Analysis") ;;;
  st (StMarkdown "### East Asia & Pacific Lower Middle Income Countries (2006-2015)") ;;;
  st (StSidebarTitle "Upload Data File") ;;;
  st (StSidebarMarkdown "Please upload your Excel file with the YoY_Health_Expenditure sheet:") ;;;
  match uploaded_file with
  | Some _ =>
      yoy_data <- load_data uploaded_file ;;
      match yoy_data with
      | Some _ =>
          r <- process_data yoy_data ;;
          display_results (fst r) (snd r) viz selected_countries
      | None => ret tt
      end
  | None =>
      st (StInfo "Please upload an Excel file containing the YoY_Health_Expenditure sheet.") ;;;
      if use_sample then
        sample <- new sample_data ;;
        r <- process_data (Some sample) ;;
        display_results (fst r) (snd r) viz selected_countries
      else ret tt
  end ;;;
  st (StSidebarExpander "Documentation") ;;;
  st (StMarkdown "---") ;;;
  st (StMarkdown "### Health Expenditure Analysis Dashboard | Created with Streamlit").

Definition empty_state : state := mkState ∅ [].

End App.

Import Binary64 Pandas App.

(** * Observations, invariants and derived tables *)

(** What a run returns and what it adds to a page. *)
Definition outcome {A} (m : M A) (s : state) : result A * list element :=
  (fst (m s), page (snd (m s))).

(** A table whose filter kept no row: the sample's columns, no cells. *)
Definition no_rows : DataFrame :=
  mkDataFrame [] [("Country Name", []); ("Country Code", []); ("2006 YoY (%)", [])].

(** A sheet with the right name and nothing in it. *)
Definition bare_sheet : DataFrame := mkDataFrame [] [].

(** A run of at least four digits. *)
Definition long_run (r : string) : bool := (4 <=? String.length r)%nat.

(** The numbers of a row, as rationals: exact arithmetic, against which the
    floating-point results are measured. *)
Definition num_of (c : cell) : option Q :=
  match c with
  | Int z => Some (inject_Z z)
  | Float q => Some q
  | _ => None
  end.

Definition numbers (cs : list cell) : list Q := omap num_of cs.

Definition Qsum (l : list Q) : Q := fold_right Qplus 0%Q l.

(** Equality of cells is decidable (numbers as written, not up to value). *)
Instance Q_eq_dec : EqDecision Q.
Proof. solve_decision. Defined.

Instance cell_eq_dec : EqDecision cell.
Proof. solve_decision. Defined.

(** The (country, year, value) rows of a long table. *)
Definition long_triples (long : DataFrame) : list (cell * cell * cell) :=
  match lookup_col "Country Name" (columns long),
        lookup_col "Year" (columns long),
        lookup_col "YoY Change (%)" (columns long) with
  | Some names, Some years, Some values => combine (combine names years) values
  | _, _, _ => []
  end.

(** The values a long table holds for a country and a year. *)
Definition long_values (long : DataFrame) (country : cell) (year : Z) : list cell :=
  map snd (List.filter (fun t => bool_decide (fst t = (country, Int year)))
                       (long_triples long)).

(** The bar a chart frame holds for a country. *)
Definition charted_value (avg : DataFrame) (country : cell) : option cell :=
  match lookup_col "Country Name" (columns avg), lookup_col avg_label (columns avg) with
  | Some names, Some means =>
      option_map snd (List.find (fun p => bool_decide (fst p = country))
                                (combine names means))
  | _, _ => None
  end.

(** The frames of the bar charts on a page. *)
Definition bar_charts (p : list element) : list DataFrame :=
  omap (fun e => match e with StBarChart d => Some d | _ => None end) p.

(** The script run with no file, the sample box ticked, the bar chart
    chosen and no country selected. *)
Definition sample_run : result unit * state :=
  main None true BarChart [] empty_state.

(** The bar that run charts for a country. *)
Definition sample_mean (country : cell) : option cell :=
  match bar_charts (page (snd sample_run)) with
  | [avg] => charted_value avg country
  | _ => None
  end.

(** [keeps h0 m Q]: run from any store that extends [h0], [m] ends in a
    store that still extends [h0] (every object of [h0] is there with the
    value it had), and a returned value satisfies [Q]. *)
Definition keeps (h0 : gmap loc DataFrame) {A} (m : M A) (Q : A -> Prop) : Prop :=
  forall s, h0 ⊆ heap s ->
    h0 ⊆ heap (snd (m s)) /\ (forall a, fst (m s) = Ok a -> Q a).

(** The postcondition that asks nothing. *)
Definition any {A} : A -> Prop := fun _ => True.

(** Lines 52-53 on the melted frame. *)
Definition parse_years (melted : DataFrame) : result DataFrame :=
  rbind (getitem melted "Year")
    (fun year => rbind (astype_int (str_extract_d4 year))
       (fun year' => Ok (setitem melted "Year" year'))).

(** The columns [melt] pivots: every column that is not an id column. *)
Definition year_columns (df : DataFrame) : list (string * Series) :=
  List.filter (fun c => negb (is_id id_vars (fst c))) (columns df).

(** The wide table of the data model: a frame (one cell per row in every
    column, labels all different) with both id columns, whose other labels
    each carry a year. *)
Record WideTable (df : DataFrame) : Prop := {
  wide_wf : wf df;
  wide_labels : List.NoDup (labels df);
  wide_name : is_Some (lookup_col "Country Name" (columns df));
  wide_code : is_Some (lookup_col "Country Code" (columns df));
  wide_years : Forall (fun c => is_Some (Text.year_of_label (fst c))) (year_columns df)
}.

(** The Year cell of a label. *)
Definition year_cell (label : string) : cell :=
  match Text.year_of_label label with
  | Some y => Int y
  | None => NaN
  end.

(** The long table of a wide table with [R] rows. *)
Definition long_table (R : nat) (names codes : Series)
           (ycols : list (string * Series)) : DataFrame :=
  from_dict (R * length ycols)
    [ ("Country Name", tile names (length ycols));
      ("Country Code", tile codes (length ycols));
      ("Year", flat_map (fun c => repeat (year_cell (fst c)) R) ycols);
      ("YoY Change (%)", List.concat (map snd ycols)) ].

(** Equality of long-table rows, for counting occurrences. *)
Definition triple_eq_dec (x y : cell * cell * cell) : {x = y} + {x <> y} :=
  decide (x = y).

(** The rows that one year column contributes. *)
Definition block (names : Series) (c : string * Series) : list (cell * cell * cell) :=
  combine (map (fun n => (n, year_cell (fst c))) names) (snd c).

(** Whether [isin] keeps a cell. *)
Definition selected (selection : list cell) (c : cell) : bool :=
  existsb (cell_eqb c) selection.

(** Positions in non-increasing order of key. *)
Definition key_ge (a b : nat * key) : Prop := key_leb (snd b) (snd a) = true.

(** Cells in non-increasing order of value. *)
Definition cell_ge (a b : cell) : Prop :=
  match sort_key a, sort_key b with
  | Some x, Some y => key_leb y x = true
  | _, _ => False
  end.

(** The relative error of one rounding, and the smallest binary64 number
    with full precision. *)
Definition unit_roundoff : Q := pow2 (-53).
Definition tiny : Q := pow2 (-1022).

(** [(1 + unit_roundoff) ^ k]: how far [k] roundings one after the other
    can stretch a value. *)
Fixpoint growth (k : nat) : Q :=
  match k with
  | O => 1
  | S k' => (1 + unit_roundoff) * growth k'
  end.

(** Lines 170-176 on the value of the table. *)
Definition bar_frame (w : DataFrame) : result DataFrame :=
  rbind (select w (yoy_cols w))
    (fun sub => rbind (mean_axis1 sub)
       (fun means =>
          rbind (select (setitem w avg_label means) ["Country Name"; avg_label])
            (fun two => sort_values_desc two avg_label))).

(** The rows of the year columns. *)
Definition year_rows (w : DataFrame) : list (list cell) :=
  rows_of (len w) (map snd (year_columns w)).

(** The arithmetic mean: the sum divided by the count. *)
Definition arithmetic_mean (xs : list Q) : Q :=
  (Qsum xs / inject_Z (Z.of_nat (length xs)))%Q.

(** How far the binary64 mean of a row of [width] cells whose numbers are
    [xs] can be from their arithmetic mean: every number is read, added
    and the sum divided with one rounding each. *)
Definition tolerance (width : nat) (xs : list Q) : Q :=
  ((growth (width + 3) - 1)
   * (Qsum (map Qabs xs) + inject_Z (Z.of_nat (width + 2)) * tiny)
   / inject_Z (Z.of_nat (length xs))
   + unit_roundoff * tiny)%Q.

(** A cell that holds a number (not text, not NaN). *)
Definition is_number (c : cell) : Prop := is_Some (num_of c).

(** A row of [width] cells whose numbers are [xs] is in range when the
    numbers, stretched by the roundings of a sum, stay below [2^1023]: no
    sum of them can leave the binary64 range. *)
Definition in_range (width : nat) (xs : list Q) : Prop :=
  (growth (width + 2)
   * (Qsum (map Qabs xs) + inject_Z (Z.of_nat (width + 2)) * tiny)
   <= pow2 1023)%Q.

(** A cell as a row mean can be: a float, an infinity or NaN. *)
Definition mean_cell (c : cell) : Prop :=
  match c with
  | Float _ | Inf _ | NaN => True
  | _ => False
  end.

(** [m] is the charted mean of the row [r]: a float, an infinity or NaN;
    when a float, within [tolerance] of the arithmetic mean of the row's
    numbers; a float whenever the row holds numbers and missing cells
    only, at least one number, and is in range; NaN when every cell is
    missing. *)
Definition mean_of_row (r : list cell) (m : cell) : Prop :=
  mean_cell m /\
  (forall v, m = Float v ->
     numbers r <> [] /\
     (Qabs (v - arithmetic_mean (numbers r)) <= tolerance (length r) (numbers r))%Q) /\
  (Forall (fun c => c = NaN \/ is_number c) r -> numbers r <> [] ->
   in_range (length r) (numbers r) -> exists v, m = Float v) /\
  (Forall (fun c => c = NaN) r -> m = NaN).

(** A table without the column labelled [c]. *)
Definition drop_column (c : string) (df : DataFrame) : DataFrame :=
  mkDataFrame (index df)
              (List.filter (fun p => negb (String.eqb (fst p) c)) (columns df)).

(** A wide table with a year column named without "YoY". *)
Definition mixed_table : DataFrame :=
  from_dict 2
    [ ("Country Name", [Str "Indonesia"; Str "Myanmar"]);
      ("Country Code", [Str "IDN"; Str "MMR"]);
      ("2006 YoY (%)", [fl 97; fl 639]);
      ("2007", [fl 137; fl (-159)]) ].

(** Two countries: the values of A cancel in binary64, where
    [1e16 + 1.0] is [1e16]; those of B are [0.1] each. *)
Definition cancelling_table : DataFrame :=
  from_dict 2
    [ ("Country Name", [Str "A"; Str "B"]);
      ("Country Code", [Str "AAA"; Str "BBB"]);
      ("2006 YoY (%)", [Float 10000000000000000; fl 1]);
      ("2007 YoY (%)", [Float 1; fl 1]);
      ("2008 YoY (%)", [Float (-10000000000000000); fl 1]) ].

(** Two rows written in decimal with the same mean: 0.15 and 0.15, 0.1
    and 0.2. *)
Definition level_table : DataFrame :=
  from_dict 2
    [ ("Country Name", [Str "A"; Str "B"]);
      ("Country Code", [Str "AAA"; Str "BBB"]);
      ("2006 YoY (%)", [of_float (round (15 # 100)); fl 1]);
      ("2007 YoY (%)", [of_float (round (15 # 100)); fl 2]) ].

(** The binary64 number [2^1023]. *)
Definition huge : cell := of_float (round (pow2 1023)).

(** The sample's long table, as [process_data] leaves it. *)
Definition sample_long : DataFrame :=
  long_table 5
    [Str "Indonesia"; Str "Philippines"; Str "Viet Nam"; Str "Myanmar"; Str "Cambodia"]
    [Str "IDN"; Str "PHL"; Str "VNM"; Str "MMR"; Str "KHM"]
    (year_columns sample_data).

(** A one-row table with a pivoted column named without a year. *)
Definition undated_table : DataFrame :=
  from_dict 1 [ ("Country Name", [Str "Myanmar"]);
                ("Country Code", [Str "MMR"]);
                ("Notes YoY", [fl 136]) ].

(** A state with one object, at reference 0, and an empty page. *)
Definition single (df : DataFrame) : state := mkState {[ 0%nat := df ]} [].

(** The long table of a table without rows. *)
Definition empty_long : DataFrame :=
  mkDataFrame [] [ ("Country Name", []); ("Country Code", []);
                   ("Year", []); ("YoY Change (%)", []) ].

(** A year as four decimal digits can give it. *)
Definition four_digit_year (c : cell) : Prop :=
  exists y, c = Int y /\ (0 <= y <= 9999)%Z.

(** A chart function's outcome from state [s] on reference [d]: one element
    added on return, a chart of its [own] kind (then the table had rows) or
    the warning; none added when it raises. *)
Definition one_or_none (s : state) (d : loc) (own : element -> Prop)
           (r : result unit * list element) : Prop :=
  (exists e, r = (Ok tt, page s ++ [e]) /\
             ((own e /\ exists df, heap s !! d = Some df /\ len df <> 0%nat) \/
              e = StWarning no_data_message)) \/
  (exists ex, r = (Raise ex, page s)).

(** A column without text cells. *)
Definition no_text (c : Series) : Prop := Forall (fun x => is_str x = false) c.

(** No "YoY" column holds text. *)
Definition yoy_without_text (w : DataFrame) : Prop :=
  Forall (fun c => Text.contains "YoY" (fst c) = true -> no_text (snd c)) (columns w).

(** A table with a missing cell and a row without any number. *)
Definition gappy_table : DataFrame :=
  from_dict 3
    [ ("Country Name", [Str "A"; Str "B"; Str "C"]);
      ("Country Code", [Str "AAA"; Str "BBB"; Str "CCC"]);
      ("2006 YoY (%)", [Float 1; Float 4; NaN]);
      ("2007 YoY (%)", [Float 3; NaN; NaN]) ].

(** What follows the table view on the page: one chart or the warning when
    the call returns, nothing when it raises. *)
Definition chart_tail (r : result unit) (tail : list element) : Prop :=
  (r = Ok tt /\ exists e, tail = [e] /\
                          (is_chart e = true \/ e = StWarning no_data_message)) \/
  (exists ex, r = Raise ex /\ tail = []).

(** What the script shows before it looks at the upload (lines 12-13 and
    201-202) and after the results (lines 236-262). *)
Definition page_header : list element :=
  [ StTitle "Health Expenditure Year-over-Year Analysis";
    StMarkdown "### East Asia & Pacific Lower Middle Income Countries (2006-2015)";
    StSidebarTitle "Upload Data File";
    StSidebarMarkdown "Please upload your Excel file with the YoY_Health_Expenditure sheet:" ].

Definition page_footer : list element :=
  [ StSidebarExpander "Documentation";
    StMarkdown "---";
    StMarkdown "### Health Expenditure Analysis Dashboard | Created with Streamlit" ].

(** What [display_results] shows for a table [w] when the chart function
    added [e]. *)
Definition results_view (w : DataFrame) (e : element) : list element :=
  [ StMarkdown "### Year-over-Year Increase in Domestic Government Health Expenditure (%)";
    StDataframe w (yoy_cols w) (yoy_cols w);
    StMarkdown "### Visualizations";
    e ].

(** A table every chart function accepts: it has a [Country Name] column,
    no column called [Average YoY Change (%)] and no text in a "YoY"
    column. *)
Definition chartable (w : DataFrame) : Prop :=
  is_Some (lookup_col "Country Name" (columns w)) /\
  lookup_col avg_label (columns w) = None /\
  yoy_without_text w.

(** A label in the documented format "YYYY YoY (%)" (lines 244-247), from
    its four characters. *)
Definition documented_label (a b c d : ascii) : string :=
  String a (String b (String c (String d " YoY (%)"))).

(** [grows m]: whatever it returns or raises, [m] only adds elements at
    the end of the page. *)
Definition grows {A} (m : M A) : Prop :=
  forall s, exists added, page (snd (m s)) = page s ++ added.

Ltac run_step :=
  unfold plot_yoy_line_chart, plot_yoy_heatmap, plot_avg_bar_chart, copy,
    bind, ret, lift, raise, st, deref, new, assign in *; simpl in *.

(** * Empty tables: a warning, no chart *)

Section EmptyTable.
Variables (s : state) (data : loc) (df : DataFrame).
Hypothesis Hdata : heap s !! data = Some df.
Hypothesis Hempty : len df = 0%nat.

Let warned : result unit * state :=
  (Ok tt, mkState (heap s) (page s ++ [StWarning no_data_message])).

Lemma line_chart_empty : plot_yoy_line_chart data s = warned.
Proof. run_step. rewrite Hdata, Hempty. reflexivity. Qed.

Lemma heatmap_empty : plot_yoy_heatmap data s = warned.
Proof. run_step. rewrite Hdata, Hempty. reflexivity. Qed.

Lemma bar_chart_empty : plot_avg_bar_chart data s = warned.
Proof. run_step. rewrite Hdata, Hempty. reflexivity. Qed.
End EmptyTable.

(** C7.  On a table with zero rows each of the three chart functions
    returns normally, leaves the objects alone and adds exactly one element
    to the page: the warning "No data available for selected countries."
    No chart element is added. *)
Theorem C7_empty_table_warns (s : state) (data : loc) (df : DataFrame) :
  heap s !! data = Some df ->
  len df = 0%nat ->
  let warned := (Ok tt, mkState (heap s) (page s ++ [StWarning no_data_message])) in
  plot_yoy_line_chart data s = warned /\
  plot_yoy_heatmap data s = warned /\
  plot_avg_bar_chart data s = warned /\
  is_chart (StWarning no_data_message) = false.
Proof.
  intros Hd He. cbv zeta.
  rewrite (line_chart_empty s data df Hd He), (heatmap_empty s data df Hd He),
    (bar_chart_empty s data df Hd He).
  repeat split.
Qed.

Lemma C7_empty_table_warns_witness :
  let s := mkState {[ 0%nat := no_rows ]} [] in
  let warned := (Ok tt, mkState (heap s) [StWarning no_data_message]) in
  plot_yoy_line_chart 0%nat s = warned /\
  plot_yoy_heatmap 0%nat s = warned /\
  plot_avg_bar_chart 0%nat s = warned /\
  is_chart (StWarning no_data_message) = false.
Proof.
  exact (C7_empty_table_warns (mkState {[ 0%nat := no_rows ]} []) 0%nat no_rows
           eq_refl eq_refl).
Defined.

(** * The loader *)

Lemma new_run (df : DataFrame) (s : state) :
  let l := fresh (dom (heap s)) in
  new df s = (Ok l, mkState (<[l := df]> (heap s)) (page s)) /\
  heap s !! l = None.
Proof.
  split; [reflexivity|].
  apply not_elem_of_dom, is_fresh.
Qed.

Lemma heap_grows_new (h : gmap loc DataFrame) (df : DataFrame) :
  h ⊆ <[fresh (dom h) := df]> h.
Proof. apply insert_subseteq, not_elem_of_dom, is_fresh. Qed.

Lemma read_excel_run (wb : Workbook) :
  forall s, exists ls s',
    read_excel wb s = (Ok ls, s') /\
    map fst ls = map fst wb /\
    page s' = page s /\
    heap s ⊆ heap s' /\
    (forall key, dict_get key wb = None -> dict_get key ls = None) /\
    (forall key df, dict_get key wb = Some df ->
       exists l, dict_get key ls = Some l /\ heap s' !! l = Some df).
Proof.
  induction wb as [|[name df] rest IH]; intros s.
  - exists [], s. repeat split; try reflexivity; intros; discriminate.
  - cbn [read_excel]. unfold bind at 1. unfold new at 1. cbv zeta.
    set (l := fresh (dom (heap s))).
    set (s1 := mkState (<[l := df]> (heap s)) (page s)).
    destruct (IH s1) as (ls & s' & Hrun & Hkeys & Hpage & Hsub & Hnone & Hsome).
    exists ((name, l) :: ls), s'.
    unfold bind, ret. rewrite Hrun.
    assert (Hl : heap s' !! l = Some df).
    { eapply lookup_weaken; [|exact Hsub]. apply lookup_insert_eq. }
    repeat split.
    + cbn. now rewrite Hkeys.
    + exact Hpage.
    + etrans; [|exact Hsub]. apply heap_grows_new.
    + intros key. cbn. destruct (String.eqb name key); [discriminate|]. apply Hnone.
    + intros key df'. cbn. destruct (String.eqb name key).
      * intros [= <-]. exists l. split; [reflexivity|exact Hl].
      * apply Hsome.
Qed.

Lemma load_data_missing_sheet (wb : Workbook) (s : state) :
  dict_get sheet_name wb = None ->
  exists s', load_data (Some wb) s = (Ok None, s') /\
             heap s ⊆ heap s' /\
             page s' = page s ++ [StSidebarWrite "Available sheets:" (map fst wb);
                                  StError missing_sheet_message].
Proof.
  intros Hno.
  destruct (read_excel_run wb s) as (ls & s1 & Hrun & Hkeys & Hpage & Hsub & Hnone & _).
  unfold load_data, bind, st, ret. rewrite Hrun. cbn.
  rewrite (Hnone _ Hno). cbn.
  eexists. split; [reflexivity|]. cbn. split; [exact Hsub|].
  rewrite Hkeys, Hpage, <- app_assoc. reflexivity.
Qed.

(** C5.  With no file, [load_data] returns no data and touches nothing (no
    error element).  For a workbook without a sheet named exactly
    [YoY_Health_Expenditure], [load_data] returns no data after listing the
    sheets and showing the missing-sheet error, and the whole script then
    ends normally having put no table and no chart on the page. *)
Theorem C5_missing_sheet :
  (forall s, load_data None s = (Ok None, s)) /\
  (forall (wb : Workbook) (s : state),
     dict_get sheet_name wb = None ->
     (exists s', load_data (Some wb) s = (Ok None, s') /\
                 page s' = page s ++ [StSidebarWrite "Available sheets:" (map fst wb);
                                      StError missing_sheet_message]) /\
     (forall use_sample viz selected, exists s' added,
        main (Some wb) use_sample viz selected s = (Ok tt, s') /\
        page s' = page s ++ added /\
        In (StError missing_sheet_message) added /\
        forallb (fun e => negb (is_render e)) added = true)).
Proof.
  split; [reflexivity|].
  intros wb s Hno. split.
  - destruct (load_data_missing_sheet wb s Hno) as (s' & Hrun & _ & Hpage).
    exists s'. split; assumption.
  - intros use_sample viz selected.
    unfold main. unfold bind at 1 2 3 4 5. unfold st at 1 2 3 4. cbn [heap page].
    set (s0 := mkState _ _).
    destruct (load_data_missing_sheet wb s0 Hno) as (s' & Hrun & _ & Hpage).
    unfold bind at 1. rewrite Hrun. unfold ret, bind, st. cbn [heap page].
    eexists _, _. split; [reflexivity|].
    rewrite Hpage. subst s0. cbn [page].
    repeat rewrite <- app_assoc. cbn [app].
    split; [reflexivity|]. split.
    + do 5 right. left. reflexivity.
    + reflexivity.
Qed.

Lemma C5_missing_sheet_witness :
  dict_get sheet_name [("Sheet1", no_rows)] = None /\
  exists s', load_data (Some [("Sheet1", no_rows)]) empty_state = (Ok None, s') /\
             page s' = [StSidebarWrite "Available sheets:" ["Sheet1"];
                        StError missing_sheet_message].
Proof.
  split; [reflexivity|].
  exact (proj1 (proj2 C5_missing_sheet [("Sheet1", no_rows)] empty_state eq_refl)).
Defined.

(** C10.  A workbook that has the sheet is accepted whatever the sheet
    holds: [load_data] returns a reference to that sheet's table, and the
    only element it adds is the list of sheet names (no error), for every
    table, also one without [Country Name], [Country Code] or any year
    column. *)
Theorem C10_no_schema_validation (wb : Workbook) (df : DataFrame) (s : state) :
  dict_get sheet_name wb = Some df ->
  exists l s',
    load_data (Some wb) s = (Ok (Some l), s') /\
    heap s' !! l = Some df /\
    heap s ⊆ heap s' /\
    page s' = page s ++ [StSidebarWrite "Available sheets:" (map fst wb)].
Proof.
  intros Hsheet.
  destruct (read_excel_run wb s) as (ls & s1 & Hrun & Hkeys & Hpage & Hsub & _ & Hsome).
  destruct (Hsome _ _ Hsheet) as (l & Hl & Hheap).
  unfold load_data, bind, st, ret. rewrite Hrun. cbn.
  rewrite Hl. exists l. eexists. split; [reflexivity|]. cbn.
  rewrite Hkeys, Hpage. repeat split; assumption.
Qed.

Lemma C10_no_schema_validation_witness :
  lookup_col "Country Name" (columns bare_sheet) = None /\
  exists l s',
    load_data (Some [("Notes", no_rows); (sheet_name, bare_sheet)]) empty_state
      = (Ok (Some l), s') /\
    heap s' !! l = Some bare_sheet /\
    heap empty_state ⊆ heap s' /\
    page s' = page empty_state ++ [StSidebarWrite "Available sheets:" ["Notes"; sheet_name]].
Proof.
  split; [reflexivity|].
  exact (C10_no_schema_validation [("Notes", no_rows); (sheet_name, bare_sheet)]
           bare_sheet empty_state eq_refl).
Defined.

(** * Year extraction *)

Section YearExtraction.
Import Text.
#[local] Arguments String.append !s1 s2 : simpl nomatch.

Lemma append_snoc (acc : string) (a : ascii) (s : string) :
  (acc +:+ String a EmptyString) +:+ s = acc +:+ String a s.
Proof. induction acc as [|b acc IH]; cbn; [reflexivity|f_equal; exact IH]. Qed.

Lemma append_empty_r (s : string) : s +:+ EmptyString = s.
Proof. induction s as [|a s IH]; cbn; [reflexivity|f_equal; exact IH]. Qed.

Lemma all_digits_snoc (acc : string) (a : ascii) :
  all_digits acc = true -> is_digit a = true ->
  all_digits (acc +:+ String a EmptyString) = true.
Proof.
  induction acc as [|b acc IH]; cbn; intros Hacc Ha.
  - now rewrite Ha.
  - apply andb_prop in Hacc as [Hb Hacc]. rewrite Hb. cbn. now apply IH.
Qed.

(** Four digits at the front are what the search returns. *)
Lemma re_search_d4_front (acc t : string) :
  all_digits acc = true -> (4 <= String.length acc)%nat ->
  re_search_d4 (acc +:+ t) = Some (first4 acc).
Proof.
  destruct acc as [|a [|b [|c [|d acc]]]]; cbn; try lia.
  intros H _.
  apply andb_prop in H as [Ha H]. apply andb_prop in H as [Hb H].
  apply andb_prop in H as [Hc H]. apply andb_prop in H as [Hd _].
  rewrite Ha, Hb, Hc, Hd. cbn. now destruct acc.
Qed.

Lemma re_search_d4_eq (a b c d : ascii) (t : string) :
  re_search_d4 (String a (String b (String c (String d t)))) =
  if is_digit a && is_digit b && is_digit c && is_digit d
  then Some (String a (String b (String c (String d EmptyString))))
  else re_search_d4 (String b (String c (String d t))).
Proof. reflexivity. Qed.

(** A character that is not a digit, at most three places in, blocks
    every match that starts before it. *)
Lemma re_search_d4_blocked (p : ascii) (pre : string) (a : ascii) (s : string) :
  (String.length pre <= 2)%nat -> is_digit a = false ->
  re_search_d4 (String p (pre +:+ String a s)) = re_search_d4 (pre +:+ String a s).
Proof.
  intros Hlen Ha.
  destruct pre as [|p2 [|p3 [|p4 pre]]]; cbn in Hlen; try lia; cbn [String.append].
  - destruct s as [|c [|d t]]; try reflexivity.
    rewrite re_search_d4_eq, Ha, andb_false_r. reflexivity.
  - destruct s as [|d t]; try reflexivity.
    rewrite re_search_d4_eq, Ha, andb_false_r. reflexivity.
  - rewrite re_search_d4_eq, Ha, andb_false_r. reflexivity.
Qed.

Lemma re_search_d4_skip (pre : string) (a : ascii) (s : string) :
  (String.length pre <= 3)%nat -> is_digit a = false ->
  re_search_d4 (pre +:+ String a s) = re_search_d4 s.
Proof.
  intros Hlen Ha. induction pre as [|p pre IH]; cbn [String.append].
  - destruct s as [|b [|c [|d t]]]; try reflexivity.
    rewrite re_search_d4_eq, Ha. reflexivity.
  - cbn in Hlen. rewrite re_search_d4_blocked by (assumption || lia).
    apply IH. lia.
Qed.

Lemma re_search_d4_short (s : string) :
  (String.length s < 4)%nat -> re_search_d4 s = None.
Proof.
  destruct s as [|a [|b [|c [|d t]]]]; cbn; intros; try reflexivity; lia.
Qed.

Lemma re_search_d4_runs (s : string) :
  forall acc, all_digits acc = true ->
    re_search_d4 (acc +:+ s)
    = option_map first4 (List.find long_run (digit_runs_from acc s)).
Proof.
  induction s as [|a s IH]; intros acc Hacc.
  - rewrite append_empty_r. cbn.
    destruct (le_lt_dec 4 (String.length acc)) as [Hl|Hl].
    + rewrite <- (append_empty_r acc) at 1.
      rewrite (re_search_d4_front acc EmptyString Hacc Hl).
      destruct acc; [cbn in Hl; lia|].
      cbn [List.find]. unfold long_run.
      destruct (Nat.leb_spec 4 (String.length (String a acc))); [reflexivity|lia].
    + rewrite (re_search_d4_short acc Hl).
      destruct acc; [reflexivity|].
      cbn [List.find]. unfold long_run.
      destruct (Nat.leb_spec 4 (String.length (String a acc))); [lia|reflexivity].
  - cbn [digit_runs_from]. destruct (is_digit a) eqn:Ha.
    + rewrite <- (IH (acc +:+ String a EmptyString))
        by now apply all_digits_snoc.
      now rewrite append_snoc.
    + destruct (le_lt_dec 4 (String.length acc)) as [Hl|Hl].
      * rewrite (re_search_d4_front acc _ Hacc Hl).
        destruct acc; [cbn in Hl; lia|].
        cbn [List.find]. unfold long_run.
        destruct (Nat.leb_spec 4 (String.length (String a0 acc))); [reflexivity|lia].
      * rewrite re_search_d4_skip by (assumption || lia).
        specialize (IH EmptyString eq_refl). cbn [String.append] in IH.
        destruct acc; [exact IH|].
        cbn [List.find]. unfold long_run.
        destruct (Nat.leb_spec 4 (String.length (String a0 acc))); [lia|exact IH].
Qed.

Lemma re_search_d4_digit_runs (s : string) :
  re_search_d4 s = option_map first4 (List.find long_run (digit_runs s)).
Proof. exact (re_search_d4_runs s EmptyString eq_refl). Qed.

(** What the search returns is four digits. *)
Lemma re_search_d4_group (s m : string) :
  re_search_d4 s = Some m ->
  String.length m = 4%nat /\ all_digits m = true /\ re_search_d4 m = Some m.
Proof.
  induction s as [|a s IH]; [discriminate|].
  destruct s as [|b [|c [|d t]]]; try discriminate.
  cbn [re_search_d4].
  destruct (is_digit a && is_digit b && is_digit c && is_digit d) eqn:E.
  - intros [= <-]. cbn. rewrite E.
    apply andb_prop in E as [E Hd]. apply andb_prop in E as [E Hc].
    apply andb_prop in E as [Ha Hb]. rewrite Ha, Hb, Hc, Hd. repeat split.
  - exact IH.
Qed.

Lemma int_of_string_digits (m : string) :
  String.length m = 4%nat -> all_digits m = true ->
  int_of_string m = Some (int_digits 0 m).
Proof.
  destruct m; [discriminate|]. intros _ H. unfold int_of_string. now rewrite H.
Qed.

Lemma year_of_label_search (s : string) :
  year_of_label s = option_map (int_digits 0) (re_search_d4 s).
Proof.
  unfold year_of_label. destruct (re_search_d4 s) as [m|] eqn:E; [|reflexivity].
  destruct (re_search_d4_group s m E) as (Hl & Hd & _).
  now rewrite int_of_string_digits.
Qed.

Lemma first4_exact (r : string) : String.length r = 4%nat -> first4 r = r.
Proof.
  destruct r as [|a [|b [|c [|d [|e r]]]]]; cbn; intros; try lia; reflexivity.
Qed.

(** The column of years of one label, as lines 52-53 compute it. *)
Lemma astype_extract_label (label : string) :
  astype_int (str_extract_d4 [Str label]) =
  match year_of_label label with
  | Some y => Ok [Int y]
  | None => Raise ValueError
  end.
Proof.
  unfold year_of_label. cbn.
  destruct (re_search_d4 label) as [m|]; cbn; [|reflexivity].
  destruct (int_of_string m); reflexivity.
Qed.

End YearExtraction.

(** C2, as the script has it.  The pattern takes the first four digits that
    follow one another: the first four digits of the first run of at least
    four digits, so a longer run gives its first four digits.  When that
    run has exactly four digits (every label of the form "YYYY YoY (%)", and
    every label whose only four consecutive digits are one run) the Year is
    that run read as an integer.  Extraction succeeds exactly on the labels
    with a run of at least four digits, it raises on the others, and
    extracting again from the extracted text returns the same text. *)
Theorem C2_year_extraction (label : string) :
  Text.re_search_d4 label
  = option_map Text.first4 (List.find long_run (Text.digit_runs label)) /\
  astype_int (str_extract_d4 [Str label])
  = match Text.year_of_label label with
    | Some y => Ok [Int y]
    | None => Raise ValueError
    end /\
  (forall r, List.find long_run (Text.digit_runs label) = Some r ->
             String.length r = 4%nat ->
             Text.year_of_label label = Some (Text.int_digits 0 r) /\
             Text.int_of_string r = Some (Text.int_digits 0 r)) /\
  (is_Some (Text.year_of_label label)
   <-> exists r, In r (Text.digit_runs label) /\ (4 <= String.length r)%nat) /\
  (forall m, Text.re_search_d4 label = Some m -> Text.re_search_d4 m = Some m).
Proof.
  pose proof (re_search_d4_digit_runs label) as Hruns.
  split; [exact Hruns|]. split; [apply astype_extract_label|]. split; [|split].
  - intros r Hfind Hlen.
    pose proof (year_of_label_search label) as Hy.
    rewrite Hruns, Hfind in Hy. cbn in Hy. rewrite first4_exact in Hy by assumption.
    split; [exact Hy|].
    assert (Hs : Text.re_search_d4 label = Some r).
    { rewrite Hruns, Hfind. cbn. now rewrite first4_exact. }
    destruct (re_search_d4_group _ _ Hs) as (Hl & Hd & _).
    now apply int_of_string_digits.
  - rewrite year_of_label_search, Hruns. split.
    + intros [y Hy].
      destruct (List.find long_run (Text.digit_runs label)) as [r|] eqn:Hfind;
        [|discriminate].
      apply find_some in Hfind as [Hin Hlong].
      exists r. split; [exact Hin|]. now apply Nat.leb_le.
    + intros (r & Hin & Hlen).
      destruct (List.find long_run (Text.digit_runs label)) as [r'|] eqn:Hfind.
      * eexists. reflexivity.
      * exfalso. pose proof (find_none _ _ Hfind r Hin) as Hn.
        unfold long_run in Hn. apply Nat.leb_gt in Hn. lia.
  - intros m Hm. now destruct (re_search_d4_group _ _ Hm) as (_ & _ & H).
Qed.

Lemma C2_year_extraction_witness :
  Text.year_of_label "2006 YoY (%)" = Some 2006%Z /\
  Text.int_of_string "2006" = Some 2006%Z.
Proof.
  exact (proj1 (proj2 (proj2 (C2_year_extraction "2006 YoY (%)"))) "2006"
           eq_refl eq_refl).
Defined.

(** C2 as worded fails on a label that has a longer run of digits before
    its only run of exactly four: the wording picks 2006, lines 52-53 give
    1234. *)
Lemma C2_counterexample :
  let label := "12345 2006 YoY (%)" in
  List.filter (fun r => (String.length r =? 4)%nat) (Text.digit_runs label) = ["2006"] /\
  Text.spec_first_run_of_exactly_four label = Some 2006%Z /\
  astype_int (str_extract_d4 [Str label]) = Ok [Int 1234] /\
  Text.year_of_label label <> Text.spec_first_run_of_exactly_four label.
Proof.
  cbv zeta. repeat split. vm_compute. discriminate.
Qed.

(** * The built-in sample, end to end *)

(** C6, with the mean the sample really has.  On the built-in sample the
    script ends normally; the long table has 50 rows, its only value for
    Myanmar in 2010 is 13.6, and the bar charted for Indonesia is 4.33 (the
    ten values sum to 43.3; in binary64 the sum and the quotient come out
    as the number written 4.33), so Indonesia's mean is about 4.33, not
    4.31. *)
Theorem C6_sample_end_to_end :
  fst sample_run = Ok tt /\
  (exists lw ll s' long,
     process_data (Some 0%nat) (mkState {[ 0%nat := sample_data ]} [])
       = (Ok (Some lw, Some ll), s') /\
     heap s' !! lw = Some sample_data /\
     heap s' !! ll = Some long /\
     len long = 50%nat /\
     length (long_triples long) = 50%nat /\
     long_values long (Str "Myanmar") 2010 = [fl 136]) /\
  (exists q, sample_mean (Str "Indonesia") = Some (Float q) /\
             round (433 # 100) = Finite q /\
             (Qabs (q - (433 # 100)) <= 1 # 1000)%Q).
Proof.
  split; [vm_compute; reflexivity|]. split.
  - eexists _, _, _, _. split; [vm_compute; reflexivity|].
    repeat split; vm_compute; reflexivity.
  - eexists. split; [vm_compute; reflexivity|]. split.
    + vm_compute. reflexivity.
    + vm_compute. discriminate.
Qed.

(** C6 as worded: the bar charted for Indonesia is a number that is not
    within 0.01 of 4.31. *)
Lemma C6_counterexample :
  exists q, sample_mean (Str "Indonesia") = Some (Float q) /\
            ~ (Qabs (q - (431 # 100)) <= 1 # 100)%Q.
Proof.
  eexists. split; [vm_compute; reflexivity|].
  intros Hclose. vm_compute in Hclose. exact (Hclose eq_refl).
Qed.

(** * Objects are never changed after creation *)

Section Keeps.
Variable h0 : gmap loc DataFrame.

Lemma keeps_ret {A} (a : A) : keeps h0 (ret a) any.
Proof. intros s Hs. split; [exact Hs|]. intros; exact I. Qed.

Lemma keeps_raise {A} (e : exn) : keeps h0 (@raise A e) any.
Proof. intros s Hs. split; [exact Hs|]. intros; exact I. Qed.

Lemma keeps_lift {A} (r : result A) : keeps h0 (lift r) any.
Proof. intros s Hs. split; [exact Hs|]. intros; exact I. Qed.

Lemma keeps_st (e : element) : keeps h0 (st e) any.
Proof. intros s Hs. split; [exact Hs|]. intros; exact I. Qed.

Lemma keeps_deref (l : loc) : keeps h0 (deref l) any.
Proof.
  intros s Hs. unfold deref. destruct (heap s !! l); (split; [exact Hs|]);
    intros; exact I.
Qed.

Lemma keeps_new (df : DataFrame) : keeps h0 (new df) (fun l => h0 !! l = None).
Proof.
  intros s Hs. destruct (new_run df s) as [Hrun Hfresh]. rewrite Hrun. cbn.
  split.
  - etrans; [exact Hs|]. apply heap_grows_new.
  - intros a [= <-]. eapply lookup_weaken_None; eassumption.
Qed.

Lemma keeps_assign (l : loc) (df : DataFrame) :
  h0 !! l = None -> keeps h0 (assign l df) any.
Proof.
  intros Hl s Hs. cbn. split; [|intros; exact I].
  now apply insert_subseteq_r.
Qed.

Lemma keeps_bind {A B} (m : M A) (f : A -> M B) (Q : A -> Prop) (R : B -> Prop) :
  keeps h0 m Q -> (forall a, Q a -> keeps h0 (f a) R) -> keeps h0 (bind m f) R.
Proof.
  intros Hm Hf s Hs. unfold bind.
  destruct (Hm s Hs) as [Hsub HQ].
  destruct (m s) as [[a|e] s1]; cbn in *.
  - exact (Hf a (HQ a eq_refl) s1 Hsub).
  - split; [exact Hsub|]. intros; discriminate.
Qed.

Lemma keeps_any {A} (m : M A) (Q : A -> Prop) : keeps h0 m Q -> keeps h0 m any.
Proof. intros Hm s Hs. split; [apply (Hm s Hs)|]. intros; exact I. Qed.

Lemma keeps_copy (l : loc) : keeps h0 (copy l) (fun l' => h0 !! l' = None).
Proof.
  unfold copy. eapply keeps_bind; [apply keeps_deref|].
  intros df _. apply keeps_new.
Qed.

Ltac keeps_step :=
  match goal with
  | |- keeps _ (bind _ _) _ => eapply keeps_bind; [|intros ? ?]
  | |- keeps _ (ret _) _ => apply keeps_ret
  | |- keeps _ (raise _) _ => apply keeps_raise
  | |- keeps _ (lift _) _ => apply keeps_lift
  | |- keeps _ (st _) _ => apply keeps_st
  | |- keeps _ (deref _) _ => apply keeps_deref
  | |- keeps _ (new _) any => eapply keeps_any; apply keeps_new
  | |- keeps _ (new _) _ => apply keeps_new
  | |- keeps _ (copy _) _ => apply keeps_copy
  | |- keeps _ (assign _ _) _ => apply keeps_assign; assumption
  | |- keeps _ (if ?b then _ else _) _ => destruct b
  | |- keeps _ (match ?x with _ => _ end) _ => destruct x
  end.

Lemma keeps_line_chart (data : loc) : keeps h0 (plot_yoy_line_chart data) any.
Proof. unfold plot_yoy_line_chart. repeat keeps_step. Qed.

Lemma keeps_heatmap (data : loc) : keeps h0 (plot_yoy_heatmap data) any.
Proof. unfold plot_yoy_heatmap. repeat keeps_step. Qed.

Lemma keeps_bar_chart (data : loc) : keeps h0 (plot_avg_bar_chart data) any.
Proof. unfold plot_avg_bar_chart. repeat keeps_step. Qed.

Lemma keeps_table_view (yc : loc) : keeps h0 (table_view yc) any.
Proof. unfold table_view. repeat keeps_step. Qed.

Lemma keeps_filter_countries (yc : loc) (yl : option loc) (sel : list cell) :
  keeps h0 (filter_countries yc yl sel) any.
Proof. unfold filter_countries. repeat keeps_step. Qed.

Lemma keeps_display_results (yc yl : option loc) (viz : viz_type) (sel : list cell) :
  keeps h0 (display_results yc yl viz sel) any.
Proof.
  unfold display_results. destruct yc as [yc|]; [|apply keeps_ret].
  repeat first [ apply keeps_table_view | apply keeps_filter_countries
               | apply keeps_line_chart | apply keeps_heatmap
               | apply keeps_bar_chart | keeps_step ].
Qed.

Lemma keeps_process_data (data : option loc) : keeps h0 (process_data data) any.
Proof. unfold process_data. destruct data; repeat keeps_step. Qed.

End Keeps.

(** [process_data] step by step: the copy, the melted frame, the years. *)
Lemma process_data_run (s : state) (d : loc) (df : DataFrame) :
  heap s !! d = Some df ->
  process_data (Some d) s =
  let lw := fresh (dom (heap s)) in
  let h1 := <[lw := df]> (heap s) in
  match melt df id_vars "Year" "YoY Change (%)" with
  | Raise e => (Raise e, mkState h1 (page s))
  | Ok melted =>
      let ll := fresh (dom h1) in
      match parse_years melted with
      | Raise e => (Raise e, mkState (<[ll := melted]> h1) (page s))
      | Ok long => (Ok (Some lw, Some ll), mkState (<[ll := long]> h1) (page s))
      end
  end.
Proof.
  intros Hd. unfold process_data, copy, bind, deref, new, lift, assign, ret.
  rewrite Hd. cbn. rewrite lookup_insert_eq.
  destruct (melt df id_vars "Year" "YoY Change (%)") as [melted|e]; [|reflexivity].
  cbn. rewrite lookup_insert_eq. unfold parse_years.
  destruct (getitem melted "Year") as [year|e]; [|reflexivity]. cbn.
  destruct (astype_int (str_extract_d4 year)) as [year'|e]; [|reflexivity]. cbn.
  now rewrite insert_insert_eq.
Qed.

(** C8.  No function of the script changes a table it is given.  Whatever
    they return or raise, [process_data], the table view, the three chart
    functions and [display_results] end in a store in which every object
    that existed before, the arguments included, has its value of before.
    When [process_data] returns, its wide output is a new object (a copy)
    whose value is the input's. *)
Theorem C8_no_mutation (s : state) :
  (forall d df, heap s !! d = Some df ->
     let r := process_data (Some d) s in
     heap s ⊆ heap (snd r) /\
     heap (snd r) !! d = Some df /\
     (forall lw ll, fst r = Ok (Some lw, Some ll) ->
        lw <> d /\ ll <> d /\ heap s !! lw = None /\ heap (snd r) !! lw = Some df)) /\
  (forall data,
     heap s ⊆ heap (snd (table_view data s)) /\
     heap s ⊆ heap (snd (plot_yoy_line_chart data s)) /\
     heap s ⊆ heap (snd (plot_yoy_heatmap data s)) /\
     heap s ⊆ heap (snd (plot_avg_bar_chart data s))) /\
  (forall yoy_change yoy_long viz selected,
     heap s ⊆ heap (snd (display_results yoy_change yoy_long viz selected s))).
Proof.
  split; [|split].
  - intros d df Hd r.
    assert (Hsub : heap s ⊆ heap (snd r))
      by exact (proj1 (keeps_process_data (heap s) (Some d) s (reflexivity _))).
    split; [exact Hsub|]. split; [exact (lookup_weaken _ _ _ _ Hd Hsub)|].
    intros lw ll. subst r. rewrite (process_data_run s d df Hd). cbv zeta.
    set (lw' := fresh (dom (heap s))).
    assert (Hlw : heap s !! lw' = None) by apply not_elem_of_dom, is_fresh.
    set (h1 := <[lw' := df]> (heap s)).
    assert (Hll : h1 !! fresh (dom h1) = None) by apply not_elem_of_dom, is_fresh.
    destruct (melt df id_vars "Year" "YoY Change (%)") as [melted|e]; [|discriminate].
    destruct (parse_years melted) as [long|e]; [|discriminate].
    cbn. intros [= <- <-].
    assert (Hne : fresh (dom h1) <> lw').
    { intros E. rewrite E in Hll. subst h1. rewrite lookup_insert_eq in Hll. discriminate. }
    repeat split.
    + intros ->. rewrite Hd in Hlw. discriminate.
    + intros E. rewrite E in Hll. subst h1.
      rewrite lookup_insert_ne in Hll by (intros ->; rewrite Hd in Hlw; discriminate).
      rewrite Hd in Hll. discriminate.
    + exact Hlw.
    + rewrite lookup_insert_ne by exact Hne. subst h1. apply lookup_insert_eq.
  - intros data. repeat split.
    + exact (proj1 (keeps_table_view (heap s) data s (reflexivity _))).
    + exact (proj1 (keeps_line_chart (heap s) data s (reflexivity _))).
    + exact (proj1 (keeps_heatmap (heap s) data s (reflexivity _))).
    + exact (proj1 (keeps_bar_chart (heap s) data s (reflexivity _))).
  - intros yc yl viz sel.
    exact (proj1 (keeps_display_results (heap s) yc yl viz sel s (reflexivity _))).
Qed.

Lemma C8_no_mutation_witness :
  let s := mkState {[ 0%nat := sample_data ]} [] in
  let r := process_data (Some 0%nat) s in
  heap s ⊆ heap (snd r) /\
  heap (snd r) !! 0%nat = Some sample_data /\
  (forall lw ll, fst r = Ok (Some lw, Some ll) ->
     lw <> 0%nat /\ ll <> 0%nat /\ heap s !! lw = None /\
     heap (snd r) !! lw = Some sample_data).
Proof.
  exact (proj1 (C8_no_mutation (mkState {[ 0%nat := sample_data ]} []))
           0%nat sample_data eq_refl).
Defined.

(** * Wide tables *)

Section ListFacts.
Context {A B : Type}.

Lemma combine_app_eq (l1 l1' : list A) (l2 l2' : list B) :
  length l1 = length l2 ->
  combine (l1 ++ l1') (l2 ++ l2') = combine l1 l2 ++ combine l1' l2'.
Proof.
  revert l2. induction l1 as [|a l1 IH]; intros [|b l2] Hlen;
    try discriminate; cbn; [reflexivity|].
  f_equal. apply IH. now injection Hlen.
Qed.

Lemma combine_repeat (l : list A) (y : B) :
  combine l (repeat y (length l)) = map (fun a => (a, y)) l.
Proof. induction l as [|a l IH]; cbn; [reflexivity|now rewrite IH]. Qed.

Lemma lookup_combine (l1 : list A) (l2 : list B) (i : nat) (a : A) (b : B) :
  combine l1 l2 !! i = Some (a, b) <-> l1 !! i = Some a /\ l2 !! i = Some b.
Proof.
  revert l2 i. induction l1 as [|x l1 IH]; intros [|y l2] [|i]; cbn;
    try (split; [discriminate|intros [? ?]; discriminate]).
  - split; [intros [= -> ->]; now split|intros [[= ->] [= ->]]; reflexivity].
  - apply IH.
Qed.

Lemma lookup_map (f : A -> B) (l : list A) (i : nat) (y : B) :
  map f l !! i = Some y <-> exists x, l !! i = Some x /\ y = f x.
Proof.
  revert i. induction l as [|a l IH]; intros [|i]; cbn.
  - split; [discriminate|intros (x & Hx & _); discriminate].
  - split; [discriminate|intros (x & Hx & _); discriminate].
  - split; [intros [= <-]; now exists a|intros (x & [= <-] & ->); reflexivity].
  - apply IH.
Qed.

Lemma length_tile (l : list A) (k : nat) : length (tile l k) = (length l * k)%nat.
Proof.
  unfold tile. induction k as [|k IH]; cbn; [lia|].
  rewrite length_app, IH. lia.
Qed.

Lemma rmapM_ok (f : A -> result B) (h : A -> B) (l : list A) :
  (forall x, In x l -> f x = Ok (h x)) -> rmapM f l = Ok (map h l).
Proof.
  induction l as [|x l IH]; intros H; cbn; [reflexivity|].
  rewrite (H x (or_introl eq_refl)). cbn.
  rewrite IH by (intros; apply H; now right). reflexivity.
Qed.

Lemma rmapM_map {C} (f : A -> result B) (g : C -> A) (l : list C) :
  rmapM f (map g l) = rmapM (fun x => f (g x)) l.
Proof. induction l as [|x l IH]; cbn; [reflexivity|now rewrite IH]. Qed.

Lemma rmapM_length (f : A -> result B) (l : list A) (l' : list B) :
  rmapM f l = Ok l' -> length l' = length l.
Proof.
  revert l'. induction l as [|x l IH]; intros l'; cbn.
  - intros [= <-]. reflexivity.
  - destruct (f x); [|discriminate]. cbn.
    destruct (rmapM f l) as [ys|]; [|discriminate]. cbn.
    intros [= <-]. cbn. now rewrite (IH ys eq_refl).
Qed.
End ListFacts.

Lemma lookup_col_In (name : string) (cols : list (string * Series)) (c : Series) :
  lookup_col name cols = Some c -> In (name, c) cols.
Proof.
  induction cols as [|[l x] cols IH]; cbn; [discriminate|].
  destruct (String.eqb_spec l name) as [->|_].
  - intros [= ->]. now left.
  - intros H. right. now apply IH.
Qed.

Lemma lookup_col_None (name : string) (cols : list (string * Series)) :
  lookup_col name cols = None <-> ~ In name (map fst cols).
Proof.
  induction cols as [|[l x] cols IH]; cbn; [tauto|].
  destruct (String.eqb_spec l name) as [->|Hne].
  - split; [discriminate|]. intros H. exfalso. apply H. now left.
  - rewrite IH. tauto.
Qed.

Lemma existsb_eqb_In (name : string) (l : list string) :
  existsb (String.eqb name) l = true <-> In name l.
Proof.
  rewrite existsb_exists. split.
  - intros (x & Hin & Heq). apply String.eqb_eq in Heq. now subst.
  - intros Hin. exists name. split; [exact Hin|apply String.eqb_refl].
Qed.

Section Wide.
Variable df : DataFrame.
Hypothesis Hwide : WideTable df.
Variables names codes : Series.
Hypothesis Hnames : lookup_col "Country Name" (columns df) = Some names.
Hypothesis Hcodes : lookup_col "Country Code" (columns df) = Some codes.

Lemma wide_length_names : length names = len df.
Proof.
  pose proof (wide_wf df Hwide) as Hwf. unfold wf in Hwf.
  rewrite List.Forall_forall in Hwf.
  exact (Hwf _ (lookup_col_In _ _ _ Hnames)).
Qed.

Lemma wide_length_codes : length codes = len df.
Proof.
  pose proof (wide_wf df Hwide) as Hwf. unfold wf in Hwf.
  rewrite List.Forall_forall in Hwf.
  exact (Hwf _ (lookup_col_In _ _ _ Hcodes)).
Qed.

Lemma wide_length_years :
  Forall (fun c => length (snd c) = len df) (year_columns df).
Proof.
  pose proof (wide_wf df Hwide) as Hwf. unfold wf in Hwf.
  rewrite List.Forall_forall in *. intros c Hc.
  apply Hwf. unfold year_columns in Hc. now apply filter_In in Hc.
Qed.

(** A label with a year is not the value column's name. *)
Lemma wide_value_name_free :
  existsb (String.eqb "YoY Change (%)") (labels df) = false.
Proof.
  destruct (existsb _ _) eqn:E; [|reflexivity]. exfalso.
  apply existsb_eqb_In in E. unfold labels in E.
  apply in_map_iff in E as ([l c] & Hl & Hin). cbn in Hl. subst l.
  pose proof (wide_years df Hwide) as Hy. rewrite List.Forall_forall in Hy.
  assert (Hyc : In ("YoY Change (%)", c) (year_columns df)).
  { unfold year_columns. apply filter_In. split; [exact Hin|reflexivity]. }
  destruct (Hy _ Hyc) as [y Hsome]. cbn in Hsome. discriminate.
Qed.

Lemma melt_wide :
  melt df id_vars "Year" "YoY Change (%)" =
  Ok (from_dict (len df * length (year_columns df))
        [ ("Country Name", tile names (length (year_columns df)));
          ("Country Code", tile codes (length (year_columns df)));
          ("Year", flat_map (fun c => repeat (Str (fst c)) (len df)) (year_columns df));
          ("YoY Change (%)", List.concat (map snd (year_columns df))) ]).
Proof.
  unfold melt. rewrite wide_value_name_free.
  unfold id_vars at 1. cbn [rmapM]. unfold getitem. rewrite Hnames, Hcodes.
  reflexivity.
Qed.

Lemma years_parse :
  astype_int (str_extract_d4
                (flat_map (fun c => repeat (Str (fst c)) (len df)) (year_columns df)))
  = Ok (flat_map (fun c => repeat (year_cell (fst c)) (len df)) (year_columns df)).
Proof.
  pose proof (wide_years df Hwide) as Hy. rewrite List.Forall_forall in Hy.
  unfold astype_int, str_extract_d4.
  set (h := fun c => match c with Str t => year_cell t | _ => NaN end).
  rewrite rmapM_map.
  rewrite (rmapM_ok _ h).
  - f_equal. induction (year_columns df) as [|[l c] ycols IH]; [reflexivity|].
    cbn [flat_map fst]. rewrite map_app, map_repeat, IH; [reflexivity|].
    intros x Hx. apply Hy. now right.
  - intros x Hx. apply in_flat_map in Hx as (c & Hc & Hx).
    apply repeat_spec in Hx. subst x. cbn.
    destruct (Hy c Hc) as [y Hyear]. unfold year_cell. rewrite Hyear.
    unfold Text.year_of_label in Hyear.
    destruct (Text.re_search_d4 (fst c)) as [m|]; [|discriminate].
    cbn. now rewrite Hyear.
Qed.

Lemma parse_years_wide :
  rbind (melt df id_vars "Year" "YoY Change (%)") parse_years
  = Ok (long_table (len df) names codes (year_columns df)).
Proof.
  rewrite melt_wide. cbn [rbind]. unfold parse_years, getitem. cbn [lookup_col columns from_dict String.eqb Ascii.eqb Bool.eqb].
  cbn [rbind]. rewrite years_parse. reflexivity.
Qed.

End Wide.

(** * The long table *)

Section LongTable.
Variable R : nat.
Variables names codes : Series.
Variable ycols : list (string * Series).
Hypothesis Hnames : length names = R.
Hypothesis Hcodes : length codes = R.
Hypothesis Hycols : Forall (fun c => length (snd c) = R) ycols.

Let long := long_table R names codes ycols.

Lemma long_triples_blocks : long_triples long = flat_map (block names) ycols.
Proof.
  unfold long, long_table, long_triples. cbn [columns from_dict lookup_col String.eqb Ascii.eqb Bool.eqb].
  clear long. induction Hycols as [|c rest Hc Hrest IH]; [reflexivity|].
  cbn [length flat_map map List.concat]. unfold tile in *. cbn [repeat List.concat].
  rewrite combine_app_eq by (rewrite repeat_length; exact Hnames).
  rewrite combine_app_eq by (rewrite length_combine, repeat_length, Hnames, Hc; lia).
  rewrite IH by exact Hrest. f_equal. unfold block.
  rewrite <- Hnames. now rewrite combine_repeat.
Qed.

Lemma long_wf : wf long /\ len long = (R * length ycols)%nat.
Proof.
  assert (Hlen : len long = (R * length ycols)%nat).
  { unfold long, long_table, len, from_dict, RangeIndex. cbn [index].
    now rewrite length_map, length_seq. }
  split; [|exact Hlen].
  unfold wf. rewrite Hlen. unfold long, long_table. cbn [columns from_dict].
  repeat apply List.Forall_cons; [| | | |apply List.Forall_nil]; cbn [snd].
  - now rewrite length_tile, Hnames.
  - now rewrite length_tile, Hcodes.
  - clear long Hlen. induction Hycols as [|c rest Hc Hrest IH]; cbn; [lia|].
    rewrite length_app, repeat_length, IH by assumption. lia.
  - clear long Hlen. induction Hycols as [|c rest Hc Hrest IH]; cbn; [lia|].
    rewrite length_app, Hc, IH by assumption. lia.
Qed.

Lemma length_block (c : string * Series) :
  length (snd c) = R -> length (block names c) = R.
Proof.
  intros Hc. unfold block. rewrite length_combine, length_map, Hnames, Hc. lia.
Qed.

Lemma length_long_triples : length (long_triples long) = (R * length ycols)%nat.
Proof.
  rewrite long_triples_blocks. clear long.
  induction Hycols as [|c rest Hc Hrest IH]; cbn; [lia|].
  rewrite length_app, length_block, IH by assumption. lia.
Qed.

Lemma in_block (c : string * Series) (n y v : cell) :
  In (n, y, v) (block names c) <->
  y = year_cell (fst c) /\ exists i, names !! i = Some n /\ snd c !! i = Some v.
Proof.
  unfold block. rewrite <- list_elem_of_In, list_elem_of_lookup.
  split.
  - intros (i & Hi). apply lookup_combine in Hi as [Hn Hv].
    apply lookup_map in Hn as (n' & Hn & [= -> ->]).
    split; [reflexivity|]. now exists i.
  - intros (-> & i & Hn & Hv). exists i. apply lookup_combine. split; [|exact Hv].
    apply lookup_map. exists n. now split.
Qed.

Lemma map_fst_block (c : string * Series) :
  length (snd c) = R ->
  map fst (block names c) = map (fun n => (n, year_cell (fst c))) names.
Proof.
  intros Hc. unfold block.
  assert (Hl : length (map (fun n => (n, year_cell (fst c))) names) = length (snd c))
    by (rewrite length_map; congruence).
  revert Hl. generalize (map (fun n => (n, year_cell (fst c))) names) as l.
  generalize (snd c) as col. clear.
  intros col l. revert col.
  induction l as [|x l IH]; intros [|v col] Hl; try discriminate; cbn;
    [reflexivity|].
  f_equal. apply IH. now injection Hl.
Qed.

Lemma long_keys_NoDup :
  List.NoDup names ->
  List.NoDup (map (fun c => Text.year_of_label (fst c)) ycols) ->
  Forall (fun c => is_Some (Text.year_of_label (fst c))) ycols ->
  List.NoDup (map fst (long_triples long)).
Proof.
  intros Hnd Hyears Hsome. rewrite long_triples_blocks. clear long.
  induction Hycols as [|c rest Hc Hrest IH]; [constructor|].
  cbn [flat_map]. rewrite map_app, map_fst_block by exact Hc.
  cbn [map] in Hyears. apply List.NoDup_cons_iff in Hyears as [Hfresh Hyears].
  inversion Hsome as [|? ? [y Hy] Hsome']; subst.
  apply List.NoDup_app.
  - apply Finite.Injective_map_NoDup; [|exact Hnd].
    intros a b [= ->]. reflexivity.
  - apply IH; assumption.
  - intros [n y'] Hin Hin'.
    apply in_map_iff in Hin as (n' & [= <- <-] & _).
    apply in_map_iff in Hin' as ([[n2 y2] v2] & Heq & Hin'). cbn in Heq.
    injection Heq as -> Hy2.
    apply in_flat_map in Hin' as (c' & Hc' & Hin').
    rewrite List.Forall_forall in Hsome'.
    destruct (Hsome' c' Hc') as [y' Hy'].
    apply in_block in Hin' as [-> _].
    unfold year_cell in Hy2. rewrite Hy, Hy' in Hy2. injection Hy2 as ->.
    apply Hfresh. apply in_map_iff. exists c'. split; [congruence|exact Hc'].
Qed.

End LongTable.

(** C1.  For a wide table (the data model's: both id columns, every other
    label carrying a year) with R rows and Y year columns, [process_data]
    returns, and the long table it returns has one cell per row in each
    column and exactly R * Y rows; every row of it is a (country, year,
    value) triple of the wide table.  When in addition the country names are
    all different and no two year columns carry the same year (the data
    model's key), no (Country Name, Year) pair occurs twice, and every
    triple of the wide table occurs exactly once. *)
Theorem C1_long_table (s : state) (d : loc) (df : DataFrame) (names : Series) :
  heap s !! d = Some df ->
  WideTable df ->
  lookup_col "Country Name" (columns df) = Some names ->
  exists lw ll s' long,
    process_data (Some d) s = (Ok (Some lw, Some ll), s') /\
    heap s' !! ll = Some long /\
    wf long /\
    len long = (len df * length (year_columns df))%nat /\
    length (long_triples long) = (len df * length (year_columns df))%nat /\
    (forall n y v, In (n, y, v) (long_triples long) ->
       exists i label col,
         In (label, col) (year_columns df) /\ y = year_cell label /\
         names !! i = Some n /\ col !! i = Some v) /\
    (List.NoDup names ->
     List.NoDup (map (fun c => Text.year_of_label (fst c)) (year_columns df)) ->
     List.NoDup (map fst (long_triples long)) /\
     forall i n label col y v,
       names !! i = Some n -> In (label, col) (year_columns df) ->
       Text.year_of_label label = Some y -> col !! i = Some v ->
       count_occ triple_eq_dec (long_triples long) (n, Int y, v) = 1%nat).
Proof.
  intros Hd Hwide Hnames.
  destruct (wide_code df Hwide) as [codes Hcodes].
  pose proof (parse_years_wide df Hwide names codes Hnames Hcodes) as Hlong.
  pose proof (wide_length_names df Hwide names Hnames) as Hln.
  pose proof (wide_length_codes df Hwide codes Hcodes) as Hlc.
  pose proof (wide_length_years df Hwide) as Hly.
  rewrite (process_data_run s d df Hd). cbv zeta.
  destruct (melt df id_vars "Year" "YoY Change (%)") as [melted|e]; [|discriminate].
  cbn [rbind] in Hlong. rewrite Hlong.
  eexists _, _, _, _. split; [reflexivity|]. cbn [heap].
  split; [apply lookup_insert_eq|].
  destruct (long_wf (len df) names codes (year_columns df) Hln Hlc Hly) as [Hwf Hlen].
  split; [exact Hwf|]. split; [exact Hlen|].
  split; [apply length_long_triples; assumption|].
  assert (Hblocks : long_triples (long_table (len df) names codes (year_columns df))
                    = flat_map (block names) (year_columns df))
    by (apply long_triples_blocks; assumption).
  split.
  - intros n y v Hin. rewrite Hblocks in Hin.
    apply in_flat_map in Hin as ([label col] & Hc & Hin).
    apply in_block in Hin as (-> & i & Hn & Hv).
    exists i, label, col. repeat split; assumption.
  - intros Hnd Hyears.
    assert (Hkeys : List.NoDup (map fst (long_triples
                      (long_table (len df) names codes (year_columns df)))))
      by (apply long_keys_NoDup; try assumption; exact (wide_years df Hwide)).
    split; [exact Hkeys|].
    intros i n label col y v Hn Hc Hy Hv.
    apply NoDup_count_occ'.
    + eapply NoDup_map_inv. exact Hkeys.
    + rewrite Hblocks. apply in_flat_map. exists (label, col). split; [exact Hc|].
      apply in_block. cbn [fst snd]. split.
      * unfold year_cell. now rewrite Hy.
      * now exists i.
Qed.

Lemma sample_wide : WideTable sample_data.
Proof.
  split.
  - unfold wf. cbn. repeat constructor.
  - cbn. repeat (apply List.NoDup_cons; [cbn; intuition congruence|]).
    apply List.NoDup_nil.
  - eexists. reflexivity.
  - eexists. reflexivity.
  - cbn. repeat (apply List.Forall_cons; [eexists; reflexivity|]).
    apply List.Forall_nil.
Qed.

Lemma sample_stored :
  heap (mkState {[ 0%nat := sample_data ]} []) !! 0%nat = Some sample_data.
Proof. reflexivity. Qed.

Lemma sample_names_text :
  Forall (fun c => is_str c = true)
    [Str "Indonesia"; Str "Philippines"; Str "Viet Nam"; Str "Myanmar"; Str "Cambodia"].
Proof. repeat constructor. Qed.

Lemma sample_names_NoDup :
  List.NoDup
    [Str "Indonesia"; Str "Philippines"; Str "Viet Nam"; Str "Myanmar"; Str "Cambodia"].
Proof.
  repeat (apply List.NoDup_cons; [cbn; intuition congruence|]). apply List.NoDup_nil.
Qed.

Lemma sample_years_NoDup :
  List.NoDup (map (fun c => Text.year_of_label (fst c)) (year_columns sample_data)).
Proof.
  vm_compute. repeat (apply List.NoDup_cons; [cbn; intuition congruence|]).
  apply List.NoDup_nil.
Qed.

Lemma C1_long_table_witness :
  exists lw ll s' long,
    process_data (Some 0%nat) (mkState {[ 0%nat := sample_data ]} [])
      = (Ok (Some lw, Some ll), s') /\
    heap s' !! ll = Some long /\
    wf long /\
    len long = (len sample_data * length (year_columns sample_data))%nat /\
    length (long_triples long) = (len sample_data * length (year_columns sample_data))%nat /\
    List.NoDup (map fst (long_triples long)) /\
    count_occ triple_eq_dec (long_triples long)
              (Str "Myanmar", Int 2010, fl 136) = 1%nat.
Proof.
  destruct (C1_long_table (mkState {[ 0%nat := sample_data ]} []) 0%nat sample_data
              [Str "Indonesia"; Str "Philippines"; Str "Viet Nam";
               Str "Myanmar"; Str "Cambodia"]
              sample_stored sample_wide eq_refl)
    as (lw & ll & s' & long & H1 & H2 & H3 & H4 & H5 & _ & H6).
  destruct (H6 sample_names_NoDup sample_years_NoDup) as [H7 H8].
  exists lw, ll, s', long. repeat split; try assumption.
  apply (H8 3%nat (Str "Myanmar") "2010 YoY (%)"
            (map fl [-326; 41; 93; 136; 228]%Z) 2010%Z (fl 136));
    try reflexivity.
  cbn. tauto.
Defined.

(** * The country filter *)

Lemma cell_eqb_text (t : string) (c : cell) :
  cell_eqb (Str t) c = true <-> c = Str t.
Proof.
  destruct c; cbn; try (split; [discriminate|intros [=]]).
  rewrite String.eqb_eq. split; [intros ->; reflexivity|intros [= ->]; reflexivity].
Qed.

Lemma selected_text (selection : list cell) (t : string) :
  selected selection (Str t) = true <-> In (Str t) selection.
Proof.
  unfold selected. rewrite existsb_exists. split.
  - intros (c & Hin & Heq). apply cell_eqb_text in Heq. now subst.
  - intros Hin. exists (Str t). split; [exact Hin|]. now apply cell_eqb_text.
Qed.

Lemma mask_filter_map {K X} (f : K -> bool) (ks : list K) (xs : list X) :
  mask_filter (map f ks) xs
  = map snd (List.filter (fun p => f (fst p)) (combine ks xs)).
Proof.
  revert xs. induction ks as [|k ks IH]; intros [|x xs]; cbn; try reflexivity.
  destruct (f k); cbn; now rewrite IH.
Qed.

Lemma length_mask_filter_map {K X} (f : K -> bool) (ks : list K) (xs : list X) :
  length xs = length ks ->
  length (mask_filter (map f ks) xs) = length (List.filter f ks).
Proof.
  revert xs. induction ks as [|k ks IH]; intros [|x xs] Hlen; try discriminate;
    cbn; [reflexivity|].
  injection Hlen as Hlen. destruct (f k); cbn; now rewrite IH.
Qed.

Lemma mask_filter_heads (b : bool) (m : list bool) (k : nat) (cols : list Series) :
  Forall (fun c => length c = S k) cols ->
  map (mask_filter (b :: m)) cols
  = if b then map (fun c => hd_cell c :: mask_filter m (List.tl c)) cols
    else map (mask_filter m) (map (@List.tl cell) cols).
Proof.
  intros Hcols. induction Hcols as [|c cols Hc Hcols IH].
  - now destruct b.
  - destruct c as [|x c]; [discriminate|].
    cbn [map]. rewrite IH. destruct b; reflexivity.
Qed.

Lemma Forall_length_tl (k : nat) (cols : list Series) :
  Forall (fun c => length c = S k) cols ->
  Forall (fun c => length c = k) (map (@List.tl cell) cols).
Proof.
  intros Hcols. induction Hcols as [|c cols Hc Hcols IH]; cbn; constructor.
  - destruct c; [discriminate|]. cbn in *. lia.
  - exact IH.
Qed.

(** Masking every column is masking the rows. *)
Lemma rows_of_mask (mask : list bool) :
  forall (n : nat) (idx : list cell) (cols : list Series),
    length idx = n -> length mask = n ->
    Forall (fun c => length c = n) cols ->
    rows_of (length (mask_filter mask idx)) (map (mask_filter mask) cols)
    = mask_filter mask (rows_of n cols).
Proof.
  induction mask as [|b m IH]; intros n idx cols Hidx Hmask Hcols.
  - cbn in Hmask. subst n. destruct idx; [reflexivity|discriminate].
  - destruct n as [|k]; [discriminate|]. destruct idx as [|x idx]; [discriminate|].
    injection Hidx as Hidx. injection Hmask as Hmask.
    rewrite (mask_filter_heads b m k cols Hcols).
    pose proof (Forall_length_tl k cols Hcols) as Htl.
    destruct b; cbn [mask_filter rows_of length].
    + rewrite !map_map. cbn [hd_cell List.hd List.tl].
      f_equal. rewrite <- (IH k idx (map (@List.tl cell) cols) Hidx Hmask Htl).
      now rewrite map_map.
    + apply IH; assumption.
Qed.

Lemma rows_getitem_mask (w : DataFrame) (names : Series) (f : cell -> bool) :
  wf w -> length names = len w ->
  rows (getitem_mask w (map f names))
  = map snd (List.filter (fun r => f (fst r)) (combine names (rows w))).
Proof.
  intros Hwf Hlen. rewrite <- mask_filter_map. unfold rows, getitem_mask, len.
  cbn [index columns]. rewrite map_map. cbn [snd].
  rewrite <- (map_map snd (mask_filter (map f names))).
  apply rows_of_mask.
  - reflexivity.
  - rewrite length_map. exact Hlen.
  - unfold wf in Hwf. rewrite List.Forall_forall in *.
    intros c Hc. apply in_map_iff in Hc as (p & <- & Hp). now apply Hwf.
Qed.

Lemma labels_getitem_mask (w : DataFrame) (mask : list bool) :
  labels (getitem_mask w mask) = labels w.
Proof. unfold labels, getitem_mask. cbn. now rewrite map_map. Qed.

Lemma filter_selected_length (names selection : list cell) :
  Forall (fun c => is_str c = true) names ->
  List.NoDup names -> List.NoDup selection -> incl selection names ->
  length (List.filter (selected selection) names) = length selection.
Proof.
  intros Htext Hnames Hsel Hincl. rewrite List.Forall_forall in Htext.
  apply Permutation_length, Permutation.NoDup_Permutation.
  - now apply List.NoDup_filter.
  - exact Hsel.
  - intros c. rewrite filter_In. split.
    + intros [Hin Hc]. specialize (Htext c Hin). destruct c; try discriminate.
      now apply selected_text.
    + intros Hin. pose proof (Hincl c Hin) as Hn. split; [exact Hn|].
      specialize (Htext c Hn). destruct c; try discriminate.
      now apply selected_text.
Qed.

(** C3.  With an empty selection the filter returns the two tables it was
    given (the same objects) and changes nothing.  With a non-empty
    selection it returns two new tables with the columns of the old ones,
    whose rows are, in order, exactly the rows of the wide and of the long
    table whose Country Name cell is in the selection; a name is in the
    selection when it is equal to a selected name, character for character.
    When the wide table's names are text and all different and the
    selection is a duplicate-free list of them, the filtered wide table has
    as many rows as names were selected. *)
Theorem C3_country_filter (s : state) (yc yl : loc) (w l : DataFrame)
        (names lnames : Series) :
  heap s !! yc = Some w -> heap s !! yl = Some l ->
  wf w -> wf l ->
  lookup_col "Country Name" (columns w) = Some names ->
  lookup_col "Country Name" (columns l) = Some lnames ->
  filter_countries yc (Some yl) [] s = (Ok (yc, Some yl), s) /\
  forall selection, selection <> [] ->
    exists fw fl s' w' l',
      filter_countries yc (Some yl) selection s = (Ok (fw, Some fl), s') /\
      heap s' !! fw = Some w' /\ heap s' !! fl = Some l' /\
      heap s ⊆ heap s' /\ page s' = page s /\
      labels w' = labels w /\ labels l' = labels l /\
      rows w' = map snd (List.filter (fun r => selected selection (fst r))
                                     (combine names (rows w))) /\
      rows l' = map snd (List.filter (fun r => selected selection (fst r))
                                     (combine lnames (rows l))) /\
      (forall t, selected selection (Str t) = true <-> In (Str t) selection) /\
      (Forall (fun c => is_str c = true) names ->
       List.NoDup names -> List.NoDup selection -> incl selection names ->
       len w' = length selection).
Proof.
  intros Hyc Hyl Hwf Hlwf Hnames Hlnames. split; [reflexivity|].
  intros selection Hne.
  assert (Hln : length names = len w).
  { unfold wf in Hwf. rewrite List.Forall_forall in Hwf.
    exact (Hwf _ (lookup_col_In _ _ _ Hnames)). }
  assert (Hlln : length lnames = len l).
  { unfold wf in Hlwf. rewrite List.Forall_forall in Hlwf.
    exact (Hlwf _ (lookup_col_In _ _ _ Hlnames)). }
  destruct selection as [|c0 sel0]; [contradiction|].
  unfold filter_countries. cbv iota.
  clear Hne. generalize (c0 :: sel0). intros selection.
  unfold bind, deref, lift, getitem, new, ret. rewrite Hyc, Hnames. cbn [heap page].
  set (fw := fresh (dom (heap s))).
  assert (Hfw : heap s !! fw = None) by apply not_elem_of_dom, is_fresh.
  assert (Hne1 : fw <> yl) by (intros ->; rewrite Hyl in Hfw; discriminate).
  rewrite lookup_insert_ne by exact Hne1. rewrite Hyl, Hlnames. cbn [heap page].
  set (h1 := <[fw := getitem_mask w (isin names selection)]> (heap s)).
  set (fl := fresh (dom h1)).
  assert (Hfl : h1 !! fl = None) by apply not_elem_of_dom, is_fresh.
  assert (Hne2 : fl <> fw).
  { intros E. rewrite E in Hfl. subst h1. rewrite lookup_insert_eq in Hfl. discriminate. }
  eexists fw, fl, _, _, _. split; [reflexivity|]. cbn [heap page].
  split; [rewrite lookup_insert_ne by exact Hne2; apply lookup_insert_eq|].
  split; [apply lookup_insert_eq|].
  split; [etrans; [apply (insert_subseteq _ fw), Hfw|apply insert_subseteq, Hfl]|].
  split; [reflexivity|].
  split; [apply labels_getitem_mask|]. split; [apply labels_getitem_mask|].
  split; [exact (rows_getitem_mask w names (selected selection) Hwf Hln)|].
  split; [exact (rows_getitem_mask l lnames (selected selection) Hlwf Hlln)|].
  split; [intros t; apply selected_text|].
  intros Htext Hnd Hsel Hincl.
  unfold len, getitem_mask, isin. cbn [index].
  rewrite (length_mask_filter_map (selected selection)) by (symmetry; exact Hln).
  now apply filter_selected_length.
Qed.

Lemma sample_long_wf : wf sample_long.
Proof.
  unfold sample_long. apply long_wf; try reflexivity.
  exact (wide_length_years sample_data sample_wide).
Qed.

Lemma sample_pair_stored :
  let s := mkState {[ 0%nat := sample_data; 1%nat := sample_long ]} [] in
  heap s !! 0%nat = Some sample_data /\ heap s !! 1%nat = Some sample_long.
Proof. split; reflexivity. Qed.

Lemma C3_country_filter_witness :
  let s := mkState {[ 0%nat := sample_data; 1%nat := sample_long ]} [] in
  filter_countries 0%nat (Some 1%nat) [] s = (Ok (0%nat, Some 1%nat), s) /\
  exists fw fl s' w' l',
    filter_countries 0%nat (Some 1%nat) [Str "Myanmar"; Str "Cambodia"] s
      = (Ok (fw, Some fl), s') /\
    heap s' !! fw = Some w' /\ heap s' !! fl = Some l' /\
    len w' = 2%nat.
Proof.
  cbv zeta.
  destruct (C3_country_filter
              (mkState {[ 0%nat := sample_data; 1%nat := sample_long ]} [])
              0%nat 1%nat sample_data sample_long _ _
              (proj1 sample_pair_stored) (proj2 sample_pair_stored)
              (wide_wf _ sample_wide) sample_long_wf eq_refl eq_refl)
    as [Hempty Hsel].
  split; [exact Hempty|].
  destruct (Hsel [Str "Myanmar"; Str "Cambodia"] ltac:(discriminate))
    as (fw & fl & s' & w' & l' & Hrun & Hw & Hl & _ & _ & _ & _ & _ & _ & _ & Hcard).
  exists fw, fl, s', w', l'. repeat split; try assumption.
  apply Hcard.
  - exact sample_names_text.
  - exact sample_names_NoDup.
  - repeat (apply List.NoDup_cons; [cbn; intuition congruence|]). apply List.NoDup_nil.
  - intros c [<-|[<-|[]]]; cbn; tauto.
Defined.

(** * Binary64 arithmetic *)

Section Rounding.
Local Open Scope Q_scope.

Lemma pow2_pos (e : Z) : 0 < pow2 e.
Proof. apply Qpower_0_lt. reflexivity. Qed.

Lemma pow2_add (a b : Z) : pow2 (a + b) == pow2 a * pow2 b.
Proof. apply Qpower_plus. discriminate. Qed.

Lemma pow2_Z (k : Z) : (0 <= k)%Z -> inject_Z (2 ^ k) == pow2 k.
Proof. intros H. exact (Zpower_Qpower 2 k H). Qed.

Lemma log2_bounds (p : positive) :
  pow2 (Z.log2 (Z.pos p)) <= inject_Z (Z.pos p) /\
  inject_Z (Z.pos p) < pow2 (Z.log2 (Z.pos p) + 1).
Proof.
  destruct (Z.log2_spec (Z.pos p) eq_refl) as [Hlo Hhi].
  pose proof (Z.log2_nonneg (Z.pos p)) as Hnn.
  split.
  - rewrite <- pow2_Z by exact Hnn. now rewrite <- Zle_Qle.
  - rewrite <- pow2_Z by lia. now rewrite <- Zlt_Qlt.
Qed.

(** [ilog2] is the exponent: [2^e <= n/d < 2^(e+1)]. *)
Lemma ilog2_bounds (n d : positive) :
  pow2 (ilog2 n d) <= Z.pos n # d /\ Z.pos n # d < pow2 (ilog2 n d + 1).
Proof.
  destruct (log2_bounds n) as [Hn Hn']. destruct (log2_bounds d) as [Hd' Hd].
  unfold ilog2. cbv zeta.
  set (a := Z.log2 (Z.pos n)) in *. set (b := Z.log2 (Z.pos d)) in *.
  assert (Hpos : 0 < inject_Z (Z.pos d)) by reflexivity.
  assert (Hlow : pow2 a == pow2 (a - b - 1) * pow2 (b + 1)).
  { rewrite <- pow2_add. now replace (a - b - 1 + (b + 1))%Z with a by lia. }
  assert (Hupp : pow2 (a + 1) == pow2 (a - b + 1) * pow2 b).
  { rewrite <- pow2_add. now replace (a - b + 1 + b)%Z with (a + 1)%Z by lia. }
  pose proof (pow2_pos (a - b - 1)) as Hp1. pose proof (pow2_pos (a - b + 1)) as Hp2.
  pose proof (Qmake_Qdiv (Z.pos n) d) as Hdiv.
  destruct (Qle_bool _ _) eqn:E.
  - apply Qle_bool_iff in E. split; [exact E|].
    rewrite Hdiv. apply Qlt_shift_div_r; [exact Hpos|].
    apply Qlt_le_trans with (pow2 (a + 1)); [exact Hn'|].
    rewrite Hupp. apply Qmult_le_l; [exact Hp2|exact Hd'].
  - split.
    + rewrite Hdiv. apply Qle_shift_div_l; [exact Hpos|].
      apply Qle_trans with (pow2 (a - b - 1) * pow2 (b + 1)).
      * apply Qmult_le_l; [exact Hp1|]. now apply Qlt_le_weak.
      * rewrite <- Hlow. exact Hn.
    + replace (a - b - 1 + 1)%Z with (a - b)%Z by lia.
      apply Qnot_le_lt. intros H.
      apply Qle_bool_iff in H. congruence.
Qed.

Lemma nearest_even_error (q : Q) : Qabs (inject_Z (nearest_even q) - q) <= 1 # 2.
Proof.
  unfold nearest_even. cbv zeta.
  pose proof (Qfloor_le q) as Hlo. pose proof (Qlt_floor q) as Hhi.
  rewrite inject_Z_plus in Hhi. change (inject_Z 1) with 1 in Hhi.
  set (f := Qfloor q) in *.
  assert (Hup : inject_Z (f + 1) == inject_Z f + 1)
    by (rewrite inject_Z_plus; reflexivity).
  apply Qabs_Qle_condition.
  destruct (Qcompare_spec (q - inject_Z f) (1 # 2)) as [E|E|E].
  - destruct (Z.even f); [|rewrite Hup]; lra.
  - lra.
  - rewrite Hup. lra.
Qed.

Lemma round_abs_error (s : bool) (n d : positive) (r : Q) :
  round_abs s n d = Finite r ->
  Qabs (r - (if s then - (Z.pos n # d) else Z.pos n # d))
  <= unit_roundoff * (Z.pos n # d) + unit_roundoff * tiny.
Proof.
  unfold round_abs. cbv zeta.
  set (x := Z.pos n # d).
  set (e := Z.max (ilog2 n d) (-1022)).
  set (ulp := pow2 (e - 52)).
  set (m := nearest_even (x / ulp)).
  destruct (Qle_bool _ _); [discriminate|]. intros [= <-].
  pose proof (pow2_pos (e - 52)) as Hulp. fold ulp in Hulp.
  pose proof (nearest_even_error (x / ulp)) as Hm. fold m in Hm.
  assert (Hx : 0 < x) by reflexivity.
  assert (Hy : Qabs (inject_Z m * ulp - x) <= ulp * (1 # 2)).
  { assert (E : inject_Z m * ulp - x == (inject_Z m - x / ulp) * ulp)
      by (field; lra).
    rewrite E, Qabs_Qmult, (Qabs_pos ulp) by lra.
    rewrite (Qmult_comm ulp). apply Qmult_le_compat_r; [exact Hm|lra]. }
  assert (Hhalf : ulp * (1 # 2) <= unit_roundoff * x + unit_roundoff * tiny).
  { pose proof (pow2_pos (-53)) as Hu. fold unit_roundoff in Hu.
    pose proof (pow2_pos (-1022)) as Ht. fold tiny in Ht.
    subst ulp e. destruct (Z.max_spec (ilog2 n d) (-1022)) as [[Hlt ->]|[Hge ->]].
    - assert (E : pow2 (-1022 - 52) * (1 # 2) == unit_roundoff * tiny).
      { unfold unit_roundoff, tiny. rewrite <- pow2_add. reflexivity. }
      rewrite E. nra.
    - destruct (ilog2_bounds n d) as [Hlog _]. fold x in Hlog.
      assert (E : pow2 (ilog2 n d - 52) * (1 # 2) == unit_roundoff * pow2 (ilog2 n d)).
      { unfold unit_roundoff.
        replace (ilog2 n d - 52)%Z with (ilog2 n d + -53 + 1)%Z by lia.
        rewrite !pow2_add. change (pow2 1) with 2. ring. }
      rewrite E. nra. }
  rewrite Qred_correct.
  destruct s.
  - assert (E : - (inject_Z m * ulp) - - x == - (inject_Z m * ulp - x)) by ring.
    rewrite E, Qabs_opp. lra.
  - lra.
Qed.

(** One rounding: the relative error is at most [unit_roundoff], except
    below [tiny], where the absolute error is at most [unit_roundoff * tiny]
    (half of [2^-1074]). *)
Lemma round_error (q r : Q) :
  round q = Finite r ->
  Qabs (r - q) <= unit_roundoff * Qabs q + unit_roundoff * tiny.
Proof.
  pose proof (pow2_pos (-53)) as Hu. fold unit_roundoff in Hu.
  pose proof (pow2_pos (-1022)) as Ht. fold tiny in Ht.
  destruct q as [[|n|n] d]; unfold round; cbn [Qnum Qden].
  - intros [= <-]. pose proof (Qabs_nonneg (0 # d)).
    assert (E : 0 - (0 # d) == 0) by reflexivity.
    rewrite E. change (Qabs 0) with 0. nra.
  - intros H. apply (round_abs_error false) in H.
    now rewrite (Qabs_pos (Z.pos n # d)) by discriminate.
  - intros H. apply (round_abs_error true) in H.
    change (Z.neg n # d) with (- (Z.pos n # d)).
    now rewrite Qabs_opp, (Qabs_pos (Z.pos n # d)) by discriminate.
Qed.

Lemma unit_roundoff_pos : 0 < unit_roundoff.
Proof. apply pow2_pos. Qed.

Lemma tiny_pos : 0 < tiny.
Proof. apply pow2_pos. Qed.

Lemma growth_ge_1 (k : nat) : 1 <= growth k.
Proof.
  pose proof unit_roundoff_pos.
  induction k as [|k IH]; cbn [growth]; [lra|nra].
Qed.

Lemma growth_mono (j k : nat) : (j <= k)%nat -> growth j <= growth k.
Proof.
  pose proof unit_roundoff_pos.
  induction 1 as [|k Hle IH]; [lra|].
  cbn [growth]. pose proof (growth_ge_1 k). nra.
Qed.

Lemma Qsum_app (l1 l2 : list Q) : Qsum (l1 ++ l2) == Qsum l1 + Qsum l2.
Proof.
  unfold Qsum. induction l1 as [|x l1 IH]; cbn [app fold_right]; [ring|rewrite IH; ring].
Qed.

Lemma Qsum_perm (l1 l2 : list Q) : Permutation l1 l2 -> Qsum l1 == Qsum l2.
Proof.
  unfold Qsum.
  induction 1 as [|x l1 l2 _ IH|x y l|l1 l2 l3 _ IH1 _ IH2]; cbn [fold_right].
  - reflexivity.
  - now rewrite IH.
  - ring.
  - now rewrite IH1.
Qed.

Lemma Qsum_abs_nonneg (l : list Q) : 0 <= Qsum (map Qabs l).
Proof.
  unfold Qsum. induction l as [|x l IH]; cbn [map fold_right]; [lra|].
  pose proof (Qabs_nonneg x). lra.
Qed.

Lemma Qabs_Qsum (l : list Q) : Qabs (Qsum l) <= Qsum (map Qabs l).
Proof.
  unfold Qsum. induction l as [|x l IH]; cbn [map fold_right]; [discriminate|].
  eapply Qle_trans; [apply Qabs_triangle|]. lra.
Qed.

End Rounding.

Section Sums.
Local Open Scope Q_scope.

Lemma add_finite (x y : float) (v : Q) :
  add x y = Finite v ->
  exists a b, x = Finite a /\ y = Finite b /\ round (a + b) = Finite v.
Proof.
  destruct x as [a|s|], y as [b|t|]; cbn; try discriminate.
  - intros H. now exists a, b.
  - destruct (Bool.eqb s t); discriminate.
Qed.

Lemma operands_length (p : plan) : (1 <= length (operands p))%nat.
Proof.
  induction p as [x|a IHa b IHb]; cbn [operands length]; [lia|].
  rewrite length_app. lia.
Qed.

(** A sum of binary64 numbers, carried out in any order: when the result
    is finite it is within [(growth n - 1) * (sum of |q| + n * tiny)] of
    the sum of the [n] rationals [qs] whose roundings were added. *)
Lemma plan_error (p : plan) :
  forall (qs : list Q) (v : Q),
    Permutation (operands p) (map round qs) ->
    eval p = Finite v ->
    Qabs (v - Qsum qs)
    <= (growth (length qs) - 1)
       * (Qsum (map Qabs qs) + inject_Z (Z.of_nat (length qs)) * tiny).
Proof.
  pose proof unit_roundoff_pos as Hu. pose proof tiny_pos as Ht.
  induction p as [x|a IHa b IHb]; intros qs v Hperm Hv.
  - cbn [operands] in Hperm. apply Permutation_length_1_inv in Hperm.
    destruct qs as [|q [|q' qs]]; try discriminate. injection Hperm as Hx.
    cbn [eval] in Hv. rewrite <- Hx in Hv. apply round_error in Hv.
    unfold Qsum. cbn [map fold_right length growth].
    change (inject_Z (Z.of_nat 1)) with 1.
    pose proof (Qabs_nonneg q) as Hq.
    apply Qabs_Qle_condition in Hv. apply Qabs_Qle_condition. nra.
  - cbn [operands] in Hperm. cbn [eval] in Hv.
    apply add_finite in Hv as (va & vb & Ha & Hb & Hr).
    apply Permutation_map_inv in Hperm as (l & Heq & Hl).
    symmetry in Heq. apply List.map_eq_app in Heq as (l1 & l2 & -> & H1 & H2).
    specialize (IHa l1 va). specialize (IHb l2 vb).
    rewrite <- H1 in IHa. rewrite <- H2 in IHb.
    specialize (IHa (Permutation_refl _) Ha). specialize (IHb (Permutation_refl _) Hb).
    pose proof (operands_length a) as Hna. pose proof (operands_length b) as Hnb.
    rewrite <- H1, length_map in Hna. rewrite <- H2, length_map in Hnb.
    rewrite (Qsum_perm _ _ Hl), (Qsum_perm _ _ (Permutation_map Qabs Hl)).
    rewrite (Permutation_length Hl).
    rewrite map_app, !Qsum_app, length_app.
    apply round_error in Hr.
    set (n1 := length l1) in *. set (n2 := length l2) in *.
    assert (HN : inject_Z (Z.of_nat (n1 + n2))
                 == inject_Z (Z.of_nat n1) + inject_Z (Z.of_nat n2)).
    { rewrite Nat2Z.inj_add, inject_Z_plus. reflexivity. }
    assert (HN1 : 1 <= inject_Z (Z.of_nat n1)).
    { change 1 with (inject_Z 1). rewrite <- Zle_Qle. lia. }
    assert (HN2 : 1 <= inject_Z (Z.of_nat n2)).
    { change 1 with (inject_Z 1). rewrite <- Zle_Qle. lia. }
    rewrite HN.
    set (N1 := inject_Z (Z.of_nat n1)) in *. set (N2 := inject_Z (Z.of_nat n2)) in *.
    pose proof (Qsum_abs_nonneg l1) as HA1. pose proof (Qsum_abs_nonneg l2) as HA2.
    pose proof (Qabs_Qsum l1) as HS1. pose proof (Qabs_Qsum l2) as HS2.
    set (A1 := Qsum (map Qabs l1)) in *. set (A2 := Qsum (map Qabs l2)) in *.
    set (S1 := Qsum l1) in *. set (S2 := Qsum l2) in *.
    set (G0 := growth (n1 + n2 - 1)).
    assert (HG : growth (n1 + n2) == (1 + unit_roundoff) * G0).
    { subst G0. replace (n1 + n2)%nat with (S (n1 + n2 - 1)) at 1 by lia. reflexivity. }
    pose proof (growth_mono n1 (n1 + n2 - 1) ltac:(lia)) as HG1. fold G0 in HG1.
    pose proof (growth_mono n2 (n1 + n2 - 1) ltac:(lia)) as HG2. fold G0 in HG2.
    pose proof (growth_ge_1 n1) as Hg1. pose proof (growth_ge_1 n2) as Hg2.
    rewrite HG.
    set (B1 := A1 + N1 * tiny) in *. set (B2 := A2 + N2 * tiny) in *.
    assert (HB1 : 0 <= B1) by (subst B1; nra).
    assert (HB2 : 0 <= B2) by (subst B2; nra).
    assert (HX1 : (growth n1 - 1) * B1 <= (G0 - 1) * B1)
      by (apply Qmult_le_compat_r; [lra|exact HB1]).
    assert (HX2 : (growth n2 - 1) * B2 <= (G0 - 1) * B2)
      by (apply Qmult_le_compat_r; [lra|exact HB2]).
    set (X1 := (G0 - 1) * B1) in *. set (X2 := (G0 - 1) * B2) in *.
    assert (HX1' : 0 <= X1) by (subst X1; nra).
    assert (HX2' : 0 <= X2) by (subst X2; nra).
    assert (Hgoal : ((1 + unit_roundoff) * G0 - 1) * (A1 + A2 + (N1 + N2) * tiny)
                    == (1 + unit_roundoff) * (X1 + X2) + unit_roundoff * (B1 + B2)).
    { subst X1 X2 B1 B2. ring. }
    rewrite Hgoal.
    apply Qabs_Qle_condition in IHa, IHb, HS1, HS2.
    assert (HW : Qabs (va + vb) <= A1 + A2 + X1 + X2)
      by (apply Qabs_Qle_condition; lra).
    pose proof (Qabs_nonneg (va + vb)) as HZ.
    set (Z := Qabs (va + vb)) in *.
    assert (HuZ : unit_roundoff * Z <= unit_roundoff * (A1 + A2 + X1 + X2))
      by (apply Qmult_le_l; assumption).
    assert (Hut : unit_roundoff * tiny <= unit_roundoff * ((N1 + N2) * tiny)).
    { apply Qmult_le_l; [exact Hu|].
      assert (Hn : 0 <= (N1 + N2 - 1) * tiny) by (apply Qmult_le_0_compat; lra).
      lra. }
    apply Qabs_Qle_condition in Hr. apply Qabs_Qle_condition.
    subst B1 B2. lra.
Qed.

End Sums.

(** * The order of the additions *)

Lemma chain_operands (xs : list float) :
  forall acc, operands (chain acc xs) = operands acc ++ xs.
Proof.
  unfold chain. induction xs as [|x xs IH]; intros acc; cbn [fold_left].
  - now rewrite app_nil_r.
  - rewrite IH. cbn [operands]. now rewrite <- app_assoc.
Qed.

Lemma zip_operands (r : list plan) :
  forall ys, length r = length ys ->
    Permutation (flat_map operands (zip_with Plus r (map Term ys)))
                (flat_map operands r ++ ys).
Proof.
  induction r as [|p r IH]; intros [|y ys] Hlen; try discriminate; [reflexivity|].
  injection Hlen as Hlen. cbn [map zip_with flat_map operands].
  rewrite (IH ys Hlen), <- !app_assoc. apply Permutation_app_head.
  cbn [app]. apply Permutation_middle.
Qed.

Lemma length_zip_plus (r : list plan) (ys : list float) :
  length r = length ys -> length (zip_with Plus r (map Term ys)) = length r.
Proof.
  revert ys. induction r as [|p r IH]; intros [|y ys] Hlen; try discriminate;
    [reflexivity|].
  injection Hlen as Hlen. cbn. now rewrite IH.
Qed.

(** The eight running sums: no operand is lost or added twice. *)
Lemma unrolled_operands (n : nat) :
  forall xs r r' tail,
    (length xs <= n)%nat -> length r = 8%nat ->
    unrolled r xs = (r', tail) ->
    length r' = 8%nat /\ (length tail < 8)%nat /\
    Permutation (flat_map operands r' ++ tail) (flat_map operands r ++ xs).
Proof.
  induction n as [|n IH]; intros xs r r' tail Hn Hr Hrun.
  - destruct xs; [|cbn in Hn; lia]. injection Hrun as <- <-.
    split; [exact Hr|]. split; [cbn; lia|reflexivity].
  - destruct xs as [|x0 [|x1 [|x2 [|x3 [|x4 [|x5 [|x6 [|x7 rest]]]]]]]];
      try (injection Hrun as <- <-; split; [exact Hr|]; split; [cbn; lia|reflexivity]).
    cbn [unrolled] in Hrun.
    set (ys := [x0; x1; x2; x3; x4; x5; x6; x7]) in *.
    assert (Hz : length (zip_with Plus r (map Term ys)) = 8%nat)
      by (rewrite length_zip_plus; [exact Hr|now rewrite Hr]).
    destruct (IH rest _ r' tail ltac:(cbn in Hn; lia) Hz Hrun)
      as (Hr' & Htail & Hperm).
    split; [exact Hr'|]. split; [exact Htail|].
    rewrite Hperm, (zip_operands r ys Hr), <- app_assoc. reflexivity.
Qed.

Lemma tree8_operands (r : list plan) :
  length r = 8%nat -> operands (tree8 r) = flat_map operands r.
Proof.
  destruct r as [|r0 [|r1 [|r2 [|r3 [|r4 [|r5 [|r6 [|r7 [|r8 r]]]]]]]]];
    try discriminate.
  intros _. cbn [tree8 operands flat_map]. now rewrite app_nil_r, <- !app_assoc.
Qed.

Lemma block_sum_operands (xs : list float) :
  Permutation (operands (block_sum xs))
              (if (length xs <? 8)%nat then Finite 0 :: xs else xs).
Proof.
  destruct xs as [|x0 [|x1 [|x2 [|x3 [|x4 [|x5 [|x6 [|x7 rest]]]]]]]];
    try (unfold block_sum; rewrite chain_operands; reflexivity).
  unfold block_sum.
  set (ys := [x0; x1; x2; x3; x4; x5; x6; x7]).
  destruct (unrolled (map Term ys) rest) as [r tail] eqn:E.
  destruct (unrolled_operands (length rest) rest (map Term ys) r tail (le_n _)
              (eq_refl : length (map Term ys) = 8%nat) E)
    as (Hr & _ & Hperm).
  rewrite chain_operands, (tree8_operands r Hr), Hperm. reflexivity.
Qed.

Lemma pairwise_operands (fuel : nat) :
  forall xs, Permutation (operands (pairwise_sum fuel xs))
                         (if (length xs <? 8)%nat then Finite 0 :: xs else xs).
Proof.
  induction fuel as [|fuel IH]; intros xs; cbn [pairwise_sum];
    [apply block_sum_operands|].
  destruct (Nat.ltb_spec 128 (length xs)) as [Hbig|_]; [|apply block_sum_operands].
  cbv zeta. set (n2 := (length xs / 2 - (length xs / 2) mod 8)%nat).
  pose proof (Nat.Div0.mul_div_le (length xs) 2) as Hlo.
  pose proof (Nat.mul_succ_div_gt (length xs) 2 ltac:(lia)) as Hhi.
  pose proof (Nat.mod_upper_bound (length xs / 2) 8 ltac:(lia)) as Hm.
  assert (H1 : (8 <= n2 <= length xs - 8)%nat) by (subst n2; lia).
  cbn [operands]. rewrite (IH (take n2 xs)), (IH (drop n2 xs)).
  rewrite length_take, length_drop.
  destruct (Nat.ltb_spec (n2 `min` length xs) 8) as [|_]; [lia|].
  destruct (Nat.ltb_spec (length xs - n2) 8) as [|_]; [lia|].
  destruct (Nat.ltb_spec (length xs) 8) as [|_]; [lia|].
  now rewrite take_drop.
Qed.

(** However a row is summed, the operands are the row's and one or two
    zeros. *)
Lemma add_reduce_operands (contiguous : bool) (xs : list float) :
  exists k, (1 <= k <= 2)%nat /\
            Permutation (operands (add_reduce contiguous xs))
                        (repeat (Finite 0) k ++ xs).
Proof.
  unfold add_reduce. destruct contiguous.
  - cbn [operands zero]. pose proof (pairwise_operands (length xs) xs) as H.
    destruct (length xs <? 8)%nat.
    + exists 2%nat. split; [lia|]. cbn [repeat app]. now constructor.
    + exists 1%nat. split; [lia|]. cbn [repeat app]. now constructor.
  - exists 1%nat. split; [lia|]. now rewrite chain_operands.
Qed.

Lemma eval_finite (p : plan) (v : Q) :
  eval p = Finite v -> Forall (fun x => exists q, x = Finite q) (operands p).
Proof.
  revert v. induction p as [x|a IHa b IHb]; intros v Hv; cbn [operands eval] in *.
  - constructor; [now exists v|constructor].
  - apply add_finite in Hv as (va & vb & Ha & Hb & _).
    apply List.Forall_app. split; [exact (IHa va Ha)|exact (IHb vb Hb)].
Qed.

(** * Sums that stay in range *)

Section InRange.
Local Open Scope Q_scope.

Lemma pow2_lt (a b : Z) : (a < b)%Z -> pow2 a < pow2 b.
Proof. intros H. apply Qpower_lt_compat_l; [exact H|reflexivity]. Qed.

Lemma pow2_double (e : Z) : pow2 (e + 1) == 2 * pow2 e.
Proof. rewrite pow2_add. change (pow2 1) with 2. ring. Qed.

(** Rounding a rational of magnitude at most [2^1023] gives a number. *)
Lemma round_finite (q : Q) : Qabs q <= pow2 1023 -> exists r, round q = Finite r.
Proof.
  assert (Hpos : forall (s : bool) (n d : positive),
             Z.pos n # d <= pow2 1023 -> exists r, round_abs s n d = Finite r).
  { intros s n d Hx. unfold round_abs. cbv zeta.
    set (x := Z.pos n # d) in *.
    destruct (ilog2_bounds n d) as [Hlo _]. fold x in Hlo.
    assert (He0 : (ilog2 n d <= 1023)%Z).
    { destruct (Z.le_gt_cases (ilog2 n d) 1023) as [H|H]; [exact H|].
      exfalso. pose proof (pow2_lt 1023 (ilog2 n d) ltac:(lia)). lra. }
    set (e := Z.max (ilog2 n d) (-1022)).
    assert (He : (e <= 1023)%Z) by (subst e; lia).
    pose proof (pow2_pos (e - 52)) as Hulp.
    assert (Hulp' : pow2 (e - 52) <= pow2 971).
    { destruct (Z.eq_dec e 1023%Z) as [->|Hne]; [apply Qle_refl|].
      apply Qlt_le_weak, pow2_lt. lia. }
    set (ulp := pow2 (e - 52)) in *.
    pose proof (nearest_even_error (x / ulp)) as Hm.
    set (m := nearest_even (x / ulp)) in *.
    assert (Hy : inject_Z m * ulp <= x + ulp * (1 # 2)).
    { apply Qabs_Qle_condition in Hm.
      assert (E : x == (x / ulp) * ulp) by (field; lra).
      assert (Hp : (inject_Z m - x / ulp) * ulp <= (1 # 2) * ulp)
        by (apply Qmult_le_compat_r; lra).
      lra. }
    assert (H1024 : pow2 1024 == 2 * pow2 1023) by apply (pow2_double 1023).
    pose proof (pow2_lt 971 1023 eq_refl) as H971.
    destruct (Qle_bool (pow2 1024) (inject_Z m * ulp)) eqn:E; [|now eexists].
    apply Qle_bool_iff in E. exfalso. lra. }
  destruct q as [[|n|n] d]; unfold round; cbn [Qnum Qden]; intros Hq.
  - now eexists.
  - apply Hpos. now rewrite (Qabs_pos (Z.pos n # d)) in Hq by discriminate.
  - apply Hpos. change (Z.neg n # d) with (- (Z.pos n # d)) in Hq.
    now rewrite Qabs_opp, (Qabs_pos (Z.pos n # d)) in Hq by discriminate.
Qed.

(** A sum whose operands, stretched by the roundings, stay below
    [2^1023] is a number, in whatever order it is carried out. *)
Lemma plan_finite (p : plan) :
  forall qs : list Q,
    Permutation (operands p) (map round qs) ->
    growth (length qs)
    * (Qsum (map Qabs qs) + inject_Z (Z.of_nat (length qs)) * tiny) <= pow2 1023 ->
    exists v, eval p = Finite v.
Proof.
  pose proof unit_roundoff_pos as Hu. pose proof tiny_pos as Ht.
  induction p as [x|a IHa b IHb]; intros qs Hperm Hrange.
  - cbn [operands] in Hperm. apply Permutation_length_1_inv in Hperm.
    destruct qs as [|q [|q' qs]]; try discriminate. injection Hperm as Hx.
    cbn [eval]. rewrite <- Hx. apply round_finite.
    unfold Qsum in Hrange. cbn [map fold_right length growth] in Hrange.
    change (inject_Z (Z.of_nat 1)) with 1 in Hrange.
    pose proof (Qabs_nonneg q). nra.
  - cbn [operands] in Hperm.
    pose proof Hperm as Hperm0.
    apply Permutation_map_inv in Hperm as (l & Heq & Hl).
    symmetry in Heq. apply List.map_eq_app in Heq as (l1 & l2 & -> & H1 & H2).
    pose proof (operands_length a) as Hna. pose proof (operands_length b) as Hnb.
    rewrite <- H1, length_map in Hna. rewrite <- H2, length_map in Hnb.
    rewrite (Qsum_perm _ _ (Permutation_map Qabs Hl)) in Hrange.
    rewrite (Permutation_length Hl) in Hrange.
    rewrite map_app, Qsum_app, length_app in Hrange.
    set (n1 := length l1) in *. set (n2 := length l2) in *.
    assert (HN : inject_Z (Z.of_nat (n1 + n2))
                 == inject_Z (Z.of_nat n1) + inject_Z (Z.of_nat n2)).
    { rewrite Nat2Z.inj_add, inject_Z_plus. reflexivity. }
    assert (HN1 : 1 <= inject_Z (Z.of_nat n1)).
    { change 1 with (inject_Z 1). rewrite <- Zle_Qle. lia. }
    assert (HN2 : 1 <= inject_Z (Z.of_nat n2)).
    { change 1 with (inject_Z 1). rewrite <- Zle_Qle. lia. }
    rewrite HN in Hrange.
    set (N1 := inject_Z (Z.of_nat n1)) in *. set (N2 := inject_Z (Z.of_nat n2)) in *.
    pose proof (Qsum_abs_nonneg l1) as HA1. pose proof (Qsum_abs_nonneg l2) as HA2.
    pose proof (Qabs_Qsum l1) as HS1. pose proof (Qabs_Qsum l2) as HS2.
    set (G0 := growth (n1 + n2 - 1)).
    assert (HG : growth (n1 + n2) == (1 + unit_roundoff) * G0).
    { subst G0. replace (n1 + n2)%nat with (S (n1 + n2 - 1)) at 1 by lia. reflexivity. }
    pose proof (growth_mono n1 (n1 + n2 - 1) ltac:(lia)) as HG1. fold G0 in HG1.
    pose proof (growth_mono n2 (n1 + n2 - 1) ltac:(lia)) as HG2. fold G0 in HG2.
    pose proof (growth_ge_1 n1) as Hg1. pose proof (growth_ge_1 n2) as Hg2.
    rewrite HG in Hrange.
    set (B1 := Qsum (map Qabs l1) + N1 * tiny) in *.
    set (B2 := Qsum (map Qabs l2) + N2 * tiny) in *.
    assert (HB1 : 0 <= B1) by (subst B1; nra).
    assert (HB2 : 0 <= B2) by (subst B2; nra).
    assert (Hsum : G0 * (B1 + B2) <= pow2 1023).
    { assert (E : (1 + unit_roundoff) * G0
                   * (Qsum (map Qabs l1) + Qsum (map Qabs l2) + (N1 + N2) * tiny)
                   == G0 * (B1 + B2) + unit_roundoff * (G0 * (B1 + B2)))
        by (subst B1 B2; ring).
      rewrite E in Hrange.
      assert (0 <= G0 * (B1 + B2)) by (apply Qmult_le_0_compat; lra).
      assert (0 <= unit_roundoff * (G0 * (B1 + B2)))
        by (apply Qmult_le_0_compat; lra).
      lra. }
    assert (HP1 : growth n1 * B1 <= G0 * B1) by (apply Qmult_le_compat_r; lra).
    assert (HP2 : growth n2 * B2 <= G0 * B2) by (apply Qmult_le_compat_r; lra).
    assert (HQ1 : 0 <= G0 * B1) by (apply Qmult_le_0_compat; lra).
    assert (HQ2 : 0 <= G0 * B2) by (apply Qmult_le_0_compat; lra).
    assert (Hsplit : G0 * (B1 + B2) == G0 * B1 + G0 * B2) by ring.
    destruct (IHa l1) as [va Ha]; [now rewrite H1|fold n1 N1 B1; lra|].
    destruct (IHb l2) as [vb Hb]; [now rewrite H2|fold n2 N2 B2; lra|].
    pose proof (plan_error a l1 va ltac:(now rewrite H1) Ha) as Ea.
    pose proof (plan_error b l2 vb ltac:(now rewrite H2) Hb) as Eb.
    fold n1 N1 B1 in Ea. fold n2 N2 B2 in Eb.
    cbn [eval]. rewrite Ha, Hb. cbn [add]. apply round_finite.
    assert (Ea' : (growth n1 - 1) * B1 == growth n1 * B1 - B1) by ring.
    assert (Eb' : (growth n2 - 1) * B2 == growth n2 * B2 - B2) by ring.
    rewrite Ea' in Ea. rewrite Eb' in Eb.
    apply Qabs_Qle_condition in Ea, Eb, HS1, HS2. apply Qabs_Qle_condition.
    assert (HT1 : 0 <= N1 * tiny) by (apply Qmult_le_0_compat; lra).
    assert (HT2 : 0 <= N2 * tiny) by (apply Qmult_le_0_compat; lra).
    subst B1 B2. lra.
Qed.

End InRange.

(** * Row means *)

Section RowMeans.
Local Open Scope Q_scope.

(** What a cell adds to a row sum. *)
Let addend (c : cell) : Q :=
  match num_of c with
  | Some q => q
  | None => 0
  end.

Let operand (c : cell) : float := if is_nan c then Finite 0 else to_float c.

Lemma operand_round (c : cell) (x : Q) :
  operand c = Finite x ->
  operand c = round (addend c) /\ (c = NaN \/ is_Some (num_of c)).
Proof.
  destruct c as [s|z|q|s|]; cbn; try discriminate; intros _.
  - split; [reflexivity|right; now eexists].
  - split; [reflexivity|right; now eexists].
  - split; [reflexivity|now left].
Qed.

Lemma addend_numbers (r : list cell) :
  Forall (fun c => c = NaN \/ is_Some (num_of c)) r ->
  Qsum (map addend r) == Qsum (numbers r) /\
  Qsum (map Qabs (map addend r)) == Qsum (map Qabs (numbers r)) /\
  length (List.filter (fun c => negb (is_nan c)) r) = length (numbers r).
Proof.
  unfold numbers, Qsum.
  induction 1 as [|c r Hc _ (IH1 & IH2 & IH3)]; [repeat split; reflexivity|].
  destruct Hc as [->|[q Hq]].
  - cbn [map fold_right List.filter is_nan negb omap list_omap num_of].
    change (addend NaN) with 0. change (Qabs 0) with 0.
    repeat split; [rewrite IH1; ring|rewrite IH2; ring|exact IH3].
  - assert (Hn : is_nan c = false) by (destruct c; try discriminate; reflexivity).
    assert (Ha : addend c = q) by (unfold addend; now rewrite Hq).
    cbn [map fold_right List.filter omap list_omap]. rewrite Hn, Hq, Ha.
    cbn [negb length map fold_right].
    repeat split; [now rewrite IH1|now rewrite IH2|now rewrite IH3].
Qed.

Lemma Qsum_zeros (k : nat) (l : list Q) :
  Qsum (repeat 0 k ++ l) == Qsum l /\
  Qsum (map Qabs (repeat 0 k ++ l)) == Qsum (map Qabs l).
Proof.
  unfold Qsum. induction k as [|k [IH1 IH2]]; [split; reflexivity|].
  cbn [repeat app map fold_right]. change (Qabs 0) with 0.
  split; [rewrite IH1; ring|rewrite IH2; ring].
Qed.

(** The quotient of a computed sum [a], within [E] of the exact sum [S],
    by the count [N]. *)
Lemma mean_error (a S A E N v : Q) :
  Qabs (a - S) <= E -> Qabs S <= A -> 0 < N ->
  round (a / N) = Finite v ->
  Qabs (v - S / N)
  <= ((1 + unit_roundoff) * E + unit_roundoff * A) / N + unit_roundoff * tiny.
Proof.
  intros Ha HS HN Hv. pose proof unit_roundoff_pos as Hu.
  apply round_error in Hv. unfold Qdiv in *.
  pose proof (Qinv_lt_0_compat N HN) as HI. set (I := / N) in *.
  assert (Hq : Qabs (a * I) <= (A + E) * I).
  { rewrite Qabs_Qmult, (Qabs_pos I) by lra.
    apply Qmult_le_compat_r; [|lra].
    apply Qabs_Qle_condition in Ha, HS. apply Qabs_Qle_condition. lra. }
  assert (Hd : Qabs (a * I - S * I) <= E * I).
  { assert (Eq : a * I - S * I == (a - S) * I) by ring.
    rewrite Eq, Qabs_Qmult, (Qabs_pos I) by lra.
    apply Qmult_le_compat_r; [exact Ha|lra]. }
  pose proof (Qabs_nonneg (a * I)) as HZ. set (Z := Qabs (a * I)) in *.
  assert (HuZ : unit_roundoff * Z <= unit_roundoff * ((A + E) * I))
    by (apply Qmult_le_l; assumption).
  assert (Eq : ((1 + unit_roundoff) * E + unit_roundoff * A) * I
               == E * I + unit_roundoff * ((A + E) * I)) by ring.
  rewrite Eq.
  apply Qabs_Qle_condition in Hv, Hd. apply Qabs_Qle_condition. lra.
Qed.

(** A charted mean that is a float is within [tolerance] of the
    arithmetic mean of the row's numbers. *)
Lemma mean_cells_float (contiguous : bool) (r : list cell) (v : Q) :
  mean_cells contiguous r = Ok (Float v) ->
  numbers r <> [] /\
  Qabs (v - arithmetic_mean (numbers r)) <= tolerance (length r) (numbers r).
Proof.
  pose proof unit_roundoff_pos as Hu. pose proof tiny_pos as Ht.
  unfold mean_cells. destruct (existsb is_str r); [discriminate|]. cbv zeta.
  fold operand.
  destruct (length (List.filter _ r)) as [|k] eqn:Hcount; [discriminate|].
  intros [= Hm].
  destruct (eval (add_reduce contiguous (map operand r))) as [a| |] eqn:Hsum;
    try discriminate.
  cbn [div_count of_float] in Hm.
  destruct (round (a / inject_Z (Z.pos (Pos.of_succ_nat k)))) as [v'| |] eqn:Hq;
    try discriminate.
  injection Hm as Hm. subst v'.
  destruct (add_reduce_operands contiguous (map operand r)) as (z & Hz & Hperm).
  pose proof (eval_finite _ _ Hsum) as Hfin.
  rewrite Hperm in Hfin. apply List.Forall_app in Hfin as [_ Hfin].
  assert (Hcells : Forall (fun c => operand c = round (addend c) /\
                                    (c = NaN \/ is_Some (num_of c))) r).
  { rewrite List.Forall_forall in *. intros c Hc.
    destruct (Hfin (operand c)) as [x Hx]; [now apply in_map|].
    exact (operand_round c x Hx). }
  assert (Hops : map operand r = map round (map addend r)).
  { rewrite map_map. apply map_ext_in. intros c Hc.
    rewrite List.Forall_forall in Hcells. now apply Hcells. }
  assert (Hkinds : Forall (fun c => c = NaN \/ is_Some (num_of c)) r).
  { rewrite List.Forall_forall in *. intros c Hc. now apply Hcells. }
  destruct (addend_numbers r Hkinds) as (HS & HA & Hlen).
  rewrite Hcount in Hlen.
  split; [intros E; rewrite E in Hlen; discriminate|].
  set (qs := repeat 0 z ++ map addend r).
  assert (Hperm' : Permutation (operands (add_reduce contiguous (map operand r)))
                               (map round qs)).
  { rewrite Hperm, Hops. subst qs. rewrite map_app.
    apply Permutation_app_tail. clear. induction z; cbn; now constructor. }
  pose proof (plan_error _ qs a Hperm' Hsum) as Herr.
  destruct (Qsum_zeros z (map addend r)) as [HS0 HA0]. fold qs in HS0, HA0.
  rewrite HS0, HA0, HS, HA in Herr.
  assert (Hqs : length qs = (z + length r)%nat)
    by (subst qs; now rewrite length_app, repeat_length, length_map).
  rewrite Hqs in Herr.
  set (w := length r) in *.
  pose proof (Qsum_abs_nonneg (numbers r)) as HA'.
  pose proof (Qabs_Qsum (numbers r)) as HS'.
  set (A := Qsum (map Qabs (numbers r))) in *. set (S := Qsum (numbers r)) in *.
  set (B := A + inject_Z (Z.of_nat (w + 2)) * tiny).
  set (E := (growth (w + 2) - 1) * B).
  assert (HE : Qabs (a - S) <= E).
  { eapply Qle_trans; [exact Herr|]. subst E B.
    pose proof (growth_mono (z + w) (w + 2) ltac:(lia)) as Hg.
    pose proof (growth_ge_1 (z + w)) as Hg1.
    assert (Hn : inject_Z (Z.of_nat (z + w)) <= inject_Z (Z.of_nat (w + 2)))
      by (rewrite <- Zle_Qle; lia).
    assert (Hn0 : 0 <= inject_Z (Z.of_nat (z + w)))
      by (change 0 with (inject_Z 0); rewrite <- Zle_Qle; lia).
    apply Qmult_le_compat_nonneg; split; try lra.
    - nra.
    - assert (Hp : inject_Z (Z.of_nat (z + w)) * tiny
                   <= inject_Z (Z.of_nat (w + 2)) * tiny)
        by (apply Qmult_le_compat_r; lra).
      lra. }
  assert (HB : A <= B).
  { subst B. assert (Hn0 : 0 <= inject_Z (Z.of_nat (w + 2)))
      by (change 0 with (inject_Z 0); rewrite <- Zle_Qle; lia).
    nra. }
  assert (HN : 0 < inject_Z (Z.pos (Pos.of_succ_nat k))) by reflexivity.
  pose proof (mean_error a S A E _ v HE HS' HN Hq) as Hmean.
  unfold arithmetic_mean, tolerance. fold A S. rewrite <- Hlen.
  replace (Z.of_nat (Datatypes.S k)) with (Z.pos (Pos.of_succ_nat k))
    by (now rewrite Zpos_P_of_succ_nat, Nat2Z.inj_succ).
  eapply Qle_trans; [exact Hmean|].
  apply Qplus_le_l. unfold Qdiv.
  apply Qmult_le_compat_r; [|apply Qlt_le_weak, Qinv_lt_0_compat, HN].
  fold B.
  replace (w + 3)%nat with (Datatypes.S (w + 2)) by lia. cbn [growth].
  assert (Hlin : ((1 + unit_roundoff) * growth (w + 2) - 1) * B
                 == (1 + unit_roundoff) * E + unit_roundoff * B)
    by (subst E; ring).
  rewrite Hlin.
  assert (HuA : unit_roundoff * A <= unit_roundoff * B)
    by (apply Qmult_le_l; assumption).
  lra.
Qed.

Lemma operand_kind (c : cell) :
  c = NaN \/ is_number c -> operand c = round (addend c) /\ is_str c = false.
Proof.
  intros [->|[q Hq]]; [now split|].
  destruct c; try discriminate; now split.
Qed.

(** A row of numbers and missing cells, in range and with a number, has a
    float for its mean. *)
Lemma mean_cells_in_range (contiguous : bool) (r : list cell) :
  Forall (fun c => c = NaN \/ is_number c) r ->
  numbers r <> [] ->
  in_range (length r) (numbers r) ->
  exists v, mean_cells contiguous r = Ok (Float v).
Proof.
  intros Hkinds Hne Hrange.
  pose proof unit_roundoff_pos as Hu. pose proof tiny_pos as Ht.
  assert (Hs : existsb is_str r = false).
  { apply not_true_is_false. intros H.
    apply existsb_exists in H as (c & Hc & Hstr).
    rewrite List.Forall_forall in Hkinds.
    pose proof (proj2 (operand_kind c (Hkinds c Hc))). congruence. }
  assert (Hops : map operand r = map round (map addend r)).
  { rewrite map_map. apply map_ext_in. intros c Hc.
    rewrite List.Forall_forall in Hkinds. exact (proj1 (operand_kind c (Hkinds c Hc))). }
  destruct (addend_numbers r Hkinds) as (HS & HA & Hlen).
  unfold mean_cells. rewrite Hs. cbv zeta. fold operand. rewrite Hlen.
  destruct (length (numbers r)) as [|k] eqn:Hcount;
    [destruct (numbers r); [contradiction|discriminate]|].
  destruct (add_reduce_operands contiguous (map operand r)) as (z & Hz & Hperm).
  set (qs := repeat 0 z ++ map addend r).
  assert (Hperm' : Permutation (operands (add_reduce contiguous (map operand r)))
                               (map round qs)).
  { rewrite Hperm, Hops. subst qs. rewrite map_app.
    apply Permutation_app_tail. clear. induction z; cbn; now constructor. }
  destruct (Qsum_zeros z (map addend r)) as [HS0 HA0]. fold qs in HS0, HA0.
  assert (Hqs : length qs = (z + length r)%nat)
    by (subst qs; now rewrite length_app, repeat_length, length_map).
  set (w := length r) in *.
  pose proof (Qsum_abs_nonneg (numbers r)) as HA'.
  pose proof (Qabs_Qsum (numbers r)) as HS'.
  unfold in_range in Hrange.
  set (A := Qsum (map Qabs (numbers r))) in *. set (S := Qsum (numbers r)) in *.
  pose proof (growth_mono (z + w) (w + 2) ltac:(lia)) as Hg.
  pose proof (growth_ge_1 (z + w)) as Hg1.
  assert (Hn : inject_Z (Z.of_nat (z + w)) <= inject_Z (Z.of_nat (w + 2)))
    by (rewrite <- Zle_Qle; lia).
  assert (Hn0 : 0 <= inject_Z (Z.of_nat (z + w)))
    by (change 0 with (inject_Z 0); rewrite <- Zle_Qle; lia).
  set (B := A + inject_Z (Z.of_nat (z + w)) * tiny).
  assert (HB : 0 <= B /\ A <= B).
  { subst B. assert (0 <= inject_Z (Z.of_nat (z + w)) * tiny)
      by (apply Qmult_le_0_compat; lra). lra. }
  assert (Hbound : growth (z + w) * B <= pow2 1023).
  { eapply Qle_trans; [|exact Hrange]. subst B.
    apply Qmult_le_compat_nonneg; split; try lra.
    assert (Hp : inject_Z (Z.of_nat (z + w)) * tiny
                 <= inject_Z (Z.of_nat (w + 2)) * tiny)
      by (apply Qmult_le_compat_r; lra).
    lra. }
  destruct (plan_finite _ qs Hperm') as [a Hsum].
  { rewrite Hqs, HA0, HA. exact Hbound. }
  pose proof (plan_error _ qs a Hperm' Hsum) as Herr.
  rewrite HS0, HA0, HS, HA, Hqs in Herr. fold A S B in Herr.
  rewrite Hsum. cbn [div_count].
  set (N := inject_Z (Z.pos (Pos.of_succ_nat k))).
  assert (HN : 1 <= N).
  { subst N. change 1 with (inject_Z 1). rewrite <- Zle_Qle. lia. }
  destruct (round_finite (a / N)) as [v Hv]; [|exists v; now rewrite Hv].
  unfold Qdiv. rewrite Qabs_Qmult.
  assert (HI : 0 < / N /\ / N <= 1).
  { split; [apply Qinv_lt_0_compat; lra|].
    apply Qle_shift_inv_r; lra. }
  rewrite (Qabs_pos (/ N)) by lra.
  assert (Ha : Qabs a <= growth (z + w) * B).
  { assert (E : (growth (z + w) - 1) * B == growth (z + w) * B - B) by ring.
    rewrite E in Herr.
    apply Qabs_Qle_condition in Herr, HS'. apply Qabs_Qle_condition. lra. }
  pose proof (Qabs_nonneg a) as Hnn.
  assert (Hp : / N * Qabs a <= 1 * Qabs a) by (apply Qmult_le_compat_r; lra).
  lra.
Qed.

Lemma mean_cells_missing (contiguous : bool) (r : list cell) :
  Forall (fun c => c = NaN) r -> mean_cells contiguous r = Ok NaN.
Proof.
  intros Hr. unfold mean_cells.
  assert (H : existsb is_str r = false /\
              List.filter (fun c => negb (is_nan c)) r = []).
  { induction Hr as [|c r -> _ [IH1 IH2]]; [now split|]. cbn. now split. }
  destruct H as [-> ->]. reflexivity.
Qed.

Lemma mean_cells_total (contiguous : bool) (r : list cell) :
  existsb is_str r = false ->
  exists m, mean_cells contiguous r = Ok m /\ mean_of_row r m.
Proof.
  intros Hs.
  assert (H : exists m, mean_cells contiguous r = Ok m /\ mean_cell m).
  { unfold mean_cells. rewrite Hs. cbv zeta.
    destruct (length (List.filter _ r)); [now exists NaN|].
    eexists. split; [reflexivity|]. now destruct (div_count _ _). }
  destruct H as (m & Hm & Hcell). exists m. split; [exact Hm|].
  split; [exact Hcell|]. split; [|split].
  - intros v ->. exact (mean_cells_float contiguous r v Hm).
  - intros Hkinds Hne Hrange.
    destruct (mean_cells_in_range contiguous r Hkinds Hne Hrange) as [v Hv].
    exists v. congruence.
  - intros Hnan. rewrite (mean_cells_missing contiguous r Hnan) in Hm. congruence.
Qed.

End RowMeans.

(** * Sorting by decreasing key *)

Lemma key_leb_total (a b : key) : key_leb a b = false -> key_leb b a = true.
Proof.
  destruct a as [|x|], b as [|y|]; cbn; try discriminate; try reflexivity.
  intros H. apply Qle_bool_iff, Qlt_le_weak, Qnot_le_lt.
  intros H'. apply Qle_bool_iff in H'. congruence.
Qed.

Lemma key_leb_trans (a b c : key) :
  key_leb a b = true -> key_leb b c = true -> key_leb a c = true.
Proof.
  destruct a as [|x|], b as [|y|], c as [|z|]; cbn; try discriminate; try reflexivity.
  rewrite !Qle_bool_iff. apply Qle_trans.
Qed.

Lemma insert_desc_perm (x : nat * key) (l : list (nat * key)) :
  Permutation (insert_desc x l) (x :: l).
Proof.
  induction l as [|y l IH]; cbn; [reflexivity|].
  destruct (key_leb (snd y) (snd x)); [reflexivity|].
  rewrite IH. apply perm_swap.
Qed.

Lemma sort_desc_perm (l : list (nat * key)) : Permutation (sort_desc l) l.
Proof.
  induction l as [|x l IH]; cbn; [reflexivity|].
  rewrite insert_desc_perm. now constructor.
Qed.

Lemma insert_desc_sorted (x : nat * key) (l : list (nat * key)) :
  StronglySorted key_ge l -> StronglySorted key_ge (insert_desc x l).
Proof.
  induction l as [|y l IH]; intros Hs; cbn.
  - repeat constructor.
  - apply StronglySorted_inv in Hs as [Hl Hy].
    destruct (key_leb (snd y) (snd x)) eqn:E.
    + constructor; [now constructor|].
      constructor; [exact E|].
      rewrite List.Forall_forall in *. intros z Hz.
      unfold key_ge in *. eapply key_leb_trans; [apply Hy, Hz|exact E].
    + constructor; [now apply IH|].
      rewrite List.Forall_forall in *. intros z Hz.
      apply (Permutation_in _ (insert_desc_perm x l)) in Hz as [<-|Hz].
      * unfold key_ge. now apply key_leb_total.
      * now apply Hy.
Qed.

Lemma sort_desc_sorted (l : list (nat * key)) : StronglySorted key_ge (sort_desc l).
Proof.
  induction l as [|x l IH]; cbn; [constructor|now apply insert_desc_sorted].
Qed.

Lemma in_combine_seq {X} (a : nat) (l : list X) (i : nat) (x : X) :
  In (i, x) (combine (seq a (length l)) l) -> exists j, i = (a + j)%nat /\ l !! j = Some x.
Proof.
  revert a. induction l as [|y l IH]; intros a; cbn; [tauto|].
  intros [[= <- <-]|Hin].
  - exists 0%nat. split; [lia|reflexivity].
  - destruct (IH (S a) Hin) as (j & -> & Hj). exists (S j). split; [lia|exact Hj].
Qed.

Lemma map_fst_combine {X Y} (a : list X) (b : list Y) :
  length a = length b -> map fst (combine a b) = a.
Proof.
  revert b. induction a as [|x a IH]; intros [|y b] Hlen; try discriminate;
    [reflexivity|]. cbn. f_equal. apply IH. now injection Hlen.
Qed.

Lemma partition_positions (l : list (nat * cell)) :
  Permutation
    (map fst (omap (fun p => option_map (pair (fst p)) (sort_key (snd p))) l)
     ++ map fst (List.filter (fun p => match sort_key (snd p) with
                                       | None => true
                                       | Some _ => false
                                       end) l))
    (map fst l).
Proof.
  induction l as [|[i c] l IH]; [reflexivity|].
  cbn [omap list_omap List.filter map fst snd].
  destruct (sort_key c); cbn [option_map map fst app].
  - now constructor.
  - symmetry. apply Permutation_cons_app. now symmetry.
Qed.

Lemma argsort_desc_perm (keys : Series) :
  Permutation (argsort_desc keys) (seq 0 (length keys)).
Proof.
  unfold argsort_desc.
  rewrite (Permutation_map fst (sort_desc_perm _)).
  rewrite partition_positions. unfold keyed.
  rewrite map_fst_combine; [reflexivity|now rewrite length_seq].
Qed.

Lemma seq_nth_combine {X Y} (d1 : X) (d2 : Y) (a : list X) (b : list Y) :
  length a = length b ->
  map (fun i => (nth i a d1, nth i b d2)) (seq 0 (length a)) = combine a b.
Proof.
  revert b. induction a as [|x a IH]; intros [|y b] Hlen; try discriminate;
    [reflexivity|].
  injection Hlen as Hlen. cbn [length seq map nth combine]. f_equal.
  rewrite <- seq_shift, map_map. cbn [nth]. now apply IH.
Qed.

Lemma map_const {X Y} (f : X -> Y) (a : Y) (l : list X) :
  (forall x, In x l -> f x = a) -> map f l = repeat a (length l).
Proof.
  induction l as [|x l IH]; intros H; cbn; [reflexivity|].
  rewrite (H x (or_introl eq_refl)), IH; [reflexivity|].
  intros; apply H; now right.
Qed.

Lemma keyed_lookup (keys : Series) (i : nat) (c : cell) :
  In (i, c) (keyed keys) -> keys !! i = Some c.
Proof.
  intros Hin. unfold keyed in Hin.
  apply in_combine_seq in Hin as (j & -> & Hj). exact Hj.
Qed.

Lemma StronglySorted_map_in {X Y} (R : X -> X -> Prop) (R' : Y -> Y -> Prop)
      (f : X -> Y) (l : list X) :
  (forall x y, In x l -> In y l -> R x y -> R' (f x) (f y)) ->
  StronglySorted R l -> StronglySorted R' (map f l).
Proof.
  intros H Hs. induction Hs as [|x l Hs IH Hall]; cbn; constructor.
  - apply IH. intros a b Ha Hb. apply H; now right.
  - rewrite List.Forall_forall in *. intros y Hy.
    apply in_map_iff in Hy as (b & <- & Hb).
    apply H; [now left|now right|now apply Hall].
Qed.

(** The cells of a column of means, read in sorted order: the numbers and
    infinities in non-increasing order, then the NaNs. *)
Lemma sorted_means (means : Series) :
  Forall mean_cell means ->
  exists nums k,
    map (fun i => nth i means NaN) (argsort_desc means) = nums ++ repeat NaN k /\
    StronglySorted cell_ge nums.
Proof.
  intros Hmeans. rewrite List.Forall_forall in Hmeans. unfold argsort_desc.
  set (keys := omap _ (keyed means)). set (nans := List.filter _ (keyed means)).
  exists (map (fun i => nth i means NaN) (map fst (sort_desc keys))),
    (length (map fst nans)).
  split.
  - rewrite map_app. f_equal.
    apply map_const. intros i Hi.
    apply in_map_iff in Hi as ([i' c] & <- & Hic). cbn [fst].
    subst nans. apply filter_In in Hic as [Hic Hc]. cbn [snd] in Hc.
    pose proof (keyed_lookup means i' c Hic) as Hl.
    assert (Hm : In c means) by (apply list_elem_of_In, list_elem_of_lookup; eauto).
    rewrite (nth_lookup_Some _ _ NaN _ Hl).
    specialize (Hmeans c Hm). destruct c as [| | |[|]|]; try discriminate;
      try contradiction. reflexivity.
  - rewrite map_map.
    apply (StronglySorted_map_in key_ge); [|apply sort_desc_sorted].
    assert (Hkey : forall p, In p (sort_desc keys) ->
                     sort_key (nth (fst p) means NaN) = Some (snd p)).
    { intros [i k] Hin. cbn [fst snd].
      apply (Permutation_in _ (sort_desc_perm keys)) in Hin.
      subst keys. apply list_elem_of_In, list_elem_of_omap in Hin
        as ([i' c] & Hic & Hk).
      apply list_elem_of_In in Hic. cbn [fst snd] in Hk.
      destruct (sort_key c) as [k'|] eqn:Hc; [|discriminate]. injection Hk as <- <-.
      now rewrite (nth_lookup_Some _ _ NaN _ (keyed_lookup means i' c Hic)). }
    intros x y Hx Hy Hxy. unfold cell_ge.
    now rewrite (Hkey x Hx), (Hkey y Hy).
Qed.

(** * Selecting columns *)

Lemma lookup_col_drop (c name : string) (cols : list (string * Series)) :
  name <> c ->
  lookup_col name (List.filter (fun p => negb (String.eqb (fst p) c)) cols)
  = lookup_col name cols.
Proof.
  intros Hne. induction cols as [|[l x] cols IH]; cbn; [reflexivity|].
  destruct (String.eqb_spec l c) as [->|Hlc]; cbn.
  - destruct (String.eqb_spec c name) as [->|_]; [contradiction|exact IH].
  - now rewrite IH.
Qed.

Lemma set_col_drop (c name : string) (v : Series) (cols : list (string * Series)) :
  name <> c ->
  set_col name v (List.filter (fun p => negb (String.eqb (fst p) c)) cols)
  = List.filter (fun p => negb (String.eqb (fst p) c)) (set_col name v cols).
Proof.
  intros Hne. induction cols as [|[l x] cols IH]; cbn.
  - destruct (String.eqb_spec name c) as [->|_]; [contradiction|reflexivity].
  - destruct (String.eqb_spec l c) as [->|Hlc]; cbn.
    + destruct (String.eqb_spec c name) as [->|_]; [contradiction|].
      cbn. rewrite String.eqb_refl. cbn. exact IH.
    + destruct (String.eqb_spec l name) as [->|_]; cbn.
      * destruct (String.eqb_spec name c) as [->|_]; [contradiction|reflexivity].
      * destruct (String.eqb_spec l c) as [->|_]; [contradiction|]. cbn. now rewrite IH.
Qed.

Lemma yoy_cols_drop (c : string) (df : DataFrame) :
  Text.contains "YoY" c = false -> yoy_cols (drop_column c df) = yoy_cols df.
Proof.
  intros Hc. unfold yoy_cols, labels, drop_column. cbn [columns].
  induction (columns df) as [|[l x] cols IH]; cbn; [reflexivity|].
  destruct (String.eqb_spec l c) as [->|_]; cbn.
  - now rewrite Hc.
  - now rewrite IH.
Qed.

Lemma yoy_cols_In (df : DataFrame) (n : string) :
  In n (yoy_cols df) <-> In n (labels df) /\ Text.contains "YoY" n = true.
Proof. unfold yoy_cols. apply filter_In. Qed.

Lemma rmapM_ext_in {X Y} (f g : X -> result Y) (l : list X) :
  (forall x, In x l -> f x = g x) -> rmapM f l = rmapM g l.
Proof.
  induction l as [|x l IH]; intros H; cbn; [reflexivity|].
  rewrite (H x (or_introl eq_refl)), IH; [reflexivity|].
  intros; apply H; now right.
Qed.

Lemma select_drop (c : string) (df : DataFrame) (ls : list string) :
  ~ In c ls -> select (drop_column c df) ls = select df ls.
Proof.
  intros Hc. unfold select, getitem, drop_column. cbn [columns index].
  erewrite rmapM_ext_in; [reflexivity|].
  intros n Hn. cbn beta. rewrite lookup_col_drop; [reflexivity|].
  intros ->. contradiction.
Qed.

(** Selecting labels of the frame succeeds and keeps their order. *)
Lemma select_labels (df : DataFrame) (ls : list string) :
  (forall n, In n ls -> In n (labels df)) ->
  exists cols, select df ls = Ok (mkDataFrame (index df) cols) /\ map fst cols = ls.
Proof.
  intros H. unfold select.
  assert (Hcols : exists cols,
             rmapM (fun n => rbind (getitem df n) (fun c => Ok (n, c))) ls = Ok cols /\
             map fst cols = ls).
  { induction ls as [|n ls IH]; [now exists []|].
    destruct IH as (cols & Hrun & Hfst); [intros; apply H; now right|].
    destruct (lookup_col n (columns df)) as [x|] eqn:E.
    - exists ((n, x) :: cols). cbn [rmapM]. rewrite Hrun. unfold getitem.
      rewrite E. cbn. now rewrite Hfst.
    - exfalso. apply lookup_col_None in E. apply E, H. now left. }
  destruct Hcols as (cols & -> & Hfst). exists cols. now split.
Qed.

Lemma select_columns (df sub : DataFrame) (ls : list string) :
  select df ls = Ok sub ->
  index sub = index df /\
  forall c, In c (columns sub) -> In c (columns df) /\ In (fst c) ls.
Proof.
  unfold select.
  destruct (rmapM _ ls) as [cols|] eqn:E; [|discriminate]. cbn. intros [= <-].
  split; [reflexivity|]. cbn [columns].
  revert cols E. induction ls as [|n ls IH]; intros cols; cbn.
  - intros [= <-] c [].
  - unfold getitem at 1. destruct (lookup_col n (columns df)) as [x|] eqn:Hn;
      [|discriminate]. cbn.
    destruct (rmapM _ ls) as [cols'|]; [|discriminate]. cbn. intros [= <-].
    intros c [<-|Hc].
    + split; [now apply lookup_col_In|now left].
    + destruct (IH cols' eq_refl c Hc) as [H1 H2]. split; [exact H1|now right].
Qed.

(** The columns named "YoY", selected: they exist, and without text in
    the table's "YoY" columns they hold none. *)
Lemma select_yoy (w : DataFrame) :
  exists cols,
    select w (yoy_cols w) = Ok (mkDataFrame (index w) cols) /\
    map fst cols = yoy_cols w /\
    (yoy_without_text w -> Forall no_text (map snd cols)) /\
    (forall c, In c cols -> In c (columns w) /\ Text.contains "YoY" (fst c) = true).
Proof.
  destruct (select_labels w (yoy_cols w)) as (cols & Hsel & Hfst).
  { intros n Hn. now apply yoy_cols_In in Hn as [Hn _]. }
  destruct (select_columns w _ _ Hsel) as [_ Hcols]. cbn [columns] in Hcols.
  assert (Hin : forall c, In c cols ->
                  In c (columns w) /\ Text.contains "YoY" (fst c) = true).
  { intros c Hc. destruct (Hcols c Hc) as [H1 H2].
    apply yoy_cols_In in H2 as [_ H2]. now split. }
  exists cols. split; [exact Hsel|]. split; [exact Hfst|]. split; [|exact Hin].
  intros Htext. unfold yoy_without_text in Htext.
  rewrite List.Forall_forall in *. intros x Hx.
  apply in_map_iff in Hx as (c & <- & Hc). destruct (Hin c Hc) as [H1 H2].
  exact (Htext c H1 H2).
Qed.

Lemma has_text_false (cols : list (string * Series)) (i : list cell) :
  Forall no_text (map snd cols) -> has_text (mkDataFrame i cols) = false.
Proof.
  unfold has_text. cbn [columns]. intros H.
  apply not_true_is_false. intros E. apply existsb_exists in E as (c & Hc & Hs).
  apply existsb_exists in Hs as (x & Hx & Hstr).
  rewrite List.Forall_forall in H. specialize (H (snd c) (in_map snd _ _ Hc)).
  unfold no_text in H. rewrite List.Forall_forall in H. specialize (H x Hx). congruence.
Qed.

Lemma has_text_true (cols : list (string * Series)) (i : list cell)
      (l : string) (c : Series) (t : string) :
  In (l, c) cols -> In (Str t) c -> has_text (mkDataFrame i cols) = true.
Proof.
  intros Hc Ht. unfold has_text. cbn [columns]. apply existsb_exists.
  exists (l, c). split; [exact Hc|]. apply existsb_exists. now exists (Str t).
Qed.

(** * The average bar chart *)

Lemma plot_avg_bar_chart_run (s : state) (d : loc) (w : DataFrame) :
  heap s !! d = Some w -> len w <> 0%nat ->
  outcome (plot_avg_bar_chart d) s =
  match bar_frame w with
  | Ok avg => (Ok tt, page s ++ [StBarChart avg])
  | Raise e => (Raise e, page s)
  end.
Proof.
  intros Hd Hlen. unfold outcome, plot_avg_bar_chart, bar_frame, copy, bind, deref,
    new, lift, assign, st.
  rewrite Hd. destruct (Nat.eqb_spec (len w) 0) as [E|_]; [contradiction|].
  rewrite Hd. cbn [heap page fst snd]. rewrite lookup_insert_eq.
  destruct (select w (yoy_cols w)) as [sub|e]; [|reflexivity]. cbn [rbind].
  destruct (mean_axis1 sub) as [means|e]; [|reflexivity]. cbn [rbind heap page fst snd].
  rewrite lookup_insert_eq.
  destruct (select (setitem w avg_label means) ["Country Name"; avg_label])
    as [two|e]; [|reflexivity]. cbn [rbind].
  destruct (sort_values_desc two avg_label) as [sorted|e]; [|reflexivity].
  cbn [heap page fst snd]. rewrite lookup_insert_eq. reflexivity.
Qed.

Lemma lookup_col_NoDup (cols : list (string * Series)) (l : string) (c : Series) :
  List.NoDup (map fst cols) -> In (l, c) cols -> lookup_col l cols = Some c.
Proof.
  induction cols as [|[l' c'] cols IH]; cbn; [tauto|].
  intros Hnd [[= -> ->]|Hin].
  - now rewrite String.eqb_refl.
  - apply List.NoDup_cons_iff in Hnd as [Hfresh Hnd].
    destruct (String.eqb_spec l' l) as [->|_].
    + exfalso. apply Hfresh. apply in_map_iff. now exists (l, c).
    + now apply IH.
Qed.

Lemma lookup_col_app (name : string) (cols more : list (string * Series)) :
  lookup_col name (cols ++ more)
  = match lookup_col name cols with
    | Some c => Some c
    | None => lookup_col name more
    end.
Proof.
  induction cols as [|[l c] cols IH]; cbn; [now destruct (lookup_col name more)|].
  now destruct (String.eqb l name).
Qed.

Lemma set_col_new (name : string) (v : Series) (cols : list (string * Series)) :
  lookup_col name cols = None -> set_col name v cols = cols ++ [(name, v)].
Proof.
  induction cols as [|[l c] cols IH]; cbn; [reflexivity|].
  destruct (String.eqb l name); [discriminate|]. intros H. now rewrite IH.
Qed.

Lemma is_id_names (l : string) :
  is_id id_vars l = true -> l = "Country Name" \/ l = "Country Code".
Proof.
  unfold is_id, id_vars. cbn [existsb]. intros H.
  apply orb_prop in H as [H|H]; [left; now apply String.eqb_eq|].
  apply orb_prop in H as [H|H]; [right; now apply String.eqb_eq|discriminate].
Qed.

Lemma yoy_cols_of_columns (cols : list (string * Series)) :
  Forall (fun c => Text.contains "YoY" (fst c) = true)
         (List.filter (fun c => negb (is_id id_vars (fst c))) cols) ->
  List.filter (Text.contains "YoY") (map fst cols)
  = map fst (List.filter (fun c => negb (is_id id_vars (fst c))) cols).
Proof.
  induction cols as [|[l c] cols IH]; cbn [List.filter map fst]; [reflexivity|].
  destruct (is_id id_vars l) eqn:E; cbn [negb].
  - intros H. apply is_id_names in E as [->| ->]; cbn; now apply IH.
  - intros H. apply List.Forall_cons_iff in H as [Hl H]. cbn [fst] in Hl.
    rewrite Hl. cbn [map fst]. now rewrite IH.
Qed.

Lemma length_rows_of (n : nat) (cols : list Series) : length (rows_of n cols) = n.
Proof. revert cols. induction n as [|n IH]; intros cols; cbn; [|rewrite IH]; reflexivity. Qed.

Lemma rows_of_Forall (P : cell -> Prop) (n : nat) :
  forall cols : list Series,
    Forall (fun c => length c = n /\ Forall P c) cols ->
    Forall (fun r => length r = length cols /\ Forall P r) (rows_of n cols).
Proof.
  induction n as [|n IH]; intros cols Hcols; cbn; [constructor|].
  constructor.
  - split; [apply length_map|].
    induction Hcols as [|c cols [Hlen Hc] _ IHc]; cbn; [constructor|].
    constructor; [|exact IHc]. destruct c; [discriminate|]. now inversion Hc.
  - rewrite <- (length_map (@List.tl cell) cols). apply IH.
    induction Hcols as [|c cols [Hlen Hc] _ IHc]; cbn; [constructor|].
    constructor; [|exact IHc]. destruct c; [discriminate|]. cbn in *.
    split; [lia|now inversion Hc].
Qed.

Lemma rows_of_no_text (n : nat) :
  forall cols : list Series, Forall no_text cols -> Forall no_text (rows_of n cols).
Proof.
  induction n as [|n IH]; intros cols Hcols; cbn; [constructor|].
  constructor.
  - unfold no_text. rewrite List.Forall_forall. intros x Hx.
    apply in_map_iff in Hx as (c & <- & Hc).
    rewrite List.Forall_forall in Hcols. specialize (Hcols c Hc).
    destruct c as [|y c]; [reflexivity|]. cbn. now inversion Hcols.
  - apply IH. rewrite List.Forall_forall in *. intros t Ht.
    apply in_map_iff in Ht as (c & <- & Hc). specialize (Hcols c Hc).
    destruct c as [|y c]; [constructor|]. cbn. now inversion Hcols.
Qed.

Lemma no_text_existsb (r : list cell) : no_text r -> existsb is_str r = false.
Proof.
  induction 1 as [|c r Hc _ IH]; [reflexivity|]. cbn. now rewrite Hc, IH.
Qed.

Lemma numbers_all (r : list cell) :
  Forall is_number r -> existsb is_str r = false /\ length (numbers r) = length r.
Proof.
  induction 1 as [|c r [q Hq] _ [IH1 IH2]]; [now split|].
  unfold numbers in *. cbn. rewrite Hq. cbn. rewrite IH2.
  split; [|reflexivity]. destruct c; try discriminate; exact IH1.
Qed.

Lemma combine_map_same {X Y Z} (f : X -> Y) (g : X -> Z) (l : list X) :
  combine (map f l) (map g l) = map (fun x => (f x, g x)) l.
Proof. induction l as [|x l IH]; cbn; [reflexivity|now rewrite IH]. Qed.

Lemma rmapM_Forall2 {X Y} (f : X -> result Y) (P : X -> Y -> Prop) (l : list X) :
  (forall x, In x l -> exists y, f x = Ok y /\ P x y) ->
  exists ys, rmapM f l = Ok ys /\ Forall2 P l ys.
Proof.
  induction l as [|x l IH]; intros H.
  - exists []. split; [reflexivity|constructor].
  - destruct (H x (or_introl eq_refl)) as (y & Hy & HP).
    destruct IH as (ys & Hys & HPs); [intros; apply H; now right|].
    exists (y :: ys). cbn. rewrite Hy. cbn. rewrite Hys. cbn.
    split; [reflexivity|now constructor].
Qed.

Lemma mean_cells_not_text (rows : list (list cell)) (means : Series) :
  Forall2 mean_of_row rows means ->
  Forall mean_cell means /\ existsb is_str means = false.
Proof.
  induction 1 as [|r m rows means [Hm _] _ [IH1 IH2]]; [now split|].
  split; [now constructor|]. cbn. rewrite IH2.
  destruct m; try contradiction; reflexivity.
Qed.

(** Lines 170-176 on a table whose "YoY" columns hold no text. *)
Lemma bar_frame_general (w : DataFrame) (names : Series) :
  lookup_col "Country Name" (columns w) = Some names ->
  lookup_col avg_label (columns w) = None ->
  yoy_without_text w ->
  exists sub means,
    select w (yoy_cols w) = Ok sub /\
    mean_axis1 sub = Ok means /\
    Forall2 mean_of_row (rows sub) means /\
    length means = len w /\
    bar_frame w
    = Ok (iloc_take (mkDataFrame (index w)
                       [("Country Name", names); (avg_label, means)])
                    (argsort_desc means)).
Proof.
  intros Hnames Havg Htext.
  destruct (select_yoy w) as (cols & Hsel & _ & Hcols & _).
  specialize (Hcols Htext).
  set (sub := mkDataFrame (index w) cols) in *.
  assert (Hrows : Forall no_text (rows sub))
    by (unfold rows; now apply rows_of_no_text).
  destruct (rmapM_Forall2 (mean_cells ((len sub =? 1)%nat || has_nan sub))
              mean_of_row (rows sub))
    as (means & Hmeans & Hspec).
  { intros r Hr. rewrite List.Forall_forall in Hrows.
    apply mean_cells_total, no_text_existsb, Hrows, Hr. }
  exists sub, means.
  split; [exact Hsel|]. split; [exact Hmeans|]. split; [exact Hspec|].
  assert (Hl : length means = len w).
  { rewrite <- (Forall2_length _ _ _ Hspec). unfold rows. now rewrite length_rows_of. }
  split; [exact Hl|].
  unfold bar_frame. rewrite Hsel. cbn [rbind]. unfold mean_axis1. rewrite Hmeans.
  cbn [rbind]. unfold setitem. rewrite (set_col_new _ _ _ Havg).
  unfold select, getitem. cbn [rmapM columns index rbind].
  rewrite !lookup_col_app, Hnames, Havg. cbn [lookup_col rbind].
  rewrite String.eqb_refl. cbn [rbind].
  unfold sort_values_desc, getitem. cbn [columns lookup_col].
  replace (String.eqb "Country Name" avg_label) with false by reflexivity.
  rewrite String.eqb_refl. cbn [rbind].
  now rewrite (proj2 (mean_cells_not_text _ _ Hspec)).
Qed.

(** The bar chart of a table with rows, a [Country Name] column, no column
    yet called [Average YoY Change (%)] and no text in its "YoY" columns. *)
Lemma bar_chart_general (s : state) (d : loc) (w : DataFrame) (names : Series) :
  heap s !! d = Some w ->
  len w <> 0%nat ->
  wf w ->
  lookup_col "Country Name" (columns w) = Some names ->
  lookup_col avg_label (columns w) = None ->
  yoy_without_text w ->
  exists sub means avg ns ms,
    select w (yoy_cols w) = Ok sub /\
    mean_axis1 sub = Ok means /\
    outcome (plot_avg_bar_chart d) s = (Ok tt, page s ++ [StBarChart avg]) /\
    columns avg = [("Country Name", ns); (avg_label, ms)] /\
    len avg = len w /\ length ns = len w /\ length ms = len w /\
    Permutation (combine ns ms) (combine names means) /\
    Forall2 mean_of_row (rows sub) means /\
    exists nums k, ms = nums ++ repeat NaN k /\ StronglySorted cell_ge nums.
Proof.
  intros Hd Hlen Hwf Hnames Havg Htext.
  destruct (bar_frame_general w names Hnames Havg Htext)
    as (sub & means & Hsel & Hmeans & Hspec & Hl & Hframe).
  assert (Hln : length names = len w).
  { unfold wf in Hwf. rewrite List.Forall_forall in Hwf.
    exact (Hwf _ (lookup_col_In _ _ _ Hnames)). }
  pose proof (argsort_desc_perm means) as Hperm.
  exists sub, means. eexists _, _, _.
  split; [exact Hsel|]. split; [exact Hmeans|].
  rewrite (plot_avg_bar_chart_run s d w Hd Hlen), Hframe.
  split; [reflexivity|]. unfold iloc_take. cbn [columns index map fst snd len].
  split; [reflexivity|].
  assert (Hp : length (argsort_desc means) = len w)
    by (rewrite (Permutation_length Hperm), length_seq; exact Hl).
  split; [unfold len; cbn [index]; now rewrite length_map|].
  split; [now rewrite length_map|].
  split; [now rewrite length_map|]. split; [|split; [exact Hspec|]].
  - rewrite combine_map_same, (Permutation_map _ Hperm).
    rewrite <- (seq_nth_combine NaN NaN names means) by congruence.
    replace (length names) with (length means) by congruence. reflexivity.
  - exact (sorted_means means (proj1 (mean_cells_not_text _ _ Hspec))).
Qed.

Section BarChart.
Variable w : DataFrame.
Hypothesis Hwide : WideTable w.
Hypothesis Hyoy : Forall (fun c => Text.contains "YoY" (fst c) = true) (year_columns w).
Hypothesis Hnum : Forall (fun c => Forall is_number (snd c)) (year_columns w).

Lemma select_years :
  select w (yoy_cols w) = Ok (mkDataFrame (index w) (year_columns w)).
Proof.
  unfold select, yoy_cols, labels. rewrite (yoy_cols_of_columns _ Hyoy).
  fold (year_columns w). rewrite rmapM_map.
  rewrite (rmapM_ok _ (fun c => c)).
  - cbn. now rewrite map_id.
  - intros [l c] Hin. cbn [fst]. unfold getitem.
    rewrite (lookup_col_NoDup (columns w) l c); [reflexivity|exact (wide_labels w Hwide)|].
    unfold year_columns in Hin. now apply filter_In in Hin.
Qed.

Lemma year_rows_numbers :
  Forall (fun r => length r = length (year_columns w) /\ Forall is_number r) (year_rows w).
Proof.
  unfold year_rows. rewrite <- (length_map snd (year_columns w)).
  apply rows_of_Forall.
  pose proof (wide_length_years w Hwide) as Hlen.
  rewrite List.Forall_forall in *. intros c Hc.
  apply in_map_iff in Hc as (p & <- & Hp). split; [now apply Hlen|now apply Hnum].
Qed.

Lemma avg_label_free : lookup_col avg_label (columns w) = None.
Proof.
  destruct (lookup_col avg_label (columns w)) as [c|] eqn:E; [|reflexivity].
  exfalso. apply lookup_col_In in E.
  pose proof (wide_years w Hwide) as Hy. rewrite List.Forall_forall in Hy.
  assert (Hyc : In (avg_label, c) (year_columns w)).
  { unfold year_columns. apply filter_In. split; [exact E|reflexivity]. }
  destruct (Hy _ Hyc) as [y Hsome']. cbn in Hsome'. discriminate.
Qed.

Lemma years_without_text : yoy_without_text w.
Proof.
  unfold yoy_without_text. rewrite List.Forall_forall in *. intros [l c] Hc Hl.
  cbn [fst snd] in *.
  destruct (is_id id_vars l) eqn:E.
  - apply is_id_names in E as [->| ->]; discriminate.
  - assert (Hyc : In (l, c) (year_columns w)).
    { unfold year_columns. apply filter_In. split; [exact Hc|]. cbn [fst]. now rewrite E. }
    specialize (Hnum _ Hyc). cbn [snd] in Hnum.
    unfold no_text. rewrite List.Forall_forall in *. intros x Hx.
    destruct (Hnum x Hx) as [q Hq]. now destruct x.
Qed.

End BarChart.

(** C4, as the code computes it.  For a wide table with at least one row
    and one year column, whose year columns are named with "YoY" and hold
    numbers (the data model), the bar chart function draws one chart whose
    frame has the columns [Country Name] and [Average YoY Change (%)]: its
    (country, value) rows are a rearrangement of the countries paired with
    the means of their rows over the year columns, one value per year
    column.  A mean is computed in binary64: it is a float within
    [tolerance] of the arithmetic mean of the row (the rounding errors of
    the additions and the division), and it is such a float whenever the
    row is in range; beyond the range it is an infinity or NaN.  The
    values are in non-increasing order, NaN last. *)
Theorem C4_average_bar_chart (s : state) (d : loc) (w : DataFrame) (names : Series) :
  heap s !! d = Some w ->
  WideTable w ->
  lookup_col "Country Name" (columns w) = Some names ->
  len w <> 0%nat ->
  year_columns w <> [] ->
  Forall (fun c => Text.contains "YoY" (fst c) = true) (year_columns w) ->
  Forall (fun c => Forall is_number (snd c)) (year_columns w) ->
  exists avg ns ms means,
    outcome (plot_avg_bar_chart d) s = (Ok tt, page s ++ [StBarChart avg]) /\
    columns avg = [("Country Name", ns); (avg_label, ms)] /\
    Permutation (combine ns ms) (combine names means) /\
    Forall2 mean_of_row (year_rows w) means /\
    Forall (fun r => length (numbers r) = length (year_columns w) /\
                     Forall is_number r) (year_rows w) /\
    length (year_rows w) = len w /\
    exists nums k, ms = nums ++ repeat NaN k /\ StronglySorted cell_ge nums.
Proof.
  intros Hd Hwide Hnames Hlen Hsome Hyoy Hnum.
  assert (Havg : lookup_col avg_label (columns w) = None)
    by (apply avg_label_free; assumption).
  assert (Htext : yoy_without_text w) by (apply years_without_text; assumption).
  destruct (bar_chart_general s d w names Hd Hlen (wide_wf w Hwide) Hnames Havg Htext)
    as (sub & means & avg & ns & ms & Hsel & _ & Hrun & Hcols & _ & _ & _
        & Hperm & Hspec & Hsorted).
  assert (Hyears : select w (yoy_cols w) = Ok (mkDataFrame (index w) (year_columns w)))
    by (apply select_years; assumption).
  rewrite Hyears in Hsel. injection Hsel as <-.
  exists avg, ns, ms, means.
  split; [exact Hrun|]. split; [exact Hcols|]. split; [exact Hperm|].
  split; [exact Hspec|]. split; [|split; [apply length_rows_of|exact Hsorted]].
  assert (Hrows : Forall (fun r => length r = length (year_columns w) /\
                                      Forall is_number r) (year_rows w))
    by (apply year_rows_numbers; assumption).
  rewrite List.Forall_forall in *. intros r Hr.
  destruct (Hrows r Hr) as [Hl Hn].
  destruct (numbers_all r Hn) as [_ Hl']. split; [congruence|exact Hn].
Qed.

Lemma sample_years_named :
  Forall (fun c => Text.contains "YoY" (fst c) = true) (year_columns sample_data).
Proof. cbn. repeat constructor. Qed.

Lemma sample_years_numbers :
  Forall (fun c => Forall is_number (snd c)) (year_columns sample_data).
Proof.
  apply Forall_forall. intros c Hc. apply Forall_forall. intros x Hx.
  assert (H : forallb (fun c => forallb (fun x => match num_of x with
                                                  | Some _ => true
                                                  | None => false
                                                  end) (snd c))
                      (year_columns sample_data) = true) by (vm_compute; reflexivity).
  rewrite forallb_forall in H. apply list_elem_of_In in Hc, Hx.
  specialize (H c Hc). rewrite forallb_forall in H. specialize (H x Hx).
  unfold is_number. destruct (num_of x); [now eexists|discriminate].
Qed.

Lemma C4_average_bar_chart_witness :
  exists avg means,
    outcome (plot_avg_bar_chart 0%nat) (mkState {[ 0%nat := sample_data ]} [])
      = (Ok tt, [StBarChart avg]) /\
    columns avg
    = [("Country Name",
        [Str "Myanmar"; Str "Indonesia"; Str "Cambodia"; Str "Philippines";
         Str "Viet Nam"]);
       (avg_label,
        [of_float (round (14330000000000002 # 1000000000000000));
         of_float (round (433 # 100));
         of_float (round (319 # 100));
         of_float (round (19100000000000001 # 10000000000000000));
         of_float (round (15400000000000003 # 10000000000000000))])] /\
    Forall2 mean_of_row (year_rows sample_data) means /\
    Forall (fun r => length (numbers r) = 10%nat /\ Forall is_number r)
           (year_rows sample_data).
Proof.
  destruct (C4_average_bar_chart (mkState {[ 0%nat := sample_data ]} []) 0%nat
              sample_data
              [Str "Indonesia"; Str "Philippines"; Str "Viet Nam";
               Str "Myanmar"; Str "Cambodia"]
              sample_stored sample_wide eq_refl
              ltac:(discriminate) ltac:(discriminate)
              sample_years_named sample_years_numbers)
    as (avg & ns & ms & means & Hrun & _ & _ & Hmeans & Hrows & _).
  exists avg, means. split; [exact Hrun|]. split; [|split; [exact Hmeans|exact Hrows]].
  vm_compute in Hrun. injection Hrun as <-. vm_compute. reflexivity.
Defined.

Lemma cancelling_wide : WideTable cancelling_table.
Proof.
  split.
  - unfold wf. cbn. repeat constructor.
  - cbn. repeat (apply List.NoDup_cons; [cbn; intuition congruence|]).
    apply List.NoDup_nil.
  - eexists. reflexivity.
  - eexists. reflexivity.
  - cbn. repeat (apply List.Forall_cons; [eexists; reflexivity|]).
    apply List.Forall_nil.
Qed.

(** C4 as worded fails on a wide table.  The row of A has the arithmetic
    mean 1/3 and the row of B a smaller one, but the chart shows 0 for A,
    and B, with a positive value, before A. *)
Lemma C4_counterexample :
  WideTable cancelling_table /\
  year_rows cancelling_table
  = [[Float 10000000000000000; Float 1; Float (-10000000000000000)];
     [fl 1; fl 1; fl 1]] /\
  (arithmetic_mean
     (numbers [Float 10000000000000000; Float 1; Float (-10000000000000000)])
   == 1 # 3)%Q /\
  (arithmetic_mean (numbers [fl 1; fl 1; fl 1]) < 1 # 3)%Q /\
  exists avg vB,
    outcome (plot_avg_bar_chart 0%nat) (single cancelling_table)
      = (Ok tt, [StBarChart avg]) /\
    columns avg = [("Country Name", [Str "B"; Str "A"]);
                   (avg_label, [Float vB; Float 0])] /\
    (0 < vB)%Q /\
    ~ (0 == 1 # 3)%Q.
Proof.
  split; [exact cancelling_wide|]. split; [reflexivity|].
  split; [vm_compute; reflexivity|]. split; [vm_compute; reflexivity|].
  eexists _, _. split; [vm_compute; reflexivity|].
  split; [reflexivity|]. split; [reflexivity|discriminate].
Qed.

(** The rows 0.15, 0.15 and 0.1, 0.2: the sum 0.1 + 0.2 is rounded up, so
    B is charted before A, with 0.15000000000000002 against 0.15. *)
Lemma bar_chart_rounded_order :
  exists avg,
    outcome (plot_avg_bar_chart 0%nat) (single level_table)
      = (Ok tt, [StBarChart avg]) /\
    columns avg
    = [("Country Name", [Str "B"; Str "A"]);
       (avg_label, [of_float (round (15000000000000002 # 100000000000000000));
                    of_float (round (15 # 100))])].
Proof. eexists. split; vm_compute; reflexivity. Qed.

(** A sum beyond the range is an infinity, and so is the mean, whichever
    way the row is laid out. *)
Lemma mean_overflow (contiguous : bool) :
  mean_cells contiguous [huge; huge] = Ok (Inf false).
Proof. destruct contiguous; vm_compute; reflexivity. Qed.

(** * Which columns each view reads *)

Lemma bar_frame_drop (c : string) (w : DataFrame) :
  Text.contains "YoY" c = false -> c <> "Country Name" ->
  bar_frame (drop_column c w) = bar_frame w.
Proof.
  intros Hc Hname.
  assert (Hyoy : ~ In c (yoy_cols w)).
  { intros Hin. apply yoy_cols_In in Hin as [_ Hin]. congruence. }
  assert (Havg : avg_label <> c) by (intros <-; discriminate).
  unfold bar_frame. rewrite yoy_cols_drop, select_drop by assumption.
  destruct (select w (yoy_cols w)) as [sub|e]; [|reflexivity]. cbn [rbind].
  destruct (mean_axis1 sub) as [means|e]; [|reflexivity]. cbn [rbind].
  replace (setitem (drop_column c w) avg_label means)
    with (drop_column c (setitem w avg_label means)).
  - rewrite select_drop; [reflexivity|].
    cbn. intros [H|[H|[]]]; congruence.
  - unfold setitem, drop_column. cbn [index columns]. now rewrite set_col_drop.
Qed.

Lemma select_In (df sub : DataFrame) (ls : list string) (l : string) (c : Series) :
  select df ls = Ok sub -> In l ls -> lookup_col l (columns df) = Some c ->
  In (l, c) (columns sub).
Proof.
  unfold select.
  destruct (rmapM _ ls) as [cols|] eqn:E; [|discriminate]. cbn. intros [= <-].
  cbn [columns]. revert cols E. induction ls as [|n ls IH]; intros cols; cbn; [tauto|].
  unfold getitem at 1. destruct (lookup_col n (columns df)) as [x|] eqn:Hn;
    [|discriminate]. cbn.
  destruct (rmapM _ ls) as [cols'|]; [|discriminate]. cbn. intros [= <-].
  intros [->|Hin] Hc.
  - left. congruence.
  - right. now apply (IH cols' eq_refl).
Qed.

Lemma filter_labels (p : string -> bool) (cols : list (string * Series)) :
  List.filter p (map fst cols) = map fst (List.filter (fun c => p (fst c)) cols).
Proof.
  induction cols as [|[l c] cols IH]; cbn; [reflexivity|].
  destruct (p l); cbn; now rewrite IH.
Qed.

(** With labels all different, selecting the labels that satisfy [p]
    gives those columns, as they are. *)
Lemma select_by_label (df : DataFrame) (p : string -> bool) :
  List.NoDup (labels df) ->
  select df (List.filter p (labels df))
  = Ok (mkDataFrame (index df) (List.filter (fun c => p (fst c)) (columns df))).
Proof.
  intros Hnd. unfold select, labels. rewrite filter_labels, rmapM_map.
  rewrite (rmapM_ok _ (fun c => c)).
  - cbn. now rewrite map_id.
  - intros [l c] Hin. cbn [fst]. unfold getitem.
    rewrite (lookup_col_NoDup (columns df) l c); [reflexivity|exact Hnd|].
    now apply filter_In in Hin.
Qed.

Lemma NoDup_labels_drop (c : string) (cols : list (string * Series)) :
  List.NoDup (map fst cols) ->
  List.NoDup (map fst (List.filter (fun p => negb (String.eqb (fst p) c)) cols)).
Proof.
  induction cols as [|[l x] cols IH]; cbn; [constructor|].
  intros Hnd. apply List.NoDup_cons_iff in Hnd as [Hfresh Hnd].
  destruct (String.eqb l c); cbn; [now apply IH|].
  constructor; [|now apply IH].
  intros Hin. apply Hfresh. apply in_map_iff in Hin as (q & Hq & Hin).
  apply filter_In in Hin as [Hin _]. apply in_map_iff. now exists q.
Qed.

Lemma filter_yoy_drop_name (cols : list (string * Series)) :
  List.filter (fun c => Text.contains "YoY" (fst c))
    (List.filter (fun p => negb (String.eqb (fst p) "Country Name")) cols)
  = List.filter (fun c => Text.contains "YoY" (fst c)) cols.
Proof.
  induction cols as [|[l x] cols IH]; cbn [List.filter fst]; [reflexivity|].
  destruct (String.eqb_spec l "Country Name") as [->|_]; cbn [negb List.filter fst].
  - exact IH.
  - now rewrite IH.
Qed.

(** The table view's renderer: it accepts a table without text in its
    "YoY" columns, and raises ValueError on text in one of them. *)
Lemma render_style_cases (w : DataFrame) :
  (yoy_without_text w -> render_style w (yoy_cols w) (yoy_cols w) = Ok tt) /\
  (forall l c t,
     lookup_col l (columns w) = Some c -> Text.contains "YoY" l = true ->
     In (Str t) c -> render_style w (yoy_cols w) (yoy_cols w) = Raise ValueError) /\
  (render_style w (yoy_cols w) (yoy_cols w) = Ok tt \/
   render_style w (yoy_cols w) (yoy_cols w) = Raise ValueError).
Proof.
  unfold render_style.
  destruct (select_labels w (yoy_cols w ++ yoy_cols w)) as (cols & Hsel & Hfst).
  { intros n Hn. apply in_app_or in Hn.
    assert (Hn' : In n (yoy_cols w)) by tauto. now apply yoy_cols_In in Hn' as [Hn' _]. }
  destruct (select_columns w _ _ Hsel) as [_ Hcols]. cbn [columns] in Hcols.
  rewrite Hsel. cbn [rbind]. split; [|split].
  - intros Htext. rewrite has_text_false; [reflexivity|].
    unfold yoy_without_text in Htext. rewrite List.Forall_forall in *.
    intros x Hx. apply in_map_iff in Hx as (c & <- & Hc).
    destruct (Hcols c Hc) as [H1 H2]. apply Htext; [exact H1|].
    apply in_app_or in H2. assert (H2' : In (fst c) (yoy_cols w)) by tauto.
    now apply yoy_cols_In in H2' as [_ H2'].
  - intros l c t Hl Hyoy Ht.
    rewrite (has_text_true cols (index w) l c t); [reflexivity| |exact Ht].
    apply (select_In w _ _ l c Hsel); [|exact Hl].
    apply in_or_app. left. apply yoy_cols_In. split; [|exact Hyoy].
    unfold labels. apply in_map_iff. exists (l, c).
    split; [reflexivity|now apply lookup_col_In].
  - destruct (has_text _); [now right|now left].
Qed.

Lemma table_view_run (s : state) (d : loc) (w : DataFrame) :
  heap s !! d = Some w ->
  outcome (table_view d) s =
  match render_style w (yoy_cols w) (yoy_cols w) with
  | Ok _ => (Ok tt, page s ++ [StDataframe w (yoy_cols w) (yoy_cols w)])
  | Raise e => (Raise e, page s)
  end.
Proof.
  intros Hd. unfold outcome, table_view, bind, deref, lift, st. rewrite Hd.
  now destruct (render_style _ _ _) as [[]|e].
Qed.

(** The frame the heatmap is drawn from: the country names as row labels
    and the columns named "YoY". *)
Lemma heatmap_run (s : state) (d : loc) (w : DataFrame) (names : Series) :
  heap s !! d = Some w ->
  lookup_col "Country Name" (columns w) = Some names ->
  len w <> 0%nat ->
  exists cols,
    map fst cols = yoy_cols w /\
    (forall c, In c cols -> In c (columns w) /\ Text.contains "YoY" (fst c) = true) /\
    (forall l c, lookup_col l (columns w) = Some c -> Text.contains "YoY" l = true ->
                 In (l, c) cols) /\
    (List.NoDup (labels w) ->
     cols = List.filter (fun c => Text.contains "YoY" (fst c)) (columns w)) /\
    outcome (plot_yoy_heatmap d) s =
    match sns_heatmap (mkDataFrame names cols) with
    | Ok _ => (Ok tt,
               page s ++ [StHeatmap (mkDataFrame names cols)
                            (mul (of_Z (Z.of_nat (length names))) (round (8 # 10)))])
    | Raise e => (Raise e, page s)
    end.
Proof.
  intros Hd Hnames Hlen.
  set (h0 := mkDataFrame names (columns (drop_column "Country Name" w))).
  assert (Hy : yoy_cols h0 = yoy_cols w)
    by exact (yoy_cols_drop "Country Name" w eq_refl).
  destruct (select_labels h0 (yoy_cols h0)) as (cols & Hsel & Hfst).
  { intros n Hn. now apply yoy_cols_In in Hn as [Hn _]. }
  destruct (select_columns h0 _ _ Hsel) as [_ Hcols]. cbn [columns] in Hcols.
  exists cols. split; [congruence|]. split; [|split; [|split]].
  - intros c Hc. destruct (Hcols c Hc) as [H1 H2].
    apply yoy_cols_In in H2 as [_ H2]. split; [|exact H2].
    subst h0. cbn [columns drop_column] in H1. now apply filter_In in H1.
  - intros l c Hl Hyoy.
    apply (select_In h0 _ _ l c Hsel).
    + rewrite Hy. apply yoy_cols_In. split; [|exact Hyoy].
      unfold labels. apply in_map_iff. exists (l, c).
      split; [reflexivity|now apply lookup_col_In].
    + subst h0. cbn [columns drop_column]. rewrite lookup_col_drop; [exact Hl|].
      intros ->. discriminate.
  - intros Hnd.
    assert (Hsel' : select h0 (yoy_cols h0)
                    = Ok (mkDataFrame names
                            (List.filter (fun c => Text.contains "YoY" (fst c))
                                         (columns h0)))).
    { unfold yoy_cols. apply (select_by_label h0 (Text.contains "YoY")).
      subst h0. unfold labels. cbn [columns drop_column]. now apply NoDup_labels_drop. }
    rewrite Hsel in Hsel'. injection Hsel' as ->.
    subst h0. cbn [columns drop_column]. apply filter_yoy_drop_name.
  - unfold outcome, plot_yoy_heatmap, bind, deref, lift, new, st, set_index, getitem.
    rewrite Hd. destruct (Nat.eqb_spec (len w) 0) as [E|_]; [contradiction|].
    rewrite Hnames. cbn [rbind heap page fst snd]. rewrite lookup_insert_eq.
    change (mkDataFrame names
              (List.filter (fun p => negb (String.eqb (fst p) "Country Name")) (columns w)))
      with h0.
    rewrite Hsel. cbn [heap page fst snd]. rewrite lookup_insert_eq.
    cbn [index len]. now destruct (sns_heatmap _) as [[]|e].
Qed.

(** When [sns.heatmap] accepts a frame and when it does not. *)
Lemma sns_heatmap_cases (names : Series) (cols : list (string * Series)) :
  (names <> [] -> cols <> [] -> Forall no_text (map snd cols) ->
   sns_heatmap (mkDataFrame names cols) = Ok tt) /\
  (cols = [] -> sns_heatmap (mkDataFrame names cols) = Raise ValueError) /\
  (forall l c t, In (l, c) cols -> In (Str t) c ->
                 sns_heatmap (mkDataFrame names cols) = Raise ValueError) /\
  (sns_heatmap (mkDataFrame names cols) = Ok tt \/
   sns_heatmap (mkDataFrame names cols) = Raise ValueError).
Proof.
  unfold sns_heatmap. cbn [columns index]. split; [|split; [|split]].
  - intros Hn Hc Ht. destruct cols; [contradiction|]. destruct names; [contradiction|].
    now rewrite has_text_false.
  - now intros ->.
  - intros l c t Hc Ht. destruct cols; [contradiction|]. destruct names; [reflexivity|].
    now rewrite (has_text_true _ _ l c t).
  - destruct cols; [now right|]. destruct names; [now right|].
    destruct (has_text _); [now right|now left].
Qed.

Lemma line_chart_run (s : state) (d : loc) (df : DataFrame) :
  heap s !! d = Some df -> len df <> 0%nat ->
  outcome (plot_yoy_line_chart d) s = (Ok tt, page s ++ [StLineChart df]).
Proof.
  intros Hd Hlen. unfold outcome, plot_yoy_line_chart, bind, deref, st.
  rewrite Hd. destruct (Nat.eqb_spec (len df) 0) as [E|_]; [contradiction|reflexivity].
Qed.

(** [process_data] on a wide table: it returns, and the long table is
    [long_table]. *)
Lemma process_data_wide (s : state) (d : loc) (df : DataFrame) (names codes : Series) :
  heap s !! d = Some df ->
  WideTable df ->
  lookup_col "Country Name" (columns df) = Some names ->
  lookup_col "Country Code" (columns df) = Some codes ->
  exists lw ll s',
    process_data (Some d) s = (Ok (Some lw, Some ll), s') /\
    heap s' !! ll = Some (long_table (len df) names codes (year_columns df)) /\
    page s' = page s.
Proof.
  intros Hd Hwide Hnames Hcodes.
  pose proof (parse_years_wide df Hwide names codes Hnames Hcodes) as Hlong.
  rewrite (process_data_run s d df Hd). cbv zeta.
  destruct (melt df id_vars "Year" "YoY Change (%)") as [melted|e]; [|discriminate].
  cbn [rbind] in Hlong. rewrite Hlong.
  eexists _, _, _. split; [reflexivity|]. cbn [heap page].
  split; [apply lookup_insert_eq|reflexivity].
Qed.

(** The heatmap of a table with rows and a [Country Name] column: drawn
    from the "YoY" columns when there is one and none holds text;
    otherwise [sns.heatmap] raises ValueError and nothing is drawn. *)
Lemma heatmap_outcomes (s : state) (d : loc) (w : DataFrame) (names : Series) :
  heap s !! d = Some w ->
  lookup_col "Country Name" (columns w) = Some names ->
  len w <> 0%nat ->
  ((exists h height,
      outcome (plot_yoy_heatmap d) s = (Ok tt, page s ++ [StHeatmap h height]) /\
      labels h = yoy_cols w) \/
   outcome (plot_yoy_heatmap d) s = (Raise ValueError, page s)) /\
  (wf w -> yoy_cols w <> [] -> yoy_without_text w ->
   exists h height,
     outcome (plot_yoy_heatmap d) s = (Ok tt, page s ++ [StHeatmap h height]) /\
     labels h = yoy_cols w) /\
  (yoy_cols w = [] -> outcome (plot_yoy_heatmap d) s = (Raise ValueError, page s)) /\
  (forall l c t,
     lookup_col l (columns w) = Some c -> Text.contains "YoY" l = true ->
     In (Str t) c -> outcome (plot_yoy_heatmap d) s = (Raise ValueError, page s)).
Proof.
  intros Hd Hnames Hlen.
  destruct (heatmap_run s d w names Hd Hnames Hlen)
    as (cols & Hfst & Hcols & Hin & _ & Hrun).
  destruct (sns_heatmap_cases names cols) as (Hok & Hnone & Htext & Hany).
  split; [|split; [|split]].
  - destruct Hany as [E|E]; rewrite E in Hrun; [left|now right].
    eexists _, _. split; [exact Hrun|exact Hfst].
  - intros Hwf Hyoy Hnotext. rewrite Hok in Hrun.
    + eexists _, _. split; [exact Hrun|exact Hfst].
    + unfold wf in Hwf. rewrite List.Forall_forall in Hwf.
      pose proof (Hwf _ (lookup_col_In _ _ _ Hnames)) as Hl. cbn [snd] in Hl.
      intros ->. cbn in Hl. congruence.
    + intros ->. cbn in Hfst. congruence.
    + unfold yoy_without_text in Hnotext. rewrite List.Forall_forall in *.
      intros x Hx. apply in_map_iff in Hx as (c & <- & Hc).
      destruct (Hcols c Hc) as [H1 H2]. now apply Hnotext.
  - intros Hyoy. rewrite Hnone in Hrun; [exact Hrun|].
    rewrite Hyoy in Hfst. now destruct cols.
  - intros l c t Hl Hyoy Ht. now rewrite (Htext l c t (Hin l c Hl Hyoy) Ht) in Hrun.
Qed.

(** C9.  For a table with rows, labels all different and a [Country Name]
    column, and a column
    [c] of it that is not an id column and whose label lacks "YoY": the
    columns formatted and coloured by the table view, the heatmap's columns
    and the columns the bar chart averages are the labels containing "YoY",
    so [c] is none of them, and the bar chart is the same with [c] removed
    from the table.  The table view and the heatmap show exactly these
    columns whenever they show anything: the table view when no "YoY"
    column holds text, the heatmap when moreover there is a "YoY" column;
    otherwise the renderer raises and nothing is shown.  When the table is
    a wide table, so that [process_data] returns, the long table is not
    empty, the line chart draws it, and it holds every value of [c] with
    its country and the year of [c]. *)
Theorem C9_yoy_columns (s : state) (d : loc) (w : DataFrame)
        (names col : Series) (c : string) :
  heap s !! d = Some w ->
  wf w ->
  List.NoDup (labels w) ->
  lookup_col "Country Name" (columns w) = Some names ->
  len w <> 0%nat ->
  In (c, col) (columns w) ->
  is_id id_vars c = false ->
  Text.contains "YoY" c = false ->
  let yoy := List.filter (Text.contains "YoY") (labels w) in
  ~ In c yoy /\
  In (c, col) (year_columns w) /\
  (outcome (table_view d) s = (Ok tt, page s ++ [StDataframe w yoy yoy]) \/
   outcome (table_view d) s = (Raise ValueError, page s)) /\
  (yoy_without_text w ->
   outcome (table_view d) s = (Ok tt, page s ++ [StDataframe w yoy yoy])) /\
  ((exists h height,
      outcome (plot_yoy_heatmap d) s = (Ok tt, page s ++ [StHeatmap h height]) /\
      labels h = yoy) \/
   exists e, outcome (plot_yoy_heatmap d) s = (Raise e, page s)) /\
  (yoy <> [] -> yoy_without_text w ->
   exists h height,
     outcome (plot_yoy_heatmap d) s = (Ok tt, page s ++ [StHeatmap h height]) /\
     labels h = yoy) /\
  (exists sub, select w yoy = Ok sub /\ labels sub = yoy /\
     outcome (plot_avg_bar_chart d) s =
     match rbind (mean_axis1 sub)
             (fun means =>
                rbind (select (setitem w avg_label means) ["Country Name"; avg_label])
                      (fun two => sort_values_desc two avg_label)) with
     | Ok avg => (Ok tt, page s ++ [StBarChart avg])
     | Raise e => (Raise e, page s)
     end) /\
  (forall s2, heap s2 !! d = Some (drop_column c w) -> page s2 = page s ->
     outcome (plot_avg_bar_chart d) s2 = outcome (plot_avg_bar_chart d) s) /\
  (WideTable w ->
   exists lw ll s' long y,
     process_data (Some d) s = (Ok (Some lw, Some ll), s') /\
     heap s' !! ll = Some long /\
     Text.year_of_label c = Some y /\
     (forall i n v, names !! i = Some n -> col !! i = Some v ->
                    In (n, Int y, v) (long_triples long)) /\
     outcome (plot_yoy_line_chart ll) s' = (Ok tt, page s ++ [StLineChart long])).
Proof.
  intros Hd Hwf _ Hnames Hlen Hin Hid Hc yoy.
  assert (Hyc : In (c, col) (year_columns w)).
  { unfold year_columns. apply filter_In. split; [exact Hin|]. cbn [fst]. now rewrite Hid. }
  assert (Hname : c <> "Country Name") by (intros ->; discriminate).
  destruct (render_style_cases w) as (Hstyle & _ & Hany).
  destruct (heatmap_outcomes s d w names Hd Hnames Hlen) as (Hheat & Hdrawn & _ & _).
  split; [|split; [exact Hyc|split; [|split; [|split; [|split; [|split; [|split]]]]]]].
  - intros H. apply filter_In in H as [_ H]. congruence.
  - rewrite (table_view_run s d w Hd). destruct Hany as [-> | ->]; [now left|now right].
  - intros Htext. now rewrite (table_view_run s d w Hd), (Hstyle Htext).
  - destruct Hheat as [H|H]; [now left|right; eexists; exact H].
  - intros Hyoy Htext. exact (Hdrawn Hwf Hyoy Htext).
  - destruct (select_labels w (yoy_cols w)) as (cols & Hsel & Hfst).
    { intros n Hn. now apply yoy_cols_In in Hn as [Hn _]. }
    eexists. split; [exact Hsel|]. split; [exact Hfst|].
    rewrite (plot_avg_bar_chart_run s d w Hd Hlen). unfold bar_frame.
    rewrite Hsel. reflexivity.
  - intros s2 Hd2 Hpage.
    rewrite (plot_avg_bar_chart_run s d w Hd Hlen).
    rewrite (plot_avg_bar_chart_run s2 d (drop_column c w) Hd2 Hlen).
    rewrite (bar_frame_drop c w Hc Hname), Hpage. reflexivity.
  - intros Hwide. destruct (wide_code w Hwide) as [codes Hcodes].
    destruct (process_data_wide s d w names codes Hd Hwide Hnames Hcodes)
      as (lw & ll & s' & Hrun & Hll & Hpage).
    pose proof (wide_length_names w Hwide names Hnames) as Hln.
    pose proof (wide_length_codes w Hwide codes Hcodes) as Hlc.
    pose proof (wide_length_years w Hwide) as Hly.
    pose proof (wide_years w Hwide) as Hy. rewrite List.Forall_forall in Hy.
    destruct (Hy _ Hyc) as [y Hyear]. cbn [fst] in Hyear.
    exists lw, ll, s', (long_table (len w) names codes (year_columns w)), y.
    split; [exact Hrun|]. split; [exact Hll|]. split; [exact Hyear|]. split.
    + intros i n v Hn Hv.
      rewrite (long_triples_blocks (len w) names codes (year_columns w)) by assumption.
      apply in_flat_map. exists (c, col). split; [exact Hyc|].
      apply in_block. cbn [fst snd]. split.
      * unfold year_cell. now rewrite Hyear.
      * now exists i.
    + rewrite <- Hpage. apply line_chart_run; [exact Hll|].
      destruct (long_wf (len w) names codes (year_columns w)) as [_ Hl]; try assumption.
      rewrite Hl. destruct (year_columns w); [contradiction|]. cbn. lia.
Qed.

Lemma mixed_wide : WideTable mixed_table.
Proof.
  split.
  - unfold wf. cbn. repeat constructor.
  - cbn. repeat (apply List.NoDup_cons; [cbn; intuition congruence|]).
    apply List.NoDup_nil.
  - eexists. reflexivity.
  - eexists. reflexivity.
  - cbn. repeat (apply List.Forall_cons; [eexists; reflexivity|]).
    apply List.Forall_nil.
Qed.

Lemma mixed_stored :
  heap (mkState {[ 0%nat := mixed_table ]} []) !! 0%nat = Some mixed_table.
Proof. reflexivity. Qed.

Lemma mixed_without_text : yoy_without_text mixed_table.
Proof.
  unfold yoy_without_text. cbn [columns mixed_table from_dict].
  repeat (apply List.Forall_cons;
          [intros H; vm_compute in H; try discriminate; repeat constructor|]).
  apply List.Forall_nil.
Qed.

Lemma C9_yoy_columns_witness :
  ~ In "2007" (List.filter (Text.contains "YoY") (labels mixed_table)) /\
  outcome (table_view 0%nat) (mkState {[ 0%nat := mixed_table ]} [])
  = (Ok tt, [StDataframe mixed_table ["2006 YoY (%)"] ["2006 YoY (%)"]]) /\
  (exists h height,
     outcome (plot_yoy_heatmap 0%nat) (mkState {[ 0%nat := mixed_table ]} [])
     = (Ok tt, [StHeatmap h height]) /\
     labels h = ["2006 YoY (%)"]) /\
  exists lw ll s' long y,
    process_data (Some 0%nat) (mkState {[ 0%nat := mixed_table ]} [])
      = (Ok (Some lw, Some ll), s') /\
    heap s' !! ll = Some long /\
    Text.year_of_label "2007" = Some y /\
    In (Str "Myanmar", Int y, fl (-159)) (long_triples long).
Proof.
  destruct (C9_yoy_columns (mkState {[ 0%nat := mixed_table ]} []) 0%nat mixed_table
              [Str "Indonesia"; Str "Myanmar"]
              [fl 137; fl (-159)] "2007"
              mixed_stored (wide_wf _ mixed_wide) (wide_labels _ mixed_wide)
              eq_refl ltac:(discriminate)
              ltac:(cbn; tauto) eq_refl eq_refl)
    as (H1 & _ & _ & Htable & _ & Hheat & _ & _ & H2).
  split; [exact H1|]. split; [exact (Htable mixed_without_text)|].
  split; [exact (Hheat ltac:(discriminate) mixed_without_text)|].
  destruct (H2 mixed_wide) as (lw & ll & s' & long & y & Hrun & Hll & Hy & Hin & _).
  exists lw, ll, s', long, y. repeat split; try assumption.
  exact (Hin 1%nat (Str "Myanmar") (fl (-159)) eq_refl eq_refl).
Defined.

(** * Further properties of the transformer *)

Lemma load_data_found (wb : Workbook) (df : DataFrame) (s : state) :
  dict_get sheet_name wb = Some df ->
  exists l s',
    load_data (Some wb) s = (Ok (Some l), s') /\
    heap s' !! l = Some df /\
    heap s ⊆ heap s' /\
    page s' = page s ++ [StSidebarWrite "Available sheets:" (map fst wb)].
Proof.
  intros Hsheet.
  destruct (read_excel_run wb s) as (ls & s1 & Hrun & Hkeys & Hpage & Hsub & _ & Hsome).
  destruct (Hsome _ _ Hsheet) as (l & Hl & Hheap).
  unfold load_data, bind, st, ret. rewrite Hrun. cbn.
  rewrite Hl. exists l. eexists. split; [reflexivity|]. cbn.
  rewrite Hkeys, Hpage. repeat split; assumption.
Qed.

Lemma melt_ids (df : DataFrame) (names codes : Series) :
  existsb (String.eqb "YoY Change (%)") (labels df) = false ->
  lookup_col "Country Name" (columns df) = Some names ->
  lookup_col "Country Code" (columns df) = Some codes ->
  melt df id_vars "Year" "YoY Change (%)" =
  Ok (from_dict (len df * length (year_columns df))
        [ ("Country Name", tile names (length (year_columns df)));
          ("Country Code", tile codes (length (year_columns df)));
          ("Year", flat_map (fun c => repeat (Str (fst c)) (len df)) (year_columns df));
          ("YoY Change (%)", List.concat (map snd (year_columns df))) ]).
Proof.
  intros Hfree Hnames Hcodes. unfold melt. rewrite Hfree.
  unfold id_vars at 1. cbn [rmapM]. unfold getitem. rewrite Hnames, Hcodes.
  reflexivity.
Qed.

Lemma melt_missing_id (df : DataFrame) :
  existsb (String.eqb "YoY Change (%)") (labels df) = false ->
  lookup_col "Country Name" (columns df) = None \/
  lookup_col "Country Code" (columns df) = None ->
  melt df id_vars "Year" "YoY Change (%)" = Raise KeyError.
Proof.
  intros Hfree Hmiss. unfold melt. rewrite Hfree.
  unfold id_vars at 1. cbn [rmapM]. unfold getitem.
  destruct (lookup_col "Country Name" (columns df)); cbn;
    [|reflexivity].
  destruct Hmiss as [Hmiss|Hmiss]; [discriminate|]. now rewrite Hmiss.
Qed.

(** X1.  A table without [Country Name] or without [Country Code] (and
    with no column already called [YoY Change (%)]) makes [process_data]
    raise KeyError: the page is as before and every object of before,
    the input included, is unchanged.  A workbook whose sheet is such a
    table passes the loader, and the script then stops with KeyError after
    the list of sheets: no table, no chart, no documentation panel and no
    footer are put on the page. *)
Theorem X1_missing_id_column (s : state) (df : DataFrame) :
  existsb (String.eqb "YoY Change (%)") (labels df) = false ->
  lookup_col "Country Name" (columns df) = None \/
  lookup_col "Country Code" (columns df) = None ->
  (forall d, heap s !! d = Some df ->
     exists s', process_data (Some d) s = (Raise KeyError, s') /\
                page s' = page s /\ heap s ⊆ heap s') /\
  (forall (wb : Workbook) use_sample viz selected,
     dict_get sheet_name wb = Some df ->
     exists s', main (Some wb) use_sample viz selected s = (Raise KeyError, s') /\
                page s' = page s ++
                  [StTitle "Health Expenditure Year-over-Year Analysis";
                   StMarkdown "### East Asia & Pacific Lower Middle Income Countries (2006-2015)";
                   StSidebarTitle "Upload Data File";
                   StSidebarMarkdown "Please upload your Excel file with the YoY_Health_Expenditure sheet:";
                   StSidebarWrite "Available sheets:" (map fst wb)]).
Proof.
  intros Hfree Hmiss.
  assert (Hproc : forall s0 d, heap s0 !! d = Some df ->
            exists s', process_data (Some d) s0 = (Raise KeyError, s') /\
                       page s' = page s0 /\ heap s0 ⊆ heap s').
  { intros s0 d Hd. rewrite (process_data_run s0 d df Hd). cbv zeta.
    rewrite (melt_missing_id df Hfree Hmiss).
    eexists. split; [reflexivity|]. cbn. split; [reflexivity|apply heap_grows_new]. }
  split; [intros d Hd; exact (Hproc s d Hd)|].
  intros wb use_sample viz selected Hsheet.
  unfold main. unfold bind at 1 2 3 4 5. unfold st at 1 2 3 4. cbn [heap page].
  set (s0 := mkState _ _).
  destruct (load_data_found wb df s0 Hsheet) as (l & s1 & Hload & Hl & _ & Hpage).
  unfold bind at 1. rewrite Hload.
  destruct (Hproc s1 l Hl) as (s2 & Hrun & Hpage2 & _).
  unfold bind at 1. rewrite Hrun.
  eexists. split; [reflexivity|].
  rewrite Hpage2, Hpage. subst s0. cbn [page].
  repeat rewrite <- app_assoc. reflexivity.
Qed.

Lemma X1_missing_id_column_witness :
  exists s',
    process_data (Some 0%nat) (mkState {[ 0%nat := bare_sheet ]} [])
      = (Raise KeyError, s') /\
    page s' = [] /\ {[ 0%nat := bare_sheet ]} ⊆ heap s'.
Proof.
  exact (proj1 (X1_missing_id_column (mkState {[ 0%nat := bare_sheet ]} []) bare_sheet
                  eq_refl (or_introl eq_refl)) 0%nat eq_refl).
Defined.

Lemma rmapM_raises {X Y} (f : X -> result Y) (l : list X) (E : exn) :
  (forall x e, In x l -> f x = Raise e -> e = E) ->
  (exists x e, In x l /\ f x = Raise e) ->
  rmapM f l = Raise E.
Proof.
  induction l as [|x l IH]; intros Hall (x0 & e0 & Hin & Hx0); [contradiction|].
  cbn. destruct (f x) as [y|e] eqn:Hx.
  - cbn. rewrite IH; [reflexivity| |].
    + intros x1 e1 H1. apply Hall. now right.
    + destruct Hin as [<-|Hin]; [congruence|]. now exists x0, e0.
  - cbn. f_equal. apply (Hall x e); [now left|exact Hx].
Qed.

Lemma astype_int_cell_error (c : cell) (e : exn) :
  match c with Inf _ => False | _ => True end ->
  astype_int_cell c = Raise e -> e = ValueError.
Proof.
  destruct c as [t|z|q|i|]; cbn; try discriminate; try contradiction; intros _.
  - destruct (Text.int_of_string t); [discriminate|]. now intros [= <-].
  - now intros [= <-].
Qed.

(** X2.  A table with at least one row, both id columns and a pivoted
    column whose label has no four digits in a row makes [process_data]
    raise ValueError (the year that is NaN cannot become an integer); the
    page and the objects of before are unchanged. *)
Theorem X2_unreadable_year (s : state) (d : loc) (df : DataFrame)
        (label : string) (col : Series) :
  heap s !! d = Some df ->
  existsb (String.eqb "YoY Change (%)") (labels df) = false ->
  is_Some (lookup_col "Country Name" (columns df)) ->
  is_Some (lookup_col "Country Code" (columns df)) ->
  len df <> 0%nat ->
  In (label, col) (year_columns df) ->
  Text.year_of_label label = None ->
  exists s', process_data (Some d) s = (Raise ValueError, s') /\
             page s' = page s /\ heap s ⊆ heap s'.
Proof.
  intros Hd Hfree [names Hnames] [codes Hcodes] Hlen Hin Hyear.
  rewrite (process_data_run s d df Hd). cbv zeta.
  rewrite (melt_ids df names codes Hfree Hnames Hcodes).
  unfold parse_years, getitem.
  cbn [lookup_col columns from_dict String.eqb Ascii.eqb Bool.eqb rbind].
  assert (Hraise : astype_int (str_extract_d4
             (flat_map (fun c => repeat (Str (fst c)) (len df)) (year_columns df)))
           = Raise ValueError).
  { unfold astype_int, str_extract_d4. rewrite rmapM_map.
    apply rmapM_raises.
    - intros x e _. apply astype_int_cell_error.
      destruct x as [t| | | |]; try exact I. now destruct (Text.re_search_d4 t).
    - exists (Str label), ValueError. split.
      + apply in_flat_map. exists (label, col). split; [exact Hin|].
        cbn [fst]. destruct (len df); [contradiction|]. now left.
      + unfold Text.year_of_label in Hyear.
        destruct (Text.re_search_d4 label) as [m|]; [|reflexivity].
        cbn. now rewrite Hyear. }
  rewrite Hraise. cbn [rbind].
  eexists. split; [reflexivity|]. cbn [heap page]. split; [reflexivity|].
  etrans; [apply heap_grows_new|]. apply heap_grows_new.
Qed.

Lemma single_stored (df : DataFrame) : heap (single df) !! 0%nat = Some df.
Proof. apply lookup_singleton_eq. Qed.

Lemma X2_unreadable_year_witness :
  exists s',
    process_data (Some 0%nat) (single undated_table) = (Raise ValueError, s') /\
    page s' = [].
Proof.
  destruct (X2_unreadable_year (single undated_table) 0%nat undated_table
              "Notes YoY" [fl 136]
              (single_stored _) eq_refl
              ltac:(eexists; reflexivity) ltac:(eexists; reflexivity)
              ltac:(discriminate) ltac:(cbn; tauto) eq_refl)
    as (s' & Hrun & Hpage & _).
  exists s'. split; assumption.
Defined.

Lemma flat_map_nil {X Y} (f : X -> list Y) (l : list X) :
  (forall x, In x l -> f x = []) -> flat_map f l = [].
Proof.
  induction l as [|x l IH]; intros H; cbn; [reflexivity|].
  rewrite (H x (or_introl eq_refl)), IH; [reflexivity|].
  intros; apply H; now right.
Qed.

Lemma tile_nil {X} (k : nat) : tile (@nil X) k = [].
Proof. unfold tile. induction k as [|k IH]; cbn; [reflexivity|exact IH]. Qed.

Lemma concat_nil {X} (l : list (list X)) :
  (forall x, In x l -> x = []) -> List.concat l = [].
Proof.
  induction l as [|x l IH]; intros H; cbn; [reflexivity|].
  rewrite (H x (or_introl eq_refl)), IH; [reflexivity|].
  intros; apply H; now right.
Qed.

Lemma length_zero_nil {X} (l : list X) : length l = 0%nat -> l = [].
Proof. destruct l; [reflexivity|discriminate]. Qed.

(** X3.  On a table without rows that has both id columns, [process_data]
    returns whatever the other labels are (no label is parsed when there is
    no row): the long table has the four columns [Country Name],
    [Country Code], [Year], [YoY Change (%)] and no row, and each of the
    three chart functions then shows the warning instead of a chart. *)
Theorem X3_table_without_rows (s : state) (d : loc) (df : DataFrame) :
  heap s !! d = Some df ->
  wf df ->
  len df = 0%nat ->
  existsb (String.eqb "YoY Change (%)") (labels df) = false ->
  is_Some (lookup_col "Country Name" (columns df)) ->
  is_Some (lookup_col "Country Code" (columns df)) ->
  exists lw ll s',
    process_data (Some d) s = (Ok (Some lw, Some ll), s') /\
    heap s' !! lw = Some df /\
    heap s' !! ll = Some empty_long /\
    page s' = page s /\
    outcome (plot_yoy_line_chart ll) s' = (Ok tt, page s ++ [StWarning no_data_message]) /\
    outcome (plot_yoy_heatmap lw) s' = (Ok tt, page s ++ [StWarning no_data_message]) /\
    outcome (plot_avg_bar_chart lw) s' = (Ok tt, page s ++ [StWarning no_data_message]).
Proof.
  intros Hd Hwf Hlen Hfree [names Hnames] [codes Hcodes].
  unfold wf in Hwf. rewrite List.Forall_forall in Hwf.
  assert (Hn : names = []).
  { apply length_zero_nil. rewrite <- Hlen. exact (Hwf _ (lookup_col_In _ _ _ Hnames)). }
  assert (Hc : codes = []).
  { apply length_zero_nil. rewrite <- Hlen. exact (Hwf _ (lookup_col_In _ _ _ Hcodes)). }
  assert (Hmelt : melt df id_vars "Year" "YoY Change (%)" = Ok empty_long).
  { rewrite (melt_ids df names codes Hfree Hnames Hcodes). subst names codes.
    rewrite Hlen, !tile_nil.
    rewrite (flat_map_nil (fun c : string * Series => repeat (Str (fst c)) 0))
      by reflexivity.
    rewrite concat_nil; [reflexivity|].
    intros x Hx. apply in_map_iff in Hx as (c & <- & Hc). apply length_zero_nil.
    rewrite <- Hlen. apply Hwf. unfold year_columns in Hc.
    now apply filter_In in Hc. }
  rewrite (process_data_run s d df Hd). cbv zeta. rewrite Hmelt.
  change (parse_years empty_long) with (Ok empty_long).
  set (lw := fresh (dom (heap s))).
  set (h1 := <[lw := df]> (heap s)).
  set (ll := fresh (dom h1)).
  assert (Hll : h1 !! ll = None) by apply not_elem_of_dom, is_fresh.
  assert (Hne : ll <> lw).
  { intros E. rewrite E in Hll. subst h1. rewrite lookup_insert_eq in Hll. discriminate. }
  set (s' := mkState (<[ll := empty_long]> h1) (page s)).
  assert (Hlw' : heap s' !! lw = Some df).
  { subst s'. cbn [heap]. rewrite lookup_insert_ne by exact Hne. apply lookup_insert_eq. }
  assert (Hll' : heap s' !! ll = Some empty_long) by apply lookup_insert_eq.
  exists lw, ll, s'. split; [reflexivity|]. split; [exact Hlw'|].
  split; [exact Hll'|]. split; [reflexivity|].
  unfold outcome.
  rewrite (line_chart_empty s' ll empty_long Hll' eq_refl).
  rewrite (heatmap_empty s' lw df Hlw' Hlen).
  rewrite (bar_chart_empty s' lw df Hlw' Hlen).
  repeat split.
Qed.

Lemma X3_table_without_rows_witness :
  exists lw ll s',
    process_data (Some 0%nat) (single no_rows) = (Ok (Some lw, Some ll), s') /\
    heap s' !! lw = Some no_rows /\
    heap s' !! ll = Some empty_long /\
    page s' = [].
Proof.
  destruct (X3_table_without_rows (single no_rows) 0%nat no_rows
              (single_stored _) ltac:(repeat constructor) eq_refl eq_refl
              ltac:(eexists; reflexivity) ltac:(eexists; reflexivity))
    as (lw & ll & s' & H1 & H2 & H3 & H4 & _).
  exists lw, ll, s'. repeat split; assumption.
Defined.

Lemma digit_val_range (a : ascii) :
  Text.is_digit a = true -> (0 <= Text.digit_val a <= 9)%Z.
Proof.
  unfold Text.is_digit, Text.digit_val. intros H.
  apply andb_prop in H as [H1 H2].
  apply Nat.leb_le in H1. apply Nat.leb_le in H2. lia.
Qed.

Lemma int_digits_four (m : string) :
  String.length m = 4%nat -> Text.all_digits m = true ->
  (0 <= Text.int_digits 0 m <= 9999)%Z.
Proof.
  destruct m as [|a [|b [|c [|d [|e m]]]]]; cbn; intros Hlen H; try discriminate.
  apply andb_prop in H as [Ha H]. apply andb_prop in H as [Hb H].
  apply andb_prop in H as [Hc H]. apply andb_prop in H as [Hd _].
  apply digit_val_range in Ha, Hb, Hc, Hd. lia.
Qed.

Lemma year_of_label_range (label : string) (y : Z) :
  Text.year_of_label label = Some y -> (0 <= y <= 9999)%Z.
Proof.
  rewrite year_of_label_search.
  destruct (Text.re_search_d4 label) as [m|] eqn:E; [|discriminate].
  intros [= <-]. destruct (re_search_d4_group _ _ E) as (Hl & Hd & _).
  now apply int_digits_four.
Qed.

Lemma astype_extract_years (l ys : Series) :
  astype_int (str_extract_d4 l) = Ok ys -> Forall four_digit_year ys.
Proof.
  unfold astype_int, str_extract_d4. rewrite rmapM_map.
  revert ys. induction l as [|c l IH]; intros ys; cbn.
  - intros [= <-]. constructor.
  - destruct c as [t| | | |]; try discriminate.
    destruct (Text.re_search_d4 t) as [m|] eqn:E; [|discriminate]. cbn.
    destruct (re_search_d4_group _ _ E) as (Hl & Hd & _).
    rewrite (int_of_string_digits m Hl Hd). cbn.
    destruct (rmapM _ l) as [ys'|]; [|discriminate]. cbn. intros [= <-].
    constructor; [|now apply IH].
    exists (Text.int_digits 0 m). split; [reflexivity|now apply int_digits_four].
Qed.

Lemma lookup_set_col (name : string) (v : Series) (cols : list (string * Series)) :
  lookup_col name (set_col name v cols) = Some v.
Proof.
  induction cols as [|[l c] cols IH]; cbn.
  - now rewrite String.eqb_refl.
  - destruct (String.eqb l name) eqn:E; cbn; rewrite E; [reflexivity|exact IH].
Qed.

(** X4.  A year read off a label is between 0 and 9999 (leading zeros
    count: "0042" is 42), and whenever [process_data] returns, whatever the
    table, every cell of the long table's [Year] column is such an
    integer. *)
Theorem X4_year_range :
  (forall label y, Text.year_of_label label = Some y -> (0 <= y <= 9999)%Z) /\
  (forall s d lw ll s',
     process_data (Some d) s = (Ok (Some lw, Some ll), s') ->
     exists long years,
       heap s' !! ll = Some long /\
       lookup_col "Year" (columns long) = Some years /\
       Forall four_digit_year years).
Proof.
  split; [exact year_of_label_range|].
  intros s d lw ll s' Hrun.
  destruct (heap s !! d) as [df|] eqn:Hd.
  - rewrite (process_data_run s d df Hd) in Hrun. cbv zeta in Hrun.
    destruct (melt df id_vars "Year" "YoY Change (%)") as [melted|e]; [|discriminate].
    destruct (parse_years melted) as [long|e] eqn:Hparse; [|discriminate].
    injection Hrun as <- <- <-.
    unfold parse_years in Hparse.
    destruct (getitem melted "Year") as [year|e]; [|discriminate]. cbn in Hparse.
    destruct (astype_int (str_extract_d4 year)) as [ys|e] eqn:Hys; [|discriminate].
    cbn in Hparse. injection Hparse as <-.
    exists (setitem melted "Year" ys), ys. cbn [heap].
    split; [apply lookup_insert_eq|]. split.
    + unfold setitem. cbn [columns]. apply lookup_set_col.
    + exact (astype_extract_years year ys Hys).
  - exfalso. unfold process_data, copy, bind, deref in Hrun. rewrite Hd in Hrun.
    discriminate.
Qed.

Lemma X4_year_range_witness :
  (0 <= 42 <= 9999)%Z /\
  exists long years,
    heap (snd (process_data (Some 0%nat) (single sample_data))) !! 2%nat = Some long /\
    lookup_col "Year" (columns long) = Some years /\
    Forall four_digit_year years.
Proof.
  split.
  - exact (proj1 X4_year_range "Table 0042 YoY" 42%Z eq_refl).
  - apply (proj2 X4_year_range (single sample_data) 0%nat 1%nat 2%nat).
    vm_compute. reflexivity.
Defined.

Lemma combine_tile {X Y} (a : list X) (b : list Y) (k : nat) :
  length a = length b ->
  combine (tile a k) (tile b k) = tile (combine a b) k.
Proof.
  intros Hlen. unfold tile. induction k as [|k IH]; cbn; [reflexivity|].
  now rewrite combine_app_eq, IH.
Qed.

(** X5.  The long table of a wide table is laid out column by column: a
    fresh index 0, 1, ..., the four columns [Country Name], [Country Code],
    [Year], [YoY Change (%)], and as rows all the rows of the first year
    column in table order, then those of the second, and so on; the id
    columns are the wide table's (name, code) pairs repeated once per year
    column, so a code never leaves its country. *)
Theorem X5_long_layout (s : state) (d : loc) (df : DataFrame) (names codes : Series) :
  heap s !! d = Some df ->
  WideTable df ->
  lookup_col "Country Name" (columns df) = Some names ->
  lookup_col "Country Code" (columns df) = Some codes ->
  exists lw ll s' long lnames lcodes,
    process_data (Some d) s = (Ok (Some lw, Some ll), s') /\
    heap s' !! ll = Some long /\
    index long = RangeIndex (len df * length (year_columns df)) /\
    labels long = ["Country Name"; "Country Code"; "Year"; "YoY Change (%)"] /\
    long_triples long
    = flat_map (fun c => combine (map (fun n => (n, year_cell (fst c))) names) (snd c))
               (year_columns df) /\
    lookup_col "Country Name" (columns long) = Some lnames /\
    lookup_col "Country Code" (columns long) = Some lcodes /\
    combine lnames lcodes = tile (combine names codes) (length (year_columns df)).
Proof.
  intros Hd Hwide Hnames Hcodes.
  destruct (process_data_wide s d df names codes Hd Hwide Hnames Hcodes)
    as (lw & ll & s' & Hrun & Hll & _).
  pose proof (wide_length_names df Hwide names Hnames) as Hln.
  pose proof (wide_length_codes df Hwide codes Hcodes) as Hlc.
  pose proof (wide_length_years df Hwide) as Hly.
  exists lw, ll, s', (long_table (len df) names codes (year_columns df)).
  eexists _, _. split; [exact Hrun|]. split; [exact Hll|].
  split; [reflexivity|]. split; [reflexivity|]. split.
  - apply long_triples_blocks; assumption.
  - split; [reflexivity|]. split; [reflexivity|].
    apply combine_tile. congruence.
Qed.

Lemma X5_long_layout_witness :
  exists lw ll s' long,
    process_data (Some 0%nat) (single mixed_table) = (Ok (Some lw, Some ll), s') /\
    heap s' !! ll = Some long /\
    long_triples long
    = [ (Str "Indonesia", Int 2006, fl 97);
        (Str "Myanmar", Int 2006, fl 639);
        (Str "Indonesia", Int 2007, fl 137);
        (Str "Myanmar", Int 2007, fl (-159)) ].
Proof.
  destruct (X5_long_layout (single mixed_table) 0%nat mixed_table
              [Str "Indonesia"; Str "Myanmar"] [Str "IDN"; Str "MMR"]
              (single_stored _) mixed_wide eq_refl eq_refl)
    as (lw & ll & s' & long & lnames & lcodes & H1 & H2 & _ & _ & H3 & _).
  exists lw, ll, s', long. repeat split; assumption.
Defined.

(** * Further properties of the country filter *)

Lemma mask_filter_length_eq {X Y} (m : list bool) (l1 : list X) (l2 : list Y) :
  length l1 = length l2 ->
  length (mask_filter m l1) = length (mask_filter m l2).
Proof.
  revert l1 l2. induction m as [|b m IH]; intros [|x l1] [|y l2] Hlen;
    try discriminate; try reflexivity.
  injection Hlen as Hlen. destruct b; cbn; [f_equal|]; now apply IH.
Qed.

Lemma mask_filter_length_le {X} (m : list bool) (l : list X) :
  (length (mask_filter m l) <= length l)%nat.
Proof.
  revert l. induction m as [|b m IH]; intros [|x l]; cbn; try lia.
  specialize (IH l). destruct b; cbn; lia.
Qed.

Lemma mask_filter_app {X} (m1 m2 : list bool) (l1 l2 : list X) :
  length m1 = length l1 ->
  mask_filter (m1 ++ m2) (l1 ++ l2) = mask_filter m1 l1 ++ mask_filter m2 l2.
Proof.
  revert l1. induction m1 as [|b m1 IH]; intros [|x l1] Hlen; try discriminate.
  - reflexivity.
  - injection Hlen as Hlen. cbn. destruct b; cbn; now rewrite IH.
Qed.

(** A mask repeated once per block filters each block. *)
Lemma mask_filter_blocks {X} (m : list bool) (blocks : list (list X)) :
  Forall (fun b => length b = length m) blocks ->
  mask_filter (tile m (length blocks)) (List.concat blocks)
  = List.concat (map (mask_filter m) blocks).
Proof.
  unfold tile. induction 1 as [|b blocks Hb _ IH]; cbn; [reflexivity|].
  rewrite mask_filter_app by (symmetry; exact Hb). now rewrite IH.
Qed.

Lemma mask_filter_repeat {X Y} (m : list bool) (x : X) (l : list Y) :
  length m = length l ->
  mask_filter m (repeat x (length l)) = repeat x (length (mask_filter m l)).
Proof.
  revert l. induction m as [|b m IH]; intros [|y l] Hlen; try discriminate.
  - reflexivity.
  - injection Hlen as Hlen. cbn. destruct b; cbn; now rewrite IH.
Qed.

Lemma isin_tile (names selection : list cell) (k : nat) :
  isin (tile names k) selection = tile (isin names selection) k.
Proof.
  unfold isin, tile. induction k as [|k IH]; cbn; [reflexivity|].
  now rewrite map_app, IH.
Qed.

Lemma lookup_col_mask (name : string) (m : list bool) (cols : list (string * Series)) :
  lookup_col name (map (fun c => (fst c, mask_filter m (snd c))) cols)
  = option_map (mask_filter m) (lookup_col name cols).
Proof.
  induction cols as [|[l c] cols IH]; cbn; [reflexivity|].
  destruct (String.eqb l name); [reflexivity|exact IH].
Qed.

Lemma year_columns_mask (df : DataFrame) (m : list bool) :
  year_columns (getitem_mask df m)
  = map (fun c => (fst c, mask_filter m (snd c))) (year_columns df).
Proof.
  unfold year_columns, getitem_mask. cbn [columns].
  induction (columns df) as [|[l c] cols IH]; [reflexivity|].
  cbn [List.filter map fst snd].
  destruct (negb (is_id id_vars l)); cbn [map fst snd]; now rewrite IH.
Qed.

(** Boolean indexing keeps a wide table wide. *)
Lemma mask_keeps_wide (df : DataFrame) (m : list bool) :
  WideTable df -> WideTable (getitem_mask df m).
Proof.
  intros [Hwf Hnd [names Hnames] [codes Hcodes] Hyears]. split.
  - unfold wf in *. rewrite List.Forall_forall in *. intros c Hc.
    unfold getitem_mask in Hc. cbn [columns] in Hc.
    apply in_map_iff in Hc as (c0 & <- & Hc0). cbn [snd].
    unfold len, getitem_mask. cbn [index].
    apply mask_filter_length_eq. exact (Hwf c0 Hc0).
  - now rewrite labels_getitem_mask.
  - unfold getitem_mask. cbn [columns]. rewrite lookup_col_mask, Hnames. now eexists.
  - unfold getitem_mask. cbn [columns]. rewrite lookup_col_mask, Hcodes. now eexists.
  - rewrite year_columns_mask. rewrite List.Forall_forall in *.
    intros c Hc. apply in_map_iff in Hc as (c0 & <- & Hc0). cbn [fst].
    now apply Hyears.
Qed.

(** Lines 93-94 step by step. *)
Lemma filter_countries_run (s : state) (yc yl : loc) (w l : DataFrame)
      (names lnames : Series) (c0 : cell) (rest : list cell) :
  heap s !! yc = Some w -> heap s !! yl = Some l ->
  lookup_col "Country Name" (columns w) = Some names ->
  lookup_col "Country Name" (columns l) = Some lnames ->
  exists fw fl s',
    filter_countries yc (Some yl) (c0 :: rest) s = (Ok (fw, Some fl), s') /\
    heap s' !! fw = Some (getitem_mask w (isin names (c0 :: rest))) /\
    heap s' !! fl = Some (getitem_mask l (isin lnames (c0 :: rest))) /\
    heap s !! fw = None /\ heap s !! fl = None /\ fw <> fl /\
    heap s ⊆ heap s' /\ page s' = page s.
Proof.
  intros Hyc Hyl Hnames Hlnames.
  unfold filter_countries. cbv iota. generalize (c0 :: rest). intros selection.
  unfold bind, deref, lift, getitem, new, ret. rewrite Hyc, Hnames. cbn [heap page].
  set (fw := fresh (dom (heap s))).
  assert (Hfw : heap s !! fw = None) by apply not_elem_of_dom, is_fresh.
  assert (Hne1 : fw <> yl) by (intros ->; rewrite Hyl in Hfw; discriminate).
  rewrite lookup_insert_ne by exact Hne1. rewrite Hyl, Hlnames. cbn [heap page].
  set (h1 := <[fw := getitem_mask w (isin names selection)]> (heap s)).
  set (fl := fresh (dom h1)).
  assert (Hfl : h1 !! fl = None) by apply not_elem_of_dom, is_fresh.
  assert (Hne2 : fl <> fw).
  { intros E. rewrite E in Hfl. subst h1. rewrite lookup_insert_eq in Hfl. discriminate. }
  exists fw, fl. eexists. split; [reflexivity|]. cbn [heap page].
  split; [rewrite lookup_insert_ne by exact Hne2; apply lookup_insert_eq|].
  split; [apply lookup_insert_eq|]. split; [exact Hfw|]. split.
  { subst h1. rewrite lookup_insert_ne in Hfl by congruence. exact Hfl. }
  split; [congruence|].
  split; [etrans; [apply (insert_subseteq _ fw), Hfw|apply insert_subseteq, Hfl]|].
  reflexivity.
Qed.

Lemma process_data_wide_full (s : state) (d : loc) (df : DataFrame) (names codes : Series) :
  heap s !! d = Some df ->
  WideTable df ->
  lookup_col "Country Name" (columns df) = Some names ->
  lookup_col "Country Code" (columns df) = Some codes ->
  exists lw ll s',
    process_data (Some d) s = (Ok (Some lw, Some ll), s') /\
    heap s' !! lw = Some df /\
    heap s' !! ll = Some (long_table (len df) names codes (year_columns df)) /\
    heap s ⊆ heap s' /\
    page s' = page s.
Proof.
  intros Hd Hwide Hnames Hcodes.
  pose proof (parse_years_wide df Hwide names codes Hnames Hcodes) as Hlong.
  rewrite (process_data_run s d df Hd). cbv zeta.
  destruct (melt df id_vars "Year" "YoY Change (%)") as [melted|e]; [|discriminate].
  cbn [rbind] in Hlong. rewrite Hlong.
  set (lw := fresh (dom (heap s))).
  set (h1 := <[lw := df]> (heap s)).
  assert (Hll : h1 !! fresh (dom h1) = None) by apply not_elem_of_dom, is_fresh.
  assert (Hne : fresh (dom h1) <> lw).
  { intros E. rewrite E in Hll. subst h1. rewrite lookup_insert_eq in Hll. discriminate. }
  eexists _, _, _. split; [reflexivity|]. cbn [heap page].
  split; [rewrite lookup_insert_ne by exact Hne; apply lookup_insert_eq|].
  split; [apply lookup_insert_eq|]. split; [|reflexivity].
  etrans; [apply heap_grows_new|]. apply insert_subseteq, Hll.
Qed.

Lemma mask_keeps_wf (df : DataFrame) (m : list bool) :
  wf df -> wf (getitem_mask df m).
Proof.
  unfold wf. rewrite !List.Forall_forall. intros Hwf c Hc.
  unfold getitem_mask in Hc. cbn [columns] in Hc.
  apply in_map_iff in Hc as (c0 & <- & Hc0). cbn [snd].
  unfold len, getitem_mask. cbn [index].
  apply mask_filter_length_eq. exact (Hwf c0 Hc0).
Qed.

(** X6.  Filtering commutes with the reshape.  For a wide table and a
    non-empty selection, the filtered long table (line 94) has exactly the
    columns, cell for cell and in the same order, of the long table that
    [process_data] builds from the filtered wide table (line 93), and as
    many rows; only the row labels differ (the filter keeps the old ones,
    the reshape numbers them afresh). *)
Theorem X6_filter_commutes_with_melt (s : state) (d : loc) (df : DataFrame)
        (names : Series) (selection : list cell) :
  heap s !! d = Some df ->
  WideTable df ->
  lookup_col "Country Name" (columns df) = Some names ->
  selection <> [] ->
  exists lw ll s1 fw fl s2 w' l',
    process_data (Some d) s = (Ok (Some lw, Some ll), s1) /\
    filter_countries lw (Some ll) selection s1 = (Ok (fw, Some fl), s2) /\
    heap s2 !! fw = Some w' /\ heap s2 !! fl = Some l' /\
    exists lw2 ll2 s3 long2,
      process_data (Some fw) s2 = (Ok (Some lw2, Some ll2), s3) /\
      heap s3 !! ll2 = Some long2 /\
      columns long2 = columns l' /\
      len long2 = len l' /\
      len l' = (len w' * length (year_columns df))%nat.
Proof.
  intros Hd Hwide Hnames Hsel.
  destruct selection as [|c0 rest]; [contradiction|]. clear Hsel.
  destruct (wide_code df Hwide) as [codes Hcodes].
  pose proof (wide_length_names df Hwide names Hnames) as Hln.
  pose proof (wide_length_codes df Hwide codes Hcodes) as Hlc.
  pose proof (wide_length_years df Hwide) as Hly.
  destruct (process_data_wide_full s d df names codes Hd Hwide Hnames Hcodes)
    as (lw & ll & s1 & Hrun & Hlw & Hll & _ & _).
  set (long := long_table (len df) names codes (year_columns df)) in *.
  set (Y := length (year_columns df)) in *.
  destruct (filter_countries_run s1 lw ll df long names (tile names Y) c0 rest
              Hlw Hll Hnames eq_refl)
    as (fw & fl & s2 & Hfilter & Hfw & Hfl & _ & _ & _ & _ & _).
  set (m := isin names (c0 :: rest)) in *.
  assert (Hm : length m = len df) by (subst m; unfold isin; now rewrite length_map).
  assert (Hwide' : WideTable (getitem_mask df m)) by now apply mask_keeps_wide.
  assert (Hnames' : lookup_col "Country Name" (columns (getitem_mask df m)) = Some (mask_filter m names)).
  { unfold getitem_mask. cbn [columns]. now rewrite lookup_col_mask, Hnames. }
  assert (Hcodes' : lookup_col "Country Code" (columns (getitem_mask df m)) = Some (mask_filter m codes)).
  { unfold getitem_mask. cbn [columns]. now rewrite lookup_col_mask, Hcodes. }
  destruct (process_data_wide_full s2 fw (getitem_mask df m) _ _ Hfw Hwide' Hnames' Hcodes')
    as (lw2 & ll2 & s3 & Hrun2 & _ & Hll2 & _ & _).
  assert (HR' : len (getitem_mask df m) = length (mask_filter m names)).
  { unfold len, getitem_mask. cbn [index].
    apply mask_filter_length_eq. unfold len in Hln. congruence. }
  assert (HY' : length (year_columns (getitem_mask df m)) = Y).
  { now rewrite year_columns_mask, length_map. }
  assert (Hcols : columns (long_table (len (getitem_mask df m)) (mask_filter m names) (mask_filter m codes)
                             (year_columns (getitem_mask df m)))
                  = columns (getitem_mask long (isin (tile names Y) (c0 :: rest)))).
  { assert (Hblocks : forall b : Series, length b = len df ->
              mask_filter (tile m Y) (tile b Y) = tile (mask_filter m b) Y).
    { intros b Hb. unfold tile at 2 3.
      rewrite <- (repeat_length b Y) at 1.
      rewrite mask_filter_blocks.
      - now rewrite map_repeat.
      - rewrite List.Forall_forall. intros x Hx. apply repeat_spec in Hx. congruence. }
    assert (Hyear : mask_filter (tile m Y)
                      (flat_map (fun c : string * Series => repeat (year_cell (fst c)) (len df))
                                (year_columns df))
                    = flat_map (fun c : string * Series =>
                                  repeat (year_cell (fst c)) (length (mask_filter m names)))
                               (map (fun c => (fst c, mask_filter m (snd c)))
                                    (year_columns df))).
    { rewrite !flat_map_concat_map. unfold Y.
      rewrite <- (length_map (fun c : string * Series => repeat (year_cell (fst c)) (len df))
                            (year_columns df)).
      rewrite mask_filter_blocks.
      + rewrite !map_map. f_equal. apply map_ext. intros c. cbn [fst].
        rewrite <- Hln. apply mask_filter_repeat. congruence.
      + rewrite List.Forall_forall. intros x Hx.
        apply in_map_iff in Hx as (c & <- & _). rewrite repeat_length. congruence. }
    assert (Hvalue : mask_filter (tile m Y) (List.concat (map snd (year_columns df)))
                     = List.concat (map snd (map (fun c => (fst c, mask_filter m (snd c)))
                                                 (year_columns df)))).
    { unfold Y. rewrite <- (length_map snd (year_columns df)).
      rewrite mask_filter_blocks.
      + now rewrite !map_map.
      + rewrite List.Forall_forall in *. intros x Hx.
        apply in_map_iff in Hx as (c & <- & Hc). rewrite (Hly c Hc). congruence. }
    rewrite isin_tile. fold m. rewrite year_columns_mask, HR'.
    unfold long, long_table, from_dict. unfold getitem_mask at 1.
    cbn [columns map fst snd]. rewrite length_map. fold Y.
    now rewrite (Hblocks names Hln), (Hblocks codes Hlc), Hyear, Hvalue. }
  assert (Hlen : len (getitem_mask long (isin (tile names Y) (c0 :: rest)))
                 = (len (getitem_mask df m) * Y)%nat).
  { rewrite HR'. unfold len, getitem_mask. cbn [index]. rewrite isin_tile. fold m.
    rewrite (mask_filter_length_eq _ _ (tile names Y)).
    - unfold tile at 2. rewrite <- (repeat_length names Y) at 1.
      rewrite mask_filter_blocks.
      + rewrite map_repeat. fold (tile (mask_filter m names) Y).
        now rewrite length_tile.
      + rewrite List.Forall_forall. intros x Hx. apply repeat_spec in Hx. congruence.
    - unfold long, long_table, from_dict, RangeIndex. cbn [index].
      rewrite length_map, length_seq, length_tile. fold Y. congruence. }
  exists lw, ll, s1, fw, fl, s2, (getitem_mask df m).
  eexists. split; [exact Hrun|]. split; [exact Hfilter|].
  split; [exact Hfw|]. split; [exact Hfl|].
  exists lw2, ll2, s3. eexists. split; [exact Hrun2|]. split; [exact Hll2|].
  split; [exact Hcols|]. split; [|exact Hlen].
  rewrite Hlen.
  destruct (long_wf (len (getitem_mask df m)) (mask_filter m names) (mask_filter m codes)
              (year_columns (getitem_mask df m))) as [_ Hl].
  - now rewrite HR'.
  - rewrite HR'. apply mask_filter_length_eq. congruence.
  - exact (wide_length_years _ Hwide').
  - rewrite Hl, HY'. reflexivity.
Qed.

Lemma X6_filter_commutes_with_melt_witness :
  exists lw ll s1 fw fl s2 w' l',
    process_data (Some 0%nat) (single mixed_table) = (Ok (Some lw, Some ll), s1) /\
    filter_countries lw (Some ll) [Str "Myanmar"] s1 = (Ok (fw, Some fl), s2) /\
    heap s2 !! fw = Some w' /\ heap s2 !! fl = Some l' /\
    exists lw2 ll2 s3 long2,
      process_data (Some fw) s2 = (Ok (Some lw2, Some ll2), s3) /\
      heap s3 !! ll2 = Some long2 /\
      columns long2 = columns l' /\
      len long2 = len l' /\
      len l' = (len w' * length (year_columns mixed_table))%nat.
Proof.
  exact (X6_filter_commutes_with_melt (single mixed_table) 0%nat mixed_table
           [Str "Indonesia"; Str "Myanmar"] [Str "Myanmar"]
           (single_stored _) mixed_wide eq_refl ltac:(discriminate)).
Defined.

(** X7.  The filter keeps the tables well formed and never touches the
    originals: for a wide table and a non-empty selection the two results
    are new objects; the filtered wide table is again a wide table with the
    same labels and the same year columns' labels, the filtered long table
    still has one cell per row in every column, and neither has more rows
    than before. *)
Theorem X7_filter_keeps_wide (s : state) (yc yl : loc) (w l : DataFrame)
        (names lnames : Series) (selection : list cell) :
  heap s !! yc = Some w -> heap s !! yl = Some l ->
  WideTable w -> wf l ->
  lookup_col "Country Name" (columns w) = Some names ->
  lookup_col "Country Name" (columns l) = Some lnames ->
  selection <> [] ->
  exists fw fl s' w' l',
    filter_countries yc (Some yl) selection s = (Ok (fw, Some fl), s') /\
    heap s' !! fw = Some w' /\ heap s' !! fl = Some l' /\
    heap s !! fw = None /\ heap s !! fl = None /\
    heap s' !! yc = Some w /\ heap s' !! yl = Some l /\
    WideTable w' /\ wf l' /\
    labels w' = labels w /\
    map fst (year_columns w') = map fst (year_columns w) /\
    (len w' <= len w)%nat /\ (len l' <= len l)%nat.
Proof.
  intros Hyc Hyl Hwide Hlwf Hnames Hlnames Hsel.
  destruct selection as [|c0 rest]; [contradiction|].
  destruct (filter_countries_run s yc yl w l names lnames c0 rest Hyc Hyl Hnames Hlnames)
    as (fw & fl & s' & Hrun & Hfw & Hfl & Hnew1 & Hnew2 & _ & Hsub & _).
  exists fw, fl, s'. eexists _, _. split; [exact Hrun|].
  split; [exact Hfw|]. split; [exact Hfl|]. split; [exact Hnew1|]. split; [exact Hnew2|].
  split; [exact (lookup_weaken _ _ _ _ Hyc Hsub)|].
  split; [exact (lookup_weaken _ _ _ _ Hyl Hsub)|].
  split; [now apply mask_keeps_wide|]. split; [now apply mask_keeps_wf|].
  split; [apply labels_getitem_mask|]. split.
  - rewrite year_columns_mask, map_map. reflexivity.
  - split; unfold len, getitem_mask; cbn [index]; apply mask_filter_length_le.
Qed.

Lemma X7_filter_keeps_wide_witness :
  exists fw fl s' w' l',
    filter_countries 0%nat (Some 1%nat) [Str "Myanmar"]
      (mkState {[ 0%nat := sample_data; 1%nat := sample_long ]} [])
      = (Ok (fw, Some fl), s') /\
    heap s' !! fw = Some w' /\ heap s' !! fl = Some l' /\
    WideTable w' /\ wf l'.
Proof.
  destruct (X7_filter_keeps_wide
              (mkState {[ 0%nat := sample_data; 1%nat := sample_long ]} [])
              0%nat 1%nat sample_data sample_long _ _ [Str "Myanmar"]
              (proj1 sample_pair_stored) (proj2 sample_pair_stored)
              sample_wide sample_long_wf eq_refl eq_refl ltac:(discriminate))
    as (fw & fl & s' & w' & l' & H1 & H2 & H3 & _ & _ & _ & _ & H4 & H5 & _).
  exists fw, fl, s', w', l'.
  exact (conj H1 (conj H2 (conj H3 (conj H4 H5)))).
Defined.

Lemma cell_eqb_refl (c : cell) : cell_eqb c c = true.
Proof.
  destruct c as [t|z|q|b|]; cbn;
    [apply String.eqb_refl|apply Z.eqb_refl| |now destruct b|reflexivity].
  apply Qeq_bool_iff. reflexivity.
Qed.

(** X8.  When the warning can appear.  With a selection that contains at
    least one name of the table (the country selector offers nothing else),
    the filtered wide table has at least one row, so the heatmap and the bar
    chart do not show the warning.  With text names and a selection that
    contains none of them, the filtered wide table has no row and both
    show the warning. *)
Theorem X8_filter_rows (s : state) (yc yl : loc) (w l : DataFrame)
        (names lnames : Series) (selection : list cell) :
  heap s !! yc = Some w -> heap s !! yl = Some l ->
  wf w ->
  lookup_col "Country Name" (columns w) = Some names ->
  lookup_col "Country Name" (columns l) = Some lnames ->
  selection <> [] ->
  exists fw fl s' w',
    filter_countries yc (Some yl) selection s = (Ok (fw, Some fl), s') /\
    heap s' !! fw = Some w' /\
    ((exists c, In c selection /\ In c names) -> len w' <> 0%nat) /\
    (Forall (fun c => is_str c = true) names ->
     (forall c, In c selection -> ~ In c names) ->
     len w' = 0%nat /\
     outcome (plot_yoy_heatmap fw) s' = (Ok tt, page s ++ [StWarning no_data_message]) /\
     outcome (plot_avg_bar_chart fw) s' = (Ok tt, page s ++ [StWarning no_data_message])).
Proof.
  intros Hyc Hyl Hwf Hnames Hlnames Hsel.
  destruct selection as [|c0 rest]; [contradiction|].
  destruct (filter_countries_run s yc yl w l names lnames c0 rest Hyc Hyl Hnames Hlnames)
    as (fw & fl & s' & Hrun & Hfw & _ & _ & _ & _ & _ & Hpage).
  set (selection := c0 :: rest) in *.
  assert (Hln : length (index w) = length names).
  { unfold wf in Hwf. rewrite List.Forall_forall in Hwf.
    symmetry. exact (Hwf _ (lookup_col_In _ _ _ Hnames)). }
  assert (Hlen : len (getitem_mask w (isin names selection))
                 = length (List.filter (selected selection) names)).
  { unfold len, getitem_mask, isin. cbn [index].
    now apply (length_mask_filter_map (selected selection)). }
  exists fw, fl, s'. eexists. split; [exact Hrun|]. split; [exact Hfw|]. split.
  - intros (c & Hc & Hn). rewrite Hlen.
    assert (Hin : In c (List.filter (selected selection) names)).
    { apply filter_In. split; [exact Hn|]. unfold selected.
      apply existsb_exists. exists c. split; [exact Hc|apply cell_eqb_refl]. }
    destruct (List.filter (selected selection) names); [contradiction|discriminate].
  - intros Htext Hnone.
    assert (Hzero : len (getitem_mask w (isin names selection)) = 0%nat).
    { rewrite Hlen. rewrite List.Forall_forall in Htext.
      destruct (List.filter (selected selection) names) as [|n ns] eqn:E; [reflexivity|].
      exfalso. assert (Hn : In n (List.filter (selected selection) names))
        by (rewrite E; now left).
      apply filter_In in Hn as [Hn Hs]. specialize (Htext n Hn).
      destruct n; try discriminate. apply selected_text in Hs.
      exact (Hnone _ Hs Hn). }
    split; [exact Hzero|]. unfold outcome.
    rewrite (heatmap_empty s' fw _ Hfw Hzero), (bar_chart_empty s' fw _ Hfw Hzero).
    cbn [fst snd page]. rewrite Hpage. split; reflexivity.
Qed.

Lemma X8_filter_rows_witness :
  exists fw fl s' w',
    filter_countries 0%nat (Some 1%nat) [Str "Myanmar"]
      (mkState {[ 0%nat := sample_data; 1%nat := sample_long ]} [])
      = (Ok (fw, Some fl), s') /\
    heap s' !! fw = Some w' /\
    len w' <> 0%nat.
Proof.
  destruct (X8_filter_rows
              (mkState {[ 0%nat := sample_data; 1%nat := sample_long ]} [])
              0%nat 1%nat sample_data sample_long _ _ [Str "Myanmar"]
              (proj1 sample_pair_stored) (proj2 sample_pair_stored)
              (wide_wf _ sample_wide) eq_refl eq_refl ltac:(discriminate))
    as (fw & fl & s' & w' & H1 & H2 & H3 & _).
  exists fw, fl, s', w'. repeat split; try assumption.
  apply H3. exists (Str "Myanmar"). split; cbn; tauto.
Defined.

(** * Further properties of the renderers *)

Lemma line_chart_cases (d : loc) (s : state) :
  match heap s !! d with
  | None => outcome (plot_yoy_line_chart d) s = (Raise Dangling, page s)
  | Some df =>
      outcome (plot_yoy_line_chart d) s
      = (Ok tt, page s ++ [if (len df =? 0)%nat then StWarning no_data_message
                           else StLineChart df])
  end.
Proof.
  unfold outcome, plot_yoy_line_chart, bind, deref, st.
  destruct (heap s !! d) as [df|]; [|reflexivity].
  destruct (len df =? 0)%nat; reflexivity.
Qed.

Lemma heatmap_cases (d : loc) (s : state) :
  match heap s !! d with
  | None => outcome (plot_yoy_heatmap d) s = (Raise Dangling, page s)
  | Some df =>
      if (len df =? 0)%nat
      then outcome (plot_yoy_heatmap d) s = (Ok tt, page s ++ [StWarning no_data_message])
      else match lookup_col "Country Name" (columns df) with
           | None => outcome (plot_yoy_heatmap d) s = (Raise KeyError, page s)
           | Some names =>
               (exists h height,
                  outcome (plot_yoy_heatmap d) s = (Ok tt, page s ++ [StHeatmap h height])) \/
               outcome (plot_yoy_heatmap d) s = (Raise ValueError, page s)
           end
  end.
Proof.
  destruct (heap s !! d) as [df|] eqn:Hd.
  - destruct (Nat.eqb_spec (len df) 0) as [Hz|Hnz].
    + unfold outcome. now rewrite (heatmap_empty s d df Hd Hz).
    + destruct (lookup_col "Country Name" (columns df)) as [names|] eqn:Hn.
      * destruct (heatmap_outcomes s d df names Hd Hn Hnz) as ([H|H] & _);
          [left|now right].
        destruct H as (h & height & Hrun & _). now exists h, height.
      * unfold outcome, plot_yoy_heatmap, bind, deref, lift, set_index, getitem.
        rewrite Hd. destruct (Nat.eqb_spec (len df) 0) as [|_]; [contradiction|].
        now rewrite Hn.
  - unfold outcome, plot_yoy_heatmap, bind, deref. now rewrite Hd.
Qed.

Lemma bar_chart_cases (d : loc) (s : state) :
  match heap s !! d with
  | None => outcome (plot_avg_bar_chart d) s = (Raise Dangling, page s)
  | Some df =>
      if (len df =? 0)%nat
      then outcome (plot_avg_bar_chart d) s = (Ok tt, page s ++ [StWarning no_data_message])
      else outcome (plot_avg_bar_chart d) s
           = match bar_frame df with
             | Ok avg => (Ok tt, page s ++ [StBarChart avg])
             | Raise e => (Raise e, page s)
             end
  end.
Proof.
  destruct (heap s !! d) as [df|] eqn:Hd.
  - destruct (Nat.eqb_spec (len df) 0) as [Hz|Hnz].
    + unfold outcome. now rewrite (bar_chart_empty s d df Hd Hz).
    + exact (plot_avg_bar_chart_run s d df Hd Hnz).
  - unfold outcome, plot_avg_bar_chart, bind, deref. now rewrite Hd.
Qed.

(** X9.  What a chart function does to the page.  Each of the three either
    returns having added exactly one element (a chart of its own kind, or
    the warning), or raises having added none; it never changes or removes
    what was on the page, and a chart is only ever drawn for a table with
    at least one row. *)
Theorem X9_chart_adds_one_element (d : loc) (s : state) :
  one_or_none s d (fun e => exists data, e = StLineChart data)
              (outcome (plot_yoy_line_chart d) s) /\
  one_or_none s d (fun e => exists data height, e = StHeatmap data height)
              (outcome (plot_yoy_heatmap d) s) /\
  one_or_none s d (fun e => exists data, e = StBarChart data)
              (outcome (plot_avg_bar_chart d) s).
Proof.
  unfold one_or_none.
  pose proof (line_chart_cases d s) as Hline.
  pose proof (heatmap_cases d s) as Hheat.
  pose proof (bar_chart_cases d s) as Hbar.
  destruct (heap s !! d) as [df|] eqn:Hd.
  - destruct (Nat.eqb_spec (len df) 0) as [Hz|Hnz].
    + rewrite Hline, Hheat, Hbar. repeat split; left; eexists; (split; [reflexivity|]);
        now right.
    + repeat split.
      * rewrite Hline. left. eexists. split; [reflexivity|]. left.
        split; [now eexists|]. now exists df.
      * destruct (lookup_col "Country Name" (columns df)).
        -- destruct Hheat as [(h & height & ->)| ->].
           ++ left. eexists. split; [reflexivity|].
              left. split; [now eexists _, _|]. now exists df.
           ++ right. now eexists.
        -- rewrite Hheat. right. now eexists.
      * rewrite Hbar. destruct (bar_frame df) as [avg|e].
        -- left. eexists. split; [reflexivity|]. left.
           split; [now eexists|]. now exists df.
        -- right. now eexists.
  - rewrite Hline, Hheat, Hbar. repeat split; right; now eexists.
Qed.

(** X10.  What the heatmap shows.  For a table with rows, labels all
    different, a [Country Name] column, at least one "YoY" column and no
    text in its "YoY" columns, the heatmap is drawn from a frame whose row
    labels are the country names and whose columns are exactly the table's
    "YoY" columns, in table order with their cells as they are; the
    figure's height is the binary64 product of the number of rows and 0.8.
    With a [Country Name] column and no "YoY" column [sns.heatmap] raises
    ValueError; with text in a "YoY" column the function raises; without a
    [Country Name] column it raises KeyError.  Nothing is drawn in these
    cases. *)
Theorem X10_heatmap_frame (s : state) (d : loc) (w : DataFrame) :
  heap s !! d = Some w ->
  len w <> 0%nat ->
  (forall names,
     lookup_col "Country Name" (columns w) = Some names ->
     wf w ->
     List.NoDup (labels w) ->
     yoy_cols w <> [] ->
     yoy_without_text w ->
     outcome (plot_yoy_heatmap d) s
     = (Ok tt,
        page s ++
        [StHeatmap (mkDataFrame names
                      (List.filter (fun c => Text.contains "YoY" (fst c)) (columns w)))
                   (mul (of_Z (Z.of_nat (length names))) (round (8 # 10)))])) /\
  (is_Some (lookup_col "Country Name" (columns w)) -> yoy_cols w = [] ->
   outcome (plot_yoy_heatmap d) s = (Raise ValueError, page s)) /\
  (forall l c t,
     lookup_col l (columns w) = Some c -> Text.contains "YoY" l = true ->
     In (Str t) c ->
     exists e, outcome (plot_yoy_heatmap d) s = (Raise e, page s)) /\
  (lookup_col "Country Name" (columns w) = None ->
   outcome (plot_yoy_heatmap d) s = (Raise KeyError, page s)).
Proof.
  intros Hd Hlen.
  assert (Hnone : lookup_col "Country Name" (columns w) = None ->
                  outcome (plot_yoy_heatmap d) s = (Raise KeyError, page s)).
  { intros Hnone. pose proof (heatmap_cases d s) as H. rewrite Hd in H.
    destruct (Nat.eqb_spec (len w) 0) as [E|_]; [contradiction|].
    now rewrite Hnone in H. }
  split; [|split; [|split; [|exact Hnone]]].
  - intros names Hnames Hwf Hnd Hyoy Htext.
    destruct (heatmap_run s d w names Hd Hnames Hlen)
      as (cols & Hfst & Hcols & _ & Hfilter & Hrun).
    destruct (sns_heatmap_cases names cols) as (Hok & _).
    rewrite Hok in Hrun.
    + now rewrite <- (Hfilter Hnd).
    + unfold wf in Hwf. rewrite List.Forall_forall in Hwf.
      pose proof (Hwf _ (lookup_col_In _ _ _ Hnames)) as Hl. cbn [snd] in Hl.
      intros ->. cbn in Hl. congruence.
    + intros ->. cbn in Hfst. congruence.
    + unfold yoy_without_text in Htext. rewrite List.Forall_forall in *.
      intros x Hx. apply in_map_iff in Hx as (c & <- & Hc).
      destruct (Hcols c Hc) as [H1 H2]. now apply Htext.
  - intros [names Hnames] Hyoy.
    exact (proj1 (proj2 (proj2 (heatmap_outcomes s d w names Hd Hnames Hlen))) Hyoy).
  - intros l c t Hl Hyoy Ht.
    destruct (lookup_col "Country Name" (columns w)) as [names|] eqn:Hnames.
    + exists ValueError.
      exact (proj2 (proj2 (proj2 (heatmap_outcomes s d w names Hd Hnames Hlen)))
               l c t Hl Hyoy Ht).
    + exists KeyError. now apply Hnone.
Qed.

Lemma X10_heatmap_frame_witness :
  outcome (plot_yoy_heatmap 0%nat) (single mixed_table)
  = (Ok tt,
     [StHeatmap (mkDataFrame [Str "Indonesia"; Str "Myanmar"]
                   [("2006 YoY (%)", [fl 97; fl 639])])
                (mul (of_Z 2) (round (8 # 10)))]).
Proof.
  exact (proj1 (X10_heatmap_frame (single mixed_table) 0%nat mixed_table
                  (single_stored _) ltac:(discriminate))
           [Str "Indonesia"; Str "Myanmar"] eq_refl
           (wide_wf _ mixed_wide) (wide_labels _ mixed_wide) ltac:(discriminate)
           mixed_without_text).
Defined.

(** The height of a heatmap of three rows: [3 * 0.8] is the binary64
    number written 2.4000000000000004, not the one written 2.4. *)
Lemma height_of_three_rows :
  mul (of_Z 3) (round (8 # 10)) = round (24000000000000004 # 10000000000000000) /\
  mul (of_Z 3) (round (8 # 10)) <> round (24 # 10).
Proof. split; [vm_compute; reflexivity|vm_compute; discriminate]. Qed.

(** X11.  The bar chart on any table with rows, labels all different, a
    [Country Name] column, no column yet called [Average YoY Change (%)], a "YoY" column and no
    text in its "YoY" columns (missing cells allowed): the chart is drawn;
    its frame has one row per row of the table, pairing each country with
    the mean of its row over the "YoY" columns as binary64 computes it
    (missing cells are skipped; the mean is within [tolerance] of the
    arithmetic mean of the row's numbers, a float when the row is in
    range, and NaN when the row has no number); the countries with a number
    come first, by non-increasing mean, and those with NaN come last. *)
Theorem X11_bar_chart_with_gaps (s : state) (d : loc) (w : DataFrame) (names : Series) :
  heap s !! d = Some w ->
  len w <> 0%nat ->
  wf w ->
  List.NoDup (labels w) ->
  lookup_col "Country Name" (columns w) = Some names ->
  lookup_col avg_label (columns w) = None ->
  yoy_cols w <> [] ->
  yoy_without_text w ->
  exists sub means avg ns ms,
    select w (yoy_cols w) = Ok sub /\
    mean_axis1 sub = Ok means /\
    outcome (plot_avg_bar_chart d) s = (Ok tt, page s ++ [StBarChart avg]) /\
    columns avg = [("Country Name", ns); (avg_label, ms)] /\
    len avg = len w /\ length ns = len w /\ length ms = len w /\
    Permutation (combine ns ms) (combine names means) /\
    Forall2 mean_of_row (rows sub) means /\
    exists nums k, ms = nums ++ repeat NaN k /\ StronglySorted cell_ge nums.
Proof.
  intros Hd Hlen Hwf _ Hnames Havg _ Htext.
  exact (bar_chart_general s d w names Hd Hlen Hwf Hnames Havg Htext).
Qed.

Lemma gappy_without_text : yoy_without_text gappy_table.
Proof.
  unfold yoy_without_text. cbn [columns gappy_table from_dict].
  repeat (apply List.Forall_cons;
          [intros H; vm_compute in H; try discriminate; repeat constructor|]).
  apply List.Forall_nil.
Qed.

Lemma X11_bar_chart_with_gaps_witness :
  exists avg,
    outcome (plot_avg_bar_chart 0%nat) (single gappy_table)
      = (Ok tt, [StBarChart avg]) /\
    columns avg = [("Country Name", [Str "B"; Str "A"; Str "C"]);
                   (avg_label, [Float 4; Float 2; NaN])].
Proof.
  destruct (X11_bar_chart_with_gaps (single gappy_table) 0%nat gappy_table
              [Str "A"; Str "B"; Str "C"]
              (single_stored _) ltac:(discriminate) ltac:(repeat constructor)
              ltac:(cbn; repeat (apply List.NoDup_cons; [cbn; intuition congruence|]);
                    apply List.NoDup_nil)
              eq_refl eq_refl ltac:(discriminate) gappy_without_text)
    as (sub & means & avg & ns & ms & _ & _ & Hrun & _).
  exists avg. split; [exact Hrun|].
  vm_compute in Hrun. injection Hrun as <-. reflexivity.
Defined.

Lemma filter_countries_page (yc : loc) (yl : option loc) (sel : list cell) (s : state) :
  page (snd (filter_countries yc yl sel s)) = page s.
Proof.
  unfold filter_countries. destruct sel as [|c0 rest]; [reflexivity|].
  unfold bind, deref, lift, getitem, new, raise, ret.
  destruct (heap s !! yc) as [w|]; [|reflexivity].
  destruct (lookup_col "Country Name" (columns w)) as [names|]; [|reflexivity].
  cbn [heap page].
  destruct yl as [yl|]; [|reflexivity].
  destruct (_ !! yl) as [lf|]; [|reflexivity].
  destruct (lookup_col "Country Name" (columns lf)); reflexivity.
Qed.

Lemma chart_tails (d : loc) (s : state) :
  (exists tail, outcome (plot_yoy_line_chart d) s
                = (fst (plot_yoy_line_chart d s), page s ++ tail) /\
                chart_tail (fst (plot_yoy_line_chart d s)) tail) /\
  (exists tail, outcome (plot_yoy_heatmap d) s
                = (fst (plot_yoy_heatmap d s), page s ++ tail) /\
                chart_tail (fst (plot_yoy_heatmap d s)) tail) /\
  (exists tail, outcome (plot_avg_bar_chart d) s
                = (fst (plot_avg_bar_chart d s), page s ++ tail) /\
                chart_tail (fst (plot_avg_bar_chart d s)) tail).
Proof.
  assert (Hgen : forall (m : M unit),
            (exists e, outcome m s = (Ok tt, page s ++ [e]) /\
                       (is_chart e = true \/ e = StWarning no_data_message)) \/
            (exists ex, outcome m s = (Raise ex, page s)) ->
            exists tail, outcome m s = (fst (m s), page s ++ tail) /\
                         chart_tail (fst (m s)) tail).
  { intros m [(e & He & Hkind)|(ex & Hex)].
    - exists [e]. unfold outcome in *. injection He as Hr Hp. rewrite Hr, Hp.
      split; [reflexivity|]. left. split; [reflexivity|]. now exists e.
    - exists []. unfold outcome in *. injection Hex as Hr Hp. rewrite Hr, Hp, app_nil_r.
      split; [reflexivity|]. right. now exists ex. }
  pose proof (line_chart_cases d s) as Hline.
  pose proof (heatmap_cases d s) as Hheat.
  pose proof (bar_chart_cases d s) as Hbar.
  destruct (heap s !! d) as [df|].
  - repeat split; apply Hgen.
    + left. eexists. split; [exact Hline|].
      destruct (len df =? 0)%nat; [now right|now left].
    + destruct (len df =? 0)%nat.
      * left. eexists. split; [exact Hheat|now right].
      * destruct (lookup_col "Country Name" (columns df)).
        -- destruct Hheat as [(h & height & Hh)|Hh].
           ++ left. eexists. split; [exact Hh|now left].
           ++ right. eexists. exact Hh.
        -- right. eexists. exact Hheat.
    + destruct (len df =? 0)%nat.
      * left. eexists. split; [exact Hbar|now right].
      * rewrite Hbar. destruct (bar_frame df).
        -- left. eexists. split; [reflexivity|now left].
        -- right. now eexists.
  - repeat split; apply Hgen; right; eexists; eassumption.
Qed.

(** [display_results] up to the chart. *)
Lemma display_results_run (s : state) (yc : loc) (yl : option loc)
      (viz : viz_type) (sel : list cell) (w : DataFrame) :
  heap s !! yc = Some w ->
  let s1 := mkState (heap s)
              (page s ++ [StMarkdown "### Year-over-Year Increase in Domestic Government Health Expenditure (%)"]) in
  let s3 := mkState (heap s)
              (((page s ++ [StMarkdown "### Year-over-Year Increase in Domestic Government Health Expenditure (%)"])
                ++ [StDataframe w (yoy_cols w) (yoy_cols w)])
               ++ [StMarkdown "### Visualizations"]) in
  display_results (Some yc) yl viz sel s =
  match render_style w (yoy_cols w) (yoy_cols w) with
  | Raise e => (Raise e, s1)
  | Ok _ =>
      match lookup_col "Country Name" (columns w) with
      | None => (Raise KeyError, s3)
      | Some _ =>
          match filter_countries yc yl sel s3 with
          | (Ok f, s4) =>
              match viz with
              | LineChart =>
                  match snd f with
                  | Some filtered_long => plot_yoy_line_chart filtered_long s4
                  | None => (Raise TypeError, s4)
                  end
              | Heatmap => plot_yoy_heatmap (fst f) s4
              | BarChart => plot_avg_bar_chart (fst f) s4
              end
          | (Raise e, s4) => (Raise e, s4)
          end
      end
  end.
Proof.
  intros Hyc. cbv zeta.
  unfold display_results, table_view.
  unfold bind at 1. unfold st at 1. cbn [heap page].
  unfold bind at 1. unfold bind at 1. unfold deref at 1. cbn [heap page].
  rewrite Hyc. unfold bind at 1. unfold lift at 1.
  destruct (render_style w (yoy_cols w) (yoy_cols w)) as [[]|e]; [|reflexivity].
  unfold st at 1. cbn [heap page].
  unfold bind at 1. unfold st at 1. cbn [heap page].
  unfold bind at 1. unfold deref at 1. cbn [heap page]. rewrite Hyc.
  unfold bind at 1. unfold lift at 1, getitem at 1.
  destruct (lookup_col "Country Name" (columns w)); [|reflexivity].
  unfold bind at 1.
  destruct (filter_countries yc yl sel _) as [[f|e] s4]; [|reflexivity].
  destruct viz; try reflexivity.
  destruct (snd f); reflexivity.
Qed.

(** X12.  What [display_results] puts on the page.  Given a table with
    labels all different, it
    shows the heading first.  When no "YoY" column holds text, the table
    view (with the "YoY" columns formatted and coloured) and the second
    heading follow, then at most one more element: exactly one, a chart or
    the warning, when it returns, and none when it raises.  When a "YoY"
    column holds text, the table view raises ValueError and the heading is
    all that is shown.  Given no table it does nothing. *)
Theorem X12_display_results_page (s : state) (yc : loc) (yl : option loc)
        (viz : viz_type) (sel : list cell) (w : DataFrame) :
  heap s !! yc = Some w ->
  List.NoDup (labels w) ->
  display_results None yl viz sel s = (Ok tt, s) /\
  (yoy_without_text w ->
   exists tail,
     outcome (display_results (Some yc) yl viz sel) s
     = (fst (display_results (Some yc) yl viz sel s),
        page s ++
        [StMarkdown "### Year-over-Year Increase in Domestic Government Health Expenditure (%)";
         StDataframe w (yoy_cols w) (yoy_cols w);
         StMarkdown "### Visualizations"] ++ tail) /\
     chart_tail (fst (display_results (Some yc) yl viz sel s)) tail) /\
  (forall l c t,
     lookup_col l (columns w) = Some c -> Text.contains "YoY" l = true ->
     In (Str t) c ->
     outcome (display_results (Some yc) yl viz sel) s
     = (Raise ValueError,
        page s ++
        [StMarkdown "### Year-over-Year Increase in Domestic Government Health Expenditure (%)"])).
Proof.
  intros Hyc _. split; [reflexivity|].
  destruct (render_style_cases w) as (Hstyle & Hraise & _).
  split.
  - intros Htext.
    unfold outcome. rewrite (display_results_run s yc yl viz sel w Hyc). cbv zeta.
    rewrite (Hstyle Htext).
    set (s3 := mkState _ _).
    set (three := [StMarkdown "### Year-over-Year Increase in Domestic Government Health Expenditure (%)";
                   StDataframe w (yoy_cols w) (yoy_cols w);
                   StMarkdown "### Visualizations"]).
    assert (Hp3 : page s3 = page s ++ three).
    { subst s3 three. cbn [page]. now rewrite <- !app_assoc. }
    destruct (lookup_col "Country Name" (columns w)) as [names|].
    + pose proof (filter_countries_page yc yl sel s3) as Hpf.
      destruct (filter_countries yc yl sel s3) as [[f|e] s4]; cbn [snd] in Hpf.
      * assert (Hchart : forall m : M unit,
                  (exists tail, outcome m s4 = (fst (m s4), page s4 ++ tail) /\
                                chart_tail (fst (m s4)) tail) ->
                  exists tail, (fst (m s4), page (snd (m s4)))
                               = (fst (m s4), page s ++ three ++ tail) /\
                               chart_tail (fst (m s4)) tail).
        { intros m (tail & Hout & Htail). exists tail. split; [|exact Htail].
          unfold outcome in Hout. injection Hout as Hout. rewrite Hout, Hpf, Hp3.
          now rewrite <- app_assoc. }
        destruct viz.
        -- destruct (snd f) as [lf|].
           ++ apply Hchart. apply (chart_tails lf s4).
           ++ exists []. cbn [fst snd]. rewrite Hpf, Hp3, app_nil_r.
              split; [reflexivity|]. right. now eexists.
        -- apply Hchart. apply (chart_tails (fst f) s4).
        -- apply Hchart. apply (chart_tails (fst f) s4).
      * exists []. cbn [fst snd]. rewrite Hpf, Hp3, app_nil_r.
        split; [reflexivity|]. right. now eexists.
    + exists []. cbn [fst snd]. rewrite Hp3, app_nil_r.
      split; [reflexivity|]. right. now eexists.
  - intros l c t Hl Hyoy Ht.
    unfold outcome. rewrite (display_results_run s yc yl viz sel w Hyc). cbv zeta.
    now rewrite (Hraise l c t Hl Hyoy Ht).
Qed.

Lemma sample_without_text : yoy_without_text sample_data.
Proof.
  unfold yoy_without_text. cbn [columns sample_data from_dict].
  repeat (apply List.Forall_cons;
          [intros H; vm_compute in H; try discriminate; repeat constructor|]).
  apply List.Forall_nil.
Qed.

Lemma X12_display_results_page_witness :
  exists tail,
    outcome (display_results (Some 0%nat) (Some 1%nat) Heatmap [Str "Myanmar"])
            (mkState {[ 0%nat := sample_data; 1%nat := sample_long ]} [])
    = (fst (display_results (Some 0%nat) (Some 1%nat) Heatmap [Str "Myanmar"]
              (mkState {[ 0%nat := sample_data; 1%nat := sample_long ]} [])),
       [StMarkdown "### Year-over-Year Increase in Domestic Government Health Expenditure (%)";
        StDataframe sample_data (yoy_cols sample_data) (yoy_cols sample_data);
        StMarkdown "### Visualizations"] ++ tail) /\
    chart_tail (fst (display_results (Some 0%nat) (Some 1%nat) Heatmap [Str "Myanmar"]
                       (mkState {[ 0%nat := sample_data; 1%nat := sample_long ]} [])))
               tail.
Proof.
  exact (proj1 (proj2 (X12_display_results_page
                  (mkState {[ 0%nat := sample_data; 1%nat := sample_long ]} [])
                  0%nat (Some 1%nat) Heatmap [Str "Myanmar"] sample_data
                  (proj1 sample_pair_stored) (wide_labels _ sample_wide)))
           sample_without_text).
Defined.


(** * The script from top to bottom *)

Lemma mask_filter_In {X} (m : list bool) (l : list X) (x : X) :
  In x (mask_filter m l) -> In x l.
Proof.
  revert l. induction m as [|b m IH]; intros [|y l]; cbn; try tauto.
  destruct b; cbn; [intros [->|H]; [now left|right; now apply IH]|].
  intros H. right. now apply IH.
Qed.

Lemma chartable_mask (w : DataFrame) (m : list bool) :
  chartable w -> chartable (getitem_mask w m).
Proof.
  intros ([names Hn] & Havg & Htext). unfold chartable, getitem_mask. cbn [columns].
  rewrite !lookup_col_mask, Hn, Havg. split; [now eexists|]. split; [reflexivity|].
  unfold yoy_without_text in *. cbn [columns]. rewrite List.Forall_forall in *.
  intros c Hc Hyoy. apply in_map_iff in Hc as (c0 & <- & Hc0). cbn [fst snd] in *.
  specialize (Htext c0 Hc0 Hyoy). unfold no_text in *.
  rewrite List.Forall_forall in *. intros x Hx. apply Htext.
  now apply mask_filter_In in Hx.
Qed.

Lemma wide_chartable (w : DataFrame) :
  WideTable w -> yoy_without_text w -> chartable w.
Proof.
  intros Hwide Htext. split; [exact (wide_name w Hwide)|]. split; [|exact Htext].
  destruct (lookup_col avg_label (columns w)) as [c|] eqn:E; [|reflexivity].
  exfalso. apply lookup_col_In in E.
  pose proof (wide_years w Hwide) as Hy. rewrite List.Forall_forall in Hy.
  assert (Hyc : In (avg_label, c) (year_columns w)).
  { unfold year_columns. apply filter_In. split; [exact E|reflexivity]. }
  destruct (Hy _ Hyc) as [y Hsome]. cbn in Hsome. discriminate.
Qed.

(** On a chartable table each chart function returns with one element. *)
Lemma chart_ok (s : state) (d : loc) (w : DataFrame) :
  heap s !! d = Some w -> chartable w -> wf w -> yoy_cols w <> [] ->
  (exists e, outcome (plot_yoy_heatmap d) s = (Ok tt, page s ++ [e]) /\
             (is_chart e = true \/ e = StWarning no_data_message)) /\
  (exists e, outcome (plot_avg_bar_chart d) s = (Ok tt, page s ++ [e]) /\
             (is_chart e = true \/ e = StWarning no_data_message)).
Proof.
  intros Hd ([names Hn] & Havg & Htext) Hwf Hyoy.
  pose proof (heatmap_cases d s) as Hheat.
  pose proof (bar_chart_cases d s) as Hbar.
  rewrite Hd in Hheat, Hbar.
  destruct (Nat.eqb_spec (len w) 0) as [Hz|Hnz].
  - split; eexists; (split; [eassumption|now right]).
  - destruct (proj1 (proj2 (heatmap_outcomes s d w names Hd Hn Hnz)) Hwf Hyoy Htext)
      as (h & height & Hh & _).
    destruct (bar_frame_general w names Hn Havg Htext)
      as (sub & means & _ & _ & _ & _ & Hf).
    rewrite Hf in Hbar.
    split; eexists; (split; [eassumption|now left]).
Qed.

Lemma line_chart_ok (s : state) (d : loc) (l : DataFrame) :
  heap s !! d = Some l ->
  exists e, outcome (plot_yoy_line_chart d) s = (Ok tt, page s ++ [e]) /\
            (is_chart e = true \/ e = StWarning no_data_message).
Proof.
  intros Hd. pose proof (line_chart_cases d s) as H. rewrite Hd in H.
  eexists. split; [exact H|]. destruct (len l =? 0)%nat; [now right|now left].
Qed.

Lemma outcome_state {A} (m : M A) (s : state) (r : result A) (p : list element) :
  outcome m s = (r, p) -> exists s', m s = (r, s') /\ page s' = p.
Proof.
  unfold outcome. intros [= <- <-]. exists (snd (m s)).
  split; [apply surjective_pairing|reflexivity].
Qed.

Lemma display_results_ok (s : state) (yc yl : loc) (w l : DataFrame)
      (viz : viz_type) (sel : list cell) :
  heap s !! yc = Some w -> heap s !! yl = Some l ->
  chartable w -> wf w -> yoy_cols w <> [] ->
  is_Some (lookup_col "Country Name" (columns l)) ->
  exists s' e,
    display_results (Some yc) (Some yl) viz sel s = (Ok tt, s') /\
    page s' = page s ++ results_view w e /\
    (is_chart e = true \/ e = StWarning no_data_message).
Proof.
  intros Hyc Hyl Hchart Hwf Hyoy [lnames Hlnames].
  destruct Hchart as ([names Hnames] & Havg & Htext).
  rewrite (display_results_run s yc (Some yl) viz sel w Hyc). cbv zeta.
  rewrite (proj1 (render_style_cases w) Htext).
  rewrite Hnames. set (s3 := mkState _ _).
  assert (Hp3 : forall e, page s3 ++ [e] = page s ++ results_view w e).
  { intros e. subst s3. unfold results_view. cbn [page]. now rewrite <- !app_assoc. }
  assert (Hfilter : exists fw fl s4 w' l',
             filter_countries yc (Some yl) sel s3 = (Ok (fw, Some fl), s4) /\
             heap s4 !! fw = Some w' /\ heap s4 !! fl = Some l' /\
             (chartable w' /\ wf w' /\ yoy_cols w' <> []) /\ page s4 = page s3).
  { destruct sel as [|c0 rest].
    - exists yc, yl, s3, w, l. split; [reflexivity|]. split; [exact Hyc|].
      split; [exact Hyl|]. split; [|reflexivity].
      split; [|now split].
      split; [eexists; exact Hnames|]. split; assumption.
    - destruct (filter_countries_run s3 yc yl w l names lnames c0 rest
                  Hyc Hyl Hnames Hlnames)
        as (fw & fl & s4 & Hrun & Hfw & Hfl & _ & _ & _ & _ & Hpage).
      exists fw, fl, s4. eexists _, _. split; [exact Hrun|].
      split; [exact Hfw|]. split; [exact Hfl|]. split; [|exact Hpage].
      split; [|split].
      + apply chartable_mask. split; [eexists; exact Hnames|]. split; assumption.
      + now apply mask_keeps_wf.
      + unfold yoy_cols. now rewrite labels_getitem_mask. }
  destruct Hfilter
    as (fw & fl & s4 & w' & l' & -> & Hfw & Hfl & (Hw' & Hwf' & Hyoy') & Hp4).
  cbn [fst snd].
  assert (Hdone : forall m : M unit,
            (exists e, outcome m s4 = (Ok tt, page s4 ++ [e]) /\
                       (is_chart e = true \/ e = StWarning no_data_message)) ->
            exists s' e, m s4 = (Ok tt, s') /\ page s' = page s ++ results_view w e /\
                         (is_chart e = true \/ e = StWarning no_data_message)).
  { intros m (e & Hout & Hkind). apply outcome_state in Hout as (s' & Hrun & Hpage).
    exists s', e. split; [exact Hrun|]. split; [|exact Hkind].
    now rewrite Hpage, Hp4, Hp3. }
  destruct viz; apply Hdone.
  - exact (line_chart_ok s4 fl l' Hfl).
  - exact (proj1 (chart_ok s4 fw w' Hfw Hw' Hwf' Hyoy')).
  - exact (proj2 (chart_ok s4 fw w' Hfw Hw' Hwf' Hyoy')).
Qed.

(** The transformer and the renderer in sequence, on a wide table. *)
Lemma process_then_display (s : state) (d : loc) (df : DataFrame)
      (viz : viz_type) (sel : list cell) :
  heap s !! d = Some df ->
  WideTable df -> yoy_cols df <> [] -> yoy_without_text df ->
  exists s' e,
    bind (process_data (Some d))
         (fun r => display_results (fst r) (snd r) viz sel) s = (Ok tt, s') /\
    page s' = page s ++ results_view df e /\
    (is_chart e = true \/ e = StWarning no_data_message).
Proof.
  intros Hd Hwide Hyoy Htext.
  destruct (wide_name df Hwide) as [names Hnames].
  destruct (wide_code df Hwide) as [codes Hcodes].
  destruct (process_data_wide_full s d df names codes Hd Hwide Hnames Hcodes)
    as (lw & ll & s1 & Hrun & Hlw & Hll & _ & Hpage).
  destruct (display_results_ok s1 lw ll df _ viz sel Hlw Hll
              (wide_chartable df Hwide Htext) (wide_wf df Hwide) Hyoy
              ltac:(eexists; reflexivity))
    as (s' & e & Hdisp & Hpage' & Hkind).
  exists s', e. unfold bind. rewrite Hrun. cbn [fst snd].
  split; [exact Hdisp|]. split; [|exact Hkind]. now rewrite Hpage', Hpage.
Qed.

(** X13.  The script runs to the end on every good input.  For a workbook
    whose sheet is a wide table with at least one "YoY" column and no text
    in its "YoY" columns, for the
    built-in sample, for every chart type and every country selection, it
    returns normally and the page is, in order: the header, the list of
    sheets (or the upload prompt), the heading, the table view, the second
    heading, exactly one chart or warning, the documentation panel, the
    rule and the footer.  With no file and the sample box not ticked it
    shows the header, the prompt and the footer. *)
Theorem X13_script_completes (s : state) (viz : viz_type) (sel : list cell) :
  (forall (wb : Workbook) (df : DataFrame) (use_sample : bool),
     dict_get sheet_name wb = Some df ->
     WideTable df -> yoy_cols df <> [] -> yoy_without_text df ->
     exists s' e,
       main (Some wb) use_sample viz sel s = (Ok tt, s') /\
       page s' = page s ++ page_header
                 ++ [StSidebarWrite "Available sheets:" (map fst wb)]
                 ++ results_view df e ++ page_footer /\
       (is_chart e = true \/ e = StWarning no_data_message)) /\
  (exists s' e,
     main None true viz sel s = (Ok tt, s') /\
     page s' = page s ++ page_header
               ++ [StInfo "Please upload an Excel file containing the YoY_Health_Expenditure sheet."]
               ++ results_view sample_data e ++ page_footer /\
     (is_chart e = true \/ e = StWarning no_data_message)) /\
  (exists s',
     main None false viz sel s = (Ok tt, s') /\
     heap s' = heap s /\
     page s' = page s ++ page_header
               ++ [StInfo "Please upload an Excel file containing the YoY_Health_Expenditure sheet."]
               ++ page_footer).
Proof.
  split; [|split].
  - intros wb df use_sample Hsheet Hwide Hyoy Htext.
    unfold main. unfold bind at 1 2 3 4 5. unfold st at 1 2 3 4. cbn [heap page].
    set (s0 := mkState _ _).
    destruct (load_data_found wb df s0 Hsheet) as (l & s1 & Hload & Hl & _ & Hpage1).
    unfold bind at 1. rewrite Hload.
    destruct (process_then_display s1 l df viz sel Hl Hwide Hyoy Htext)
      as (s2 & e & Hrun & Hpage2 & Hkind).
    rewrite Hrun. unfold bind, st. cbn [heap page].
    eexists _, e. split; [reflexivity|]. split; [|exact Hkind].
    cbn [page]. rewrite Hpage2, Hpage1. subst s0. cbn [page].
    unfold page_header, page_footer. repeat rewrite <- app_assoc. reflexivity.
  - unfold main. unfold bind at 1 2 3 4 5. unfold st at 1 2 3 4. cbn [heap page].
    unfold bind at 1. unfold st at 1. cbn [heap page].
    unfold bind at 1. unfold new at 1. cbn [heap page].
    set (s1 := mkState _ _).
    destruct (process_then_display s1 (fresh (dom (heap s))) sample_data viz sel
                ltac:(apply lookup_insert_eq) sample_wide ltac:(discriminate)
                sample_without_text)
      as (s2 & e & Hrun & Hpage2 & Hkind).
    rewrite Hrun. unfold bind, st. cbn [heap page].
    eexists _, e. split; [reflexivity|]. split; [|exact Hkind].
    cbn [page]. rewrite Hpage2. subst s1. cbn [page].
    unfold page_header, page_footer. repeat rewrite <- app_assoc. reflexivity.
  - eexists. split; [reflexivity|]. cbn. split; [reflexivity|].
    unfold page_header, page_footer. repeat rewrite <- app_assoc. reflexivity.
Qed.

Lemma X13_script_completes_witness :
  exists s' e,
    main (Some [("Notes", no_rows); (sheet_name, mixed_table)]) false Heatmap
         [Str "Myanmar"] empty_state = (Ok tt, s') /\
    page s' = page empty_state ++ page_header
              ++ [StSidebarWrite "Available sheets:" ["Notes"; sheet_name]]
              ++ results_view mixed_table e ++ page_footer /\
    (is_chart e = true \/ e = StWarning no_data_message).
Proof.
  exact (proj1 (X13_script_completes empty_state Heatmap [Str "Myanmar"])
           [("Notes", no_rows); (sheet_name, mixed_table)] mixed_table false
           eq_refl mixed_wide ltac:(discriminate)
           ltac:(unfold yoy_without_text; cbn [columns mixed_table from_dict];
                 repeat (apply List.Forall_cons;
                         [intros H; vm_compute in H; try discriminate;
                          repeat constructor|]);
                 apply List.Forall_nil)).
Defined.


(** * The documented label format *)

Lemma contains_skip (sub : string) (a : ascii) (s : string) :
  Text.contains sub s = true -> Text.contains sub (String a s) = true.
Proof. intros H. cbn [Text.contains]. rewrite H. apply orb_true_r. Qed.

(** X14.  A column labelled in the documented format "YYYY YoY (%)" is
    handled consistently by every part of the script: it is pivoted (it is
    not an id column), its year is the number YYYY, and it is one of the
    "YoY" columns that the table view formats and the heatmap and bar chart
    read. *)
Theorem X14_documented_format (a b c d : ascii) :
  Text.is_digit a = true -> Text.is_digit b = true ->
  Text.is_digit c = true -> Text.is_digit d = true ->
  let label := documented_label a b c d in
  is_id id_vars label = false /\
  Text.year_of_label label
  = Some (1000 * Text.digit_val a + 100 * Text.digit_val b
          + 10 * Text.digit_val c + Text.digit_val d)%Z /\
  astype_int (str_extract_d4 [Str label])
  = Ok [Int (1000 * Text.digit_val a + 100 * Text.digit_val b
             + 10 * Text.digit_val c + Text.digit_val d)%Z] /\
  Text.contains "YoY" label = true.
Proof.
  intros Ha Hb Hc Hd. cbv zeta.
  assert (Hyear : Text.year_of_label (documented_label a b c d)
                  = Some (1000 * Text.digit_val a + 100 * Text.digit_val b
                          + 10 * Text.digit_val c + Text.digit_val d)%Z).
  { unfold Text.year_of_label, documented_label.
    rewrite re_search_d4_eq, Ha, Hb, Hc, Hd. cbn [andb].
    unfold Text.int_of_string. cbn [Text.all_digits]. rewrite Ha, Hb, Hc, Hd.
    cbn [andb Text.int_digits]. f_equal. lia. }
  split; [|split; [exact Hyear|split]].
  - unfold is_id, id_vars, documented_label. cbn [existsb String.eqb].
    destruct (Ascii.eqb_spec a "C") as [->|_]; [discriminate Ha|reflexivity].
  - rewrite astype_extract_label, Hyear. reflexivity.
  - unfold documented_label. do 5 apply contains_skip. reflexivity.
Qed.

Lemma X14_documented_format_witness :
  is_id id_vars "2006 YoY (%)" = false /\
  Text.year_of_label "2006 YoY (%)" = Some 2006%Z /\
  astype_int (str_extract_d4 [Str "2006 YoY (%)"]) = Ok [Int 2006] /\
  Text.contains "YoY" "2006 YoY (%)" = true.
Proof.
  exact (X14_documented_format "2" "0" "0" "6" eq_refl eq_refl eq_refl eq_refl).
Defined.

(** * The script never changes an object that exists *)

Lemma keeps_read_excel (h0 : gmap loc DataFrame) (wb : Workbook) :
  keeps h0 (read_excel wb) any.
Proof.
  induction wb as [|[name df] rest IH]; cbn [read_excel].
  - apply keeps_ret.
  - eapply keeps_bind; [apply keeps_new|]. intros l _.
    eapply keeps_bind; [exact IH|]. intros ls _. apply keeps_ret.
Qed.

Lemma keeps_load_data (h0 : gmap loc DataFrame) (f : option Workbook) :
  keeps h0 (load_data f) any.
Proof.
  unfold load_data. destruct f as [wb|]; [|apply keeps_ret].
  eapply keeps_bind; [apply keeps_read_excel|]. intros ls _.
  eapply keeps_bind; [apply keeps_st|]. intros _ _.
  destruct (dict_get sheet_name ls); [apply keeps_ret|].
  eapply keeps_bind; [apply keeps_st|]. intros _ _. apply keeps_ret.
Qed.

Lemma keeps_main (h0 : gmap loc DataFrame) (f : option Workbook) (use_sample : bool)
      (viz : viz_type) (sel : list cell) :
  keeps h0 (main f use_sample viz sel) any.
Proof.
  unfold main.
  do 4 (eapply keeps_bind; [apply keeps_st|]; intros _ _).
  eapply keeps_bind.
  - destruct f as [wb|].
    + eapply keeps_bind; [apply keeps_load_data|]. intros yoy_data _.
      destruct yoy_data as [l|]; [|apply keeps_ret].
      eapply keeps_bind; [apply keeps_process_data|]. intros r _.
      apply keeps_display_results.
    + eapply keeps_bind; [apply keeps_st|]. intros _ _.
      destruct use_sample; [|apply keeps_ret].
      eapply keeps_bind; [eapply keeps_any, keeps_new|]. intros l _.
      eapply keeps_bind; [apply keeps_process_data|]. intros r _.
      apply keeps_display_results.
  - intros _ _.
    do 2 (eapply keeps_bind; [apply keeps_st|]; intros _ _).
    apply keeps_st.
Qed.

Section Grows.

Lemma grows_ret {A} (a : A) : grows (ret a).
Proof. intros s. exists []. cbn. now rewrite app_nil_r. Qed.

Lemma grows_raise {A} (e : exn) : grows (@raise A e).
Proof. intros s. exists []. cbn. now rewrite app_nil_r. Qed.

Lemma grows_lift {A} (r : result A) : grows (lift r).
Proof. intros s. exists []. cbn. now rewrite app_nil_r. Qed.

Lemma grows_st (e : element) : grows (st e).
Proof. intros s. now exists [e]. Qed.

Lemma grows_deref (l : loc) : grows (deref l).
Proof.
  intros s. exists []. unfold deref. destruct (heap s !! l); cbn; now rewrite app_nil_r.
Qed.

Lemma grows_new (df : DataFrame) : grows (new df).
Proof. intros s. exists []. cbn. now rewrite app_nil_r. Qed.

Lemma grows_assign (l : loc) (df : DataFrame) : grows (assign l df).
Proof. intros s. exists []. cbn. now rewrite app_nil_r. Qed.

Lemma grows_bind {A B} (m : M A) (f : A -> M B) :
  grows m -> (forall a, grows (f a)) -> grows (bind m f).
Proof.
  intros Hm Hf s. unfold bind. destruct (Hm s) as (t & Ht).
  destruct (m s) as [[a|e] s1]; cbn [snd] in *.
  - destruct (Hf a s1) as (t' & Ht'). exists (t ++ t').
    now rewrite Ht', Ht, <- app_assoc.
  - now exists t.
Qed.

Ltac grows_step :=
  match goal with
  | |- grows (bind _ _) => apply grows_bind; [|intros ?]
  | |- grows (ret _) => apply grows_ret
  | |- grows (raise _) => apply grows_raise
  | |- grows (lift _) => apply grows_lift
  | |- grows (st _) => apply grows_st
  | |- grows (deref _) => apply grows_deref
  | |- grows (new _) => apply grows_new
  | |- grows (assign _ _) => apply grows_assign
  | |- grows (if ?b then _ else _) => destruct b
  | |- grows (match ?x with _ => _ end) => destruct x
  end.

Lemma grows_read_excel (wb : Workbook) : grows (read_excel wb).
Proof.
  induction wb as [|[name df] rest IH]; cbn [read_excel]; [apply grows_ret|].
  apply grows_bind; [apply grows_new|]. intros l.
  apply grows_bind; [exact IH|]. intros ls. apply grows_ret.
Qed.

Lemma grows_load_data (f : option Workbook) : grows (load_data f).
Proof.
  unfold load_data. destruct f as [wb|]; [|apply grows_ret].
  apply grows_bind; [apply grows_read_excel|]. intros ls. repeat grows_step.
Qed.

Lemma grows_process_data (data : option loc) : grows (process_data data).
Proof. unfold process_data, copy. destruct data; repeat grows_step. Qed.

Lemma grows_display_results (yc yl : option loc) (viz : viz_type) (sel : list cell) :
  grows (display_results yc yl viz sel).
Proof.
  unfold display_results, table_view, filter_countries, plot_yoy_line_chart,
    plot_yoy_heatmap, plot_avg_bar_chart, copy.
  destruct yc as [yc|]; [|apply grows_ret]. repeat grows_step.
Qed.

Lemma grows_results (f : option Workbook) (use_sample : bool)
      (viz : viz_type) (sel : list cell) :
  grows (match f with
         | Some _ =>
             yoy_data <- load_data f ;;
             match yoy_data with
             | Some _ =>
                 r <- process_data yoy_data ;;
                 display_results (fst r) (snd r) viz sel
             | None => ret tt
             end
         | None =>
             st (StInfo "Please upload an Excel file containing the YoY_Health_Expenditure sheet.") ;;;
             if use_sample then
               sample <- new sample_data ;;
               r <- process_data (Some sample) ;;
               display_results (fst r) (snd r) viz sel
             else ret tt
         end ;;;
         st (StSidebarExpander "Documentation") ;;;
         st (StMarkdown "---") ;;;
         st (StMarkdown "### Health Expenditure Analysis Dashboard | Created with Streamlit")).
Proof.
  apply grows_bind; [|intros _; repeat grows_step].
  destruct f as [wb|].
  - apply grows_bind; [apply grows_load_data|]. intros [l|]; [|apply grows_ret].
    apply grows_bind; [apply grows_process_data|]. intros r.
    apply grows_display_results.
  - apply grows_bind; [apply grows_st|]. intros _.
    destruct use_sample; [|apply grows_ret].
    apply grows_bind; [apply grows_new|]. intros l.
    apply grows_bind; [apply grows_process_data|]. intros r.
    apply grows_display_results.
Qed.

End Grows.

(** X15.  Whatever the upload, the sample box, the chart type and the
    selection, and whether it ends normally or with an exception, the
    loader and the whole script leave every object that existed before
    with the value it had, and only ever add elements at the end of the
    page. *)
Theorem X15_script_keeps_objects (s : state) (f : option Workbook) (use_sample : bool)
        (viz : viz_type) (sel : list cell) :
  heap s ⊆ heap (snd (load_data f s)) /\
  heap s ⊆ heap (snd (main f use_sample viz sel s)) /\
  (forall l df, heap s !! l = Some df ->
                heap (snd (main f use_sample viz sel s)) !! l = Some df) /\
  exists added, page (snd (main f use_sample viz sel s)) = page s ++ page_header ++ added.
Proof.
  assert (Hmain : heap s ⊆ heap (snd (main f use_sample viz sel s)))
    by exact (proj1 (keeps_main (heap s) f use_sample viz sel s (reflexivity _))).
  split; [exact (proj1 (keeps_load_data (heap s) f s (reflexivity _)))|].
  split; [exact Hmain|]. split.
  - intros l df Hl. exact (lookup_weaken _ _ _ _ Hl Hmain).
  - unfold main. unfold bind at 1 2 3 4. unfold st at 1 2 3 4. cbn [heap page].
    set (s0 := mkState _ _).
    destruct (grows_results f use_sample viz sel s0) as (added & Hadded).
    exists added. rewrite Hadded. subst s0. cbn [page]. unfold page_header.
    now rewrite <- !app_assoc.
Qed.
